(** * VibeLux utility scripts: a shallow embedding and its properties

    The repository is a set of stand-alone Python scripts.  This development
    embeds the three families that carry logic:

    - [extract_form_fields.py]: the balanced-tag scan that isolates one
      [<form>] record of a Formidable XML export, and the conversion of the
      parsed record into a dictionary;
    - [analyze_questionnaire.py]: the categorisation of the extracted fields;
    - the five line counters ([count_lines.py], [count_code_lines.py],
      [accurate_count.py], [final_count.py], [simple_count.py]).

    Python [str] values are lists of characters (code points below 256),
    Python [int]s are [Z], an exception is a [Raise] result, and library
    calls whose code is not part of the repository
    ([ElementTree.fromstring], [json.loads], [int] and [str] on a value) are
    section variables.  The definitions come first, the properties second. *)

From Stdlib Require Import String Ascii.
From Stdlib Require Import List ZArith Lia Bool.
From Stdlib Require Floats.PrimFloat.
From Stdlib Require Import Sorting.Sorted Sorting.Permutation.
From Stdlib Require Import DecimalString.
Import ListNotations.

Set Implicit Arguments.
Set Warnings "-register-all".
Open Scope bool_scope.

(** ** Python strings *)

Module PyStr.

Definition pystr := list ascii.

(** String literals of the source are written [str "..."]. *)
Definition str (s : string) : pystr := list_ascii_of_string s.

(** [len(s)] *)
Definition len (s : pystr) : Z := Z.of_nat (length s).

(** [a == b] on strings *)
Fixpoint eqb (a b : pystr) : bool :=
  match a, b with
  | [], [] => true
  | c :: a', d :: b' => Ascii.eqb c d && eqb a' b'
  | _, _ => false
  end.

(** [s.startswith(sub)] *)
Fixpoint startswith (s sub : pystr) {struct sub} : bool :=
  match sub with
  | [] => true
  | c :: sub' =>
      match s with
      | [] => false
      | d :: s' => Ascii.eqb c d && startswith s' sub'
      end
  end.

(** [s.endswith(sub)] *)
Definition endswith (s sub : pystr) : bool :=
  startswith (rev s) (rev sub).

(** [sub in s]: [sub] occurs in [s] as a substring. *)
Fixpoint contains (sub s : pystr) : bool :=
  startswith s sub ||
  match s with
  | [] => false
  | _ :: s' => contains sub s'
  end.

(** Index normalisation of a slice bound: a negative bound counts from the
    end, and every bound is clamped to [0, len]. *)
Definition norm_index (n i : Z) : Z :=
  if (i <? 0)%Z then Z.max 0 (i + n) else Z.min i n.

(** [s[a:b]] *)
Definition slice (s : pystr) (a b : Z) : pystr :=
  let a' := norm_index (len s) a in
  let b' := norm_index (len s) b in
  firstn (Z.to_nat (b' - a')) (skipn (Z.to_nat a') s).

(** [s.find(sub)]: the lowest index at which [sub] occurs, or [-1]. *)
Fixpoint find_from (s sub : pystr) (i : Z) : Z :=
  if startswith s sub then i
  else match s with
       | [] => (-1)%Z
       | _ :: s' => find_from s' sub (i + 1)
       end.

Definition find (s sub : pystr) : Z := find_from s sub 0.

(** [s.rfind(sub, lo, hi)]: the highest index [i] with [sub] contained in
    [s[lo:hi]] at [i], or [-1].  [best] is the highest match seen so far. *)
Fixpoint rfind_from (s sub : pystr) (i lo hi best : Z) : Z :=
  let best' :=
    if (lo <=? i)%Z && (i + len sub <=? hi)%Z && startswith s sub
    then i else best in
  match s with
  | [] => best'
  | _ :: s' => rfind_from s' sub (i + 1) lo hi best'
  end.

Definition rfind (s sub : pystr) (lo hi : Z) : Z :=
  rfind_from s sub 0 (norm_index (len s) lo) (norm_index (len s) hi) (-1).

(** Number of indices of [s] at which [sub] occurs. *)
Fixpoint count_sub (s sub : pystr) : nat :=
  match s with
  | [] => 0
  | _ :: s' => (if startswith s sub then 1 else 0) + count_sub s' sub
  end.

(** [sub] occurs in [s] at index [i]: [i >= 0] and [s[i:i+len(sub)] == sub]. *)
Definition occurs_at (s sub : pystr) (i : Z) : Prop :=
  (0 <= i)%Z /\ slice s i (i + len sub) = sub.

End PyStr.
Import PyStr.

(** ** Python values, exceptions and results *)

Module Py.

(** The values [json.loads] can produce (and [json.dump] can write): [None],
    booleans, integers, floats, strings, lists, and dictionaries with string
    keys in insertion order. *)
Inductive pyval : Type :=
| PNone
| PBool (b : bool)
| PInt (z : Z)
| PFloat (f : PrimFloat.float)
| PStr (s : pystr)
| PList (items : list pyval)
| PDict (entries : list (pystr * pyval)).

(** The exceptions the modelled code can raise. *)
Inductive exn : Type :=
| UnboundLocalError
| TypeError
| ValueError
| AttributeError.

(** A computation either returns or raises. *)
Inductive result (A : Type) : Type :=
| Return (a : A)
| Raise (e : exn).
Arguments Return {A} a.
Arguments Raise {A} e.

Definition bind {A B} (m : result A) (k : A -> result B) : result B :=
  match m with
  | Return a => k a
  | Raise e => Raise e
  end.

(** [bool(v)] *)
Definition truthy (v : pyval) : bool :=
  match v with
  | PNone => false
  | PBool b => b
  | PInt z => negb (z =? 0)%Z
  | PFloat f => negb (PrimFloat.eqb f PrimFloat.zero)
  | PStr s => negb (PyStr.eqb s [])
  | PList l => match l with [] => false | _ => true end
  | PDict d => match d with [] => false | _ => true end
  end.

(** [len(v)]: defined on strings, lists and dictionaries. *)
Definition py_len (v : pyval) : result Z :=
  match v with
  | PStr s => Return (len s)
  | PList l => Return (Z.of_nat (length l))
  | PDict d => Return (Z.of_nat (length d))
  | _ => Raise TypeError
  end.

(** [for x in v]: the items of a list, the keys of a dictionary, the
    characters of a string. *)
Definition py_iter (v : pyval) : result (list pyval) :=
  match v with
  | PStr s => Return (map (fun c => PStr [c]) s)
  | PList l => Return l
  | PDict d => Return (map (fun kv => PStr (fst kv)) d)
  | _ => Raise TypeError
  end.

(** [d.get(k, default)] on the entries of a dictionary. *)
Fixpoint dict_get (d : list (pystr * pyval)) (k : pystr) (default : pyval)
  : pyval :=
  match d with
  | [] => default
  | (k', v) :: d' => if PyStr.eqb k' k then v else dict_get d' k default
  end.

(** [k in d] on the entries of a dictionary. *)
Definition dict_has (d : list (pystr * pyval)) (k : pystr) : bool :=
  existsb (fun kv => PyStr.eqb (fst kv) k) d.

(** [v == k] for a string [k]. *)
Definition eq_str (v : pyval) (k : pystr) : bool :=
  match v with
  | PStr s => PyStr.eqb s k
  | _ => false
  end.

(** [k in v] for a string [k]: key membership in a dictionary, item
    membership in a list, substring test in a string. *)
Definition py_in (k : pystr) (v : pyval) : result bool :=
  match v with
  | PDict d => Return (dict_has d k)
  | PList l => Return (existsb (fun x => eq_str x k) l)
  | PStr s => Return (contains k s)
  | _ => Raise TypeError
  end.

(** [any(f(x) for x in l)]: stops at the first true test; a test that
    raises before that raises. *)
Fixpoint any_m {A} (f : A -> result bool) (l : list A) : result bool :=
  match l with
  | [] => Return false
  | x :: l' =>
      bind (f x) (fun b => if b then Return true else any_m f l')
  end.

(** A loop body run over a list, threading the state. *)
Fixpoint for_each {A S} (body : S -> A -> result S) (l : list A) (s : S)
  : result S :=
  match l with
  | [] => Return s
  | x :: l' => bind (body s x) (for_each body l')
  end.

(** [[f(x) for x in l]] when [f] can raise. *)
Fixpoint map_m {A B} (f : A -> result B) (l : list A) : result (list B) :=
  match l with
  | [] => Return []
  | x :: l' =>
      bind (f x) (fun y => bind (map_m f l') (fun ys => Return (y :: ys)))
  end.

End Py.
Import Py.

Declare Scope py_scope.
Delimit Scope py_scope with py.
Notation "x <- m ;; k" := (Py.bind m (fun x => k))
  (at level 61, m at next level, right associativity) : py_scope.
Notation "m ;;; k" := (Py.bind m (fun _ => k))
  (at level 61, right associativity) : py_scope.

(** ** Further string methods *)

Module PyStrOps.

(** [s.replace(old, new)] for a non-empty [old]: occurrences are replaced
    from the left and do not overlap.  [skip] is the number of characters
    of the occurrence just replaced that are still to be dropped. *)
Fixpoint replace_from (s old new : pystr) (skip : nat) : pystr :=
  match s with
  | [] => []
  | c :: s' =>
      match skip with
      | S k => replace_from s' old new k
      | O =>
          if startswith s old
          then new ++ replace_from s' old new (length old - 1)
          else c :: replace_from s' old new 0
      end
  end.

Definition replace (s old new : pystr) : pystr := replace_from s old new 0.

(** [c.isspace()] for a code point below 256. *)
Definition isspace (c : ascii) : bool :=
  let n := nat_of_ascii c in
  ((9 <=? n) && (n <=? 13)) || ((28 <=? n) && (n <=? 32))
  || (n =? 133) || (n =? 160).

Fixpoint lstrip (s : pystr) : pystr :=
  match s with
  | [] => []
  | c :: s' => if isspace c then lstrip s' else s
  end.

(** [s.strip()] *)
Definition strip (s : pystr) : pystr := rev (lstrip (rev (lstrip s))).

(** [c.lower()] for a code point below 256. *)
Definition lower_char (c : ascii) : ascii :=
  let n := nat_of_ascii c in
  if ((65 <=? n) && (n <=? 90))
     || ((192 <=? n) && (n <=? 214)) || ((216 <=? n) && (n <=? 222))
  then ascii_of_nat (n + 32) else c.

(** [s.lower()] *)
Definition lower (s : pystr) : pystr := map lower_char s.

(** [s.split('.')[-1]]: the text after the last ['.'], the whole of [s] when
    it has none.  [acc] is the segment read so far. *)
Fixpoint last_segment_from (s acc : pystr) : pystr :=
  match s with
  | [] => acc
  | c :: s' =>
      if Ascii.eqb c "."%char then last_segment_from s' []
      else last_segment_from s' (acc ++ [c])
  end.

Definition last_segment (s : pystr) : pystr := last_segment_from s [].

(** [x in l] for a list of strings *)
Definition in_list (x : pystr) (l : list pystr) : bool :=
  existsb (PyStr.eqb x) l.

End PyStrOps.
Import PyStrOps.

(** ** Dictionaries used as counters *)

Module PyDict.

(** A Python [dict] used as a counter: keys in first-insertion order. *)
Section Counter.
Variable K : Type.
Variable key_eqb : K -> K -> bool.

(** [c[k] = c.get(k, 0) + n] *)
Fixpoint counter_add (c : list (K * nat)) (k : K) (n : nat)
  : list (K * nat) :=
  match c with
  | [] => [(k, n)]
  | (k', m) :: c' =>
      if key_eqb k' k then (k', m + n) :: c'
      else (k', m) :: counter_add c' k n
  end.

(** [c.get(k)] *)
Fixpoint counter_get (c : list (K * nat)) (k : K) : option nat :=
  match c with
  | [] => None
  | (k', m) :: c' => if key_eqb k' k then Some m else counter_get c' k
  end.

(** [Counter(keys)] *)
Definition Counter (keys : list K) : list (K * nat) :=
  fold_left (fun c k => counter_add c k 1) keys [].

(** [sum(c.values())] *)
Definition counter_total (c : list (K * nat)) : nat :=
  fold_right (fun kv acc => snd kv + acc) 0 c.
(** Number of occurrences of [k] among [keys]. *)
Definition occurrences (keys : list K) (k : K) : nat :=
  length (filter (fun k' => key_eqb k' k) keys).
End Counter.

End PyDict.
Import PyDict.

(** ** extract_form_fields.py *)

Module FormExtract.

Definition FORM_KEY_MARKER : pystr :=
  str "<form_key><![CDATA[comprehensivelifestyleandwellnessquestionnaire2]]></form_key>".
Definition FORM_OPEN : pystr := str "<form>".
Definition FORM_CLOSE : pystr := str "</form>".
Definition CDATA_OPEN : pystr := str "<![CDATA[".
Definition CDATA_CLOSE : pystr := str "]]>".

(** The [while pos < len(content)] loop of lines 62-70.  [remaining] is
    [len(content) - pos], so the loop test holds exactly when it is a
    successor.  [Some form_end] is the [break] with [form_end] assigned;
    [None] is the loop running to the end of [content] with [form_end]
    never assigned. *)
Fixpoint scan_loop (content : pystr) (remaining : nat) (pos form_level : Z)
  : option Z :=
  match remaining with
  | O => None
  | S remaining' =>
      if PyStr.eqb (slice content pos (pos + 6)) FORM_OPEN then
        scan_loop content remaining' (pos + 1) (form_level + 1)
      else if PyStr.eqb (slice content pos (pos + 7)) FORM_CLOSE then
        let form_level := (form_level - 1)%Z in
        if (form_level =? 0)%Z then Some (pos + 7)%Z
        else scan_loop content remaining' (pos + 1) form_level
      else scan_loop content remaining' (pos + 1) form_level
  end.

(** Lines 60-70, started at [form_opening] with [form_level = 0]. *)
Definition scan (content : pystr) (form_opening : Z) : option Z :=
  scan_loop content (Z.to_nat (len content - form_opening)) form_opening 0.

(** What lines 50-73 do with the file content. *)
Inductive located : Type :=
| FormNotFound                  (* line 52: the marker is absent *)
| FormEndUnbound                (* line 73 reads [form_end] unassigned *)
| FormXml (form_xml : pystr).   (* line 73: [content[form_opening:form_end]] *)

Definition locate (content : pystr) : located :=
  let form_start := find content FORM_KEY_MARKER in
  if (form_start =? -1)%Z then FormNotFound
  else
    let form_opening := rfind content FORM_OPEN 0 form_start in
    match scan content form_opening with
    | None => FormEndUnbound
    | Some form_end => FormXml (slice content form_opening form_end)
    end.

(** An ElementTree element: tag, text and child elements (attributes and
    tails are not read by the script). *)
Inductive element : Type :=
| Element (tag : pystr) (text : option pystr) (children : list element).

Definition tag (e : element) : pystr := let (t, _, _) := e in t.
Definition text (e : element) : option pystr := let (_, t, _) := e in t.
Definition children (e : element) : list element := let (_, _, c) := e in c.

(** [e.find(name)]: the first child with that tag. *)
Definition find_child (e : element) (name : pystr) : option element :=
  List.find (fun c => PyStr.eqb (tag c) name) (children e).

(** [e.findall(name)]: the children with that tag, in document order. *)
Definition findall (e : element) (name : pystr) : list element :=
  filter (fun c => PyStr.eqb (tag c) name) (children e).

(** [e.find(name).text if e.find(name) is not None else ''] *)
Definition text_or_empty (e : element) (name : pystr) : option pystr :=
  match find_child e name with
  | Some c => text c
  | None => Some []
  end.

(** One entry of [form_info['fields']]. *)
Record field_data : Type := {
  fd_id : option pystr;
  fd_field_key : option pystr;
  fd_name : option pystr;
  fd_description : option pystr;
  fd_type : option pystr;
  fd_default_value : option pystr;
  fd_field_order : Z;
  fd_required : bool;
  fd_options : pyval;
  fd_field_config : pyval
}.

Record form_info : Type := {
  fi_form_id : option pystr;
  fi_form_key : option pystr;
  fi_name : option pystr;
  fi_description : option pystr;
  fi_created_at : option pystr;
  fi_status : option pystr;
  fi_fields : list field_data
}.

(** [l.sort(key=...)]: Python's sort is stable; it is modelled by a stable
    insertion sort, which yields the same list. *)
Section Sort.
Variable A : Type.
Variable key : A -> Z.

Fixpoint insert_by (x : A) (l : list A) : list A :=
  match l with
  | [] => [x]
  | y :: l' =>
      if (key x <=? key y)%Z then x :: l else y :: insert_by x l'
  end.

Definition sort_by (l : list A) : list A := fold_right insert_by [] l.

(** The order the sort establishes. *)
Definition key_le (a b : A) : Prop := (key a <= key b)%Z.
End Sort.

Section Extract.
Local Open Scope py_scope.

(** [json.loads]: [None] when it raises. *)
Variable json_loads : pystr -> option pyval.
(** [ET.fromstring]: [None] when it raises [ParseError]. *)
Variable fromstring : pystr -> option element.
(** [int] on a string: [None] when it raises [ValueError]. *)
Variable int_of_str : pystr -> option Z.

Definition strip_cdata (s : pystr) : pystr :=
  replace (replace s CDATA_OPEN []) CDATA_CLOSE [].

Definition parse_field_options (options_str : option pystr) : pyval :=
  match options_str with
  | None => PList []
  | Some s =>
      if PyStr.eqb s [] then PList []
      else
        let clean_str := strip_cdata s in
        if PyStr.eqb (strip clean_str) [] then PList []
        else match json_loads clean_str with
             | Some options => options
             | None => PStr s
             end
  end.

Definition parse_field_options_config (field_options_str : option pystr)
  : pyval :=
  match field_options_str with
  | None => PDict []
  | Some s =>
      if PyStr.eqb s [] then PDict []
      else
        let clean_str := strip_cdata s in
        if PyStr.eqb (strip clean_str) [] then PDict []
        else match json_loads clean_str with
             | Some config => config
             | None => PDict []
             end
  end.

(** [int(e.text)] *)
Definition py_int (t : option pystr) : result Z :=
  match t with
  | None => Raise TypeError
  | Some s =>
      match int_of_str s with
      | Some z => Return z
      | None => Raise ValueError
      end
  end.

(** [t == '1'] *)
Definition text_is_one (t : option pystr) : bool :=
  match t with
  | Some s => PyStr.eqb s (str "1")
  | None => false
  end.

(** Lines 98-122: the dictionary built for one [field] element. *)
Definition build_field (field : element) : result field_data :=
  field_order <-
    match find_child field (str "field_order") with
    | Some e => py_int (text e)
    | None => Return 0%Z
    end ;;
  Return {|
    fd_id := text_or_empty field (str "id");
    fd_field_key := text_or_empty field (str "field_key");
    fd_name := text_or_empty field (str "name");
    fd_description := text_or_empty field (str "description");
    fd_type := text_or_empty field (str "type");
    fd_default_value := text_or_empty field (str "default_value");
    fd_field_order := field_order;
    fd_required :=
      match find_child field (str "required") with
      | Some e => text_is_one (text e)
      | None => false
      end;
    fd_options :=
      match find_child field (str "options") with
      | Some e => parse_field_options (text e)
      | None => PList []
      end;
    fd_field_config :=
      match find_child field (str "field_options") with
      | Some e => parse_field_options_config (text e)
      | None => PDict []
      end
  |}.

(** The [field_order] entry of a built field: the parsed text of the
    element, or 0 when the element is missing. *)
Definition order_from (field : element) (fd : field_data) : Prop :=
  match find_child field (str "field_order") with
  | Some e => py_int (text e) = Return (fd_field_order fd)
  | None => fd_field_order fd = 0%Z
  end.

(** Lines 82-129: from the parsed [root] to the returned dictionary. *)
Definition form_info_of (root : element) : result form_info :=
  fields <- map_m build_field (findall root (str "field")) ;;
  Return {|
    fi_form_id := text_or_empty root (str "id");
    fi_form_key := text_or_empty root (str "form_key");
    fi_name := text_or_empty root (str "name");
    fi_description := text_or_empty root (str "description");
    fi_created_at := text_or_empty root (str "created_at");
    fi_status := text_or_empty root (str "status");
    fi_fields := sort_by fd_field_order fields
  |}.

(** [extract_form_fields] on the content read from the file: [Return None]
    is the Python [None], [Return (Some d)] the dictionary. *)
Definition extract_form_fields (content : pystr)
  : result (option form_info) :=
  match locate content with
  | FormNotFound => Return None
  | FormEndUnbound => Raise UnboundLocalError
  | FormXml form_xml =>
      match fromstring form_xml with
      | None => Return None
      | Some root =>
          info <- form_info_of root ;;
          Return (Some info)
      end
  end.

End Extract.

(** *** The running count of the scan, as a quantity of the document *)

(** What the tag tests of lines 63-66 add to [form_level] at index [i]. *)
Definition delta_at (content : pystr) (i : Z) : Z :=
  if PyStr.eqb (slice content i (i + 6)) FORM_OPEN then 1%Z
  else if PyStr.eqb (slice content i (i + 7)) FORM_CLOSE then (-1)%Z
  else 0%Z.

Fixpoint running_from (content : pystr) (i : Z) (n : nat) : Z :=
  match n with
  | O => 0%Z
  | S n' => (delta_at content i + running_from content (i + 1) n')%Z
  end.

(** ['<form>'] openings minus ['</form>'] closings met at the indices
    [a], ..., [p]. *)
Definition running_count (content : pystr) (a p : Z) : Z :=
  running_from content a (Z.to_nat (p - a + 1)).

(** The same count read off a suffix of the document. *)
Definition tag_delta (x : pystr) : Z :=
  if startswith x FORM_OPEN then 1%Z
  else if startswith x FORM_CLOSE then (-1)%Z
  else 0%Z.

Fixpoint balance (x : pystr) (n : nat) : Z :=
  match n with
  | O => 0%Z
  | S n' => (tag_delta x + balance (tl x) n')%Z
  end.

End FormExtract.

(** ** analyze_questionnaire.py *)

Module Analyze.
Import FormExtract.

(** Equality of two values that are a string or [None]. *)
Definition opt_str_eqb (a b : option pystr) : bool :=
  match a, b with
  | Some x, Some y => PyStr.eqb x y
  | None, None => true
  | _, _ => false
  end.

(** [t in l] for a value that is a string or [None] and a list of strings. *)
Definition opt_in_list (t : option pystr) (l : list pystr) : bool :=
  match t with
  | Some s => in_list s l
  | None => false
  end.

Record required_entry : Type := {
  re_name : option pystr;
  re_type : option pystr;
  re_field_key : option pystr;
  re_order : Z
}.

Record likert_entry : Type := {
  le_name : option pystr;
  le_field_key : option pystr;
  le_options : pyval;
  le_likert_id : pyval
}.

Record food_entry : Type := {
  fe_name : option pystr;
  fe_type : option pystr;
  fe_field_key : option pystr;
  fe_options : pyval
}.

Record personal_entry : Type := {
  pe_name : option pystr;
  pe_type : option pystr;
  pe_field_key : option pystr;
  pe_required : bool
}.

Record health_entry : Type := {
  he_name : option pystr;
  he_type : option pystr;
  he_field_key : option pystr;
  he_options : pyval
}.

Record conditional_entry : Type := {
  ce_field_name : option pystr;
  ce_field_key : option pystr;
  ce_logic : list (pystr * pyval)
}.

Record form_metadata : Type := {
  fm_name : option pystr;
  fm_form_key : option pystr;
  total_fields : nat;
  fm_required_fields : nat;
  fm_optional_fields : nat
}.

(** The [analysis] dictionary.  The keys ['sections'] and
    ['lifestyle_questions'] are created empty and never written. *)
Record analysis : Type := {
  metadata : form_metadata;
  field_types : list (option pystr * nat);
  required_fields : list required_entry;
  conditional_logic : list conditional_entry;
  likert_scales : list likert_entry;
  food_preferences : list food_entry;
  personal_info : list personal_entry;
  health_assessments : list health_entry
}.

Definition food_keywords : list pystr :=
  map str ["chicken"; "turkey"; "beef"; "fish"; "vegetable"; "fruit";
           "grain"; "dairy"; "cheese"; "milk"; "bread"; "rice"; "pasta";
           "bean"; "nut"]%string.

Definition personal_keywords : list pystr :=
  map str ["name"; "email"; "phone"; "address"; "age"; "birth";
           "gender"]%string.

Definition personal_types : list pystr :=
  map str ["email"; "phone"; "address"]%string.

Definition health_keywords : list pystr :=
  map str ["health"; "medical"; "condition"; "symptom"; "pain"; "injury";
           "medication"; "allergy"; "exercise"; "activity"; "sleep";
           "stress"]%string.

(** [any(keyword in field_name for keyword in keywords)] *)
Definition any_keyword (keywords : list pystr) (field_name : pystr) : bool :=
  existsb (fun keyword => contains keyword field_name) keywords.

(** Line 44: [field['name'].lower() if field['name'] else ''] *)
Definition field_name_of (field : field_data) : pystr :=
  match fd_name field with
  | Some s => if PyStr.eqb s [] then [] else lower s
  | None => []
  end.

(** Line 81: the test that guards the append to ['personal_info']. *)
Definition is_personal (field : field_data) : bool :=
  any_keyword personal_keywords (field_name_of field)
  || opt_in_list (fd_type field) personal_types.

Definition personal_of (field : field_data) : personal_entry :=
  {| pe_name := fd_name field; pe_type := fd_type field;
     pe_field_key := fd_field_key field; pe_required := fd_required field |}.

Section Categorize.
Local Open Scope py_scope.

(** [str(v)] on a value *)
Variable py_str : pyval -> pystr.

(** [label.lower()]: only strings have the method. *)
Definition lower_of (label : pyval) : result pystr :=
  match label with
  | PStr s => Return (lower s)
  | _ => Raise AttributeError
  end.

(** Line 58: [[opt.get('label', '') for opt in options if isinstance(opt, dict)]] *)
Definition option_labels (items : list pyval) : list pyval :=
  flat_map (fun opt =>
              match opt with
              | PDict d => [dict_get d (str "label") (PStr [])]
              | _ => []
              end) items.

(** Lines 57-65 *)
Definition likert_step (a : analysis) (field : field_data)
  : result analysis :=
  let options := fd_options field in
  nonempty <-
    (if truthy options
     then n <- py_len options ;; Return (0 <? n)%Z
     else Return false) ;;
  if nonempty : bool then
    items <- py_iter options ;;
    strongly <-
      any_m (fun label =>
               l <- lower_of label ;;
               Return (contains (str "strongly") l))
            (option_labels items) ;;
    if strongly : bool then
      likert_id <-
        match fd_field_config field with
        | PDict d => Return (dict_get d (str "likert_id") PNone)
        | _ => Raise AttributeError
        end ;;
      Return {|
        metadata := metadata a; field_types := field_types a;
        required_fields := required_fields a;
        conditional_logic := conditional_logic a;
        likert_scales := likert_scales a ++
          [{| le_name := fd_name field;
              le_field_key := fd_field_key field;
              le_options := options; le_likert_id := likert_id |}];
        food_preferences := food_preferences a;
        personal_info := personal_info a;
        health_assessments := health_assessments a |}
    else Return a
  else Return a.

(** Lines 68-77 *)
Definition food_step (a : analysis) (field : field_data)
  : result analysis :=
  let options := fd_options field in
  is_food <-
    (if any_keyword food_keywords (field_name_of field) then Return true
     else if truthy options then
       items <- py_iter options ;;
       Return (existsb
                 (fun opt => contains (str "like") (lower (py_str opt)))
                 items)
     else Return false) ;;
  if is_food : bool then
    Return {|
      metadata := metadata a; field_types := field_types a;
      required_fields := required_fields a;
      conditional_logic := conditional_logic a;
      likert_scales := likert_scales a;
      food_preferences := food_preferences a ++
        [{| fe_name := fd_name field; fe_type := fd_type field;
            fe_field_key := fd_field_key field; fe_options := options |}];
      personal_info := personal_info a;
      health_assessments := health_assessments a |}
  else Return a.

(** Lines 48-54 *)
Definition required_step (a : analysis) (field : field_data) : analysis :=
  if fd_required field then
    {| metadata := metadata a; field_types := field_types a;
       required_fields := required_fields a ++
         [{| re_name := fd_name field; re_type := fd_type field;
             re_field_key := fd_field_key field;
             re_order := fd_field_order field |}];
       conditional_logic := conditional_logic a;
       likert_scales := likert_scales a;
       food_preferences := food_preferences a;
       personal_info := personal_info a;
       health_assessments := health_assessments a |}
  else a.

(** Lines 80-87 *)
Definition personal_step (a : analysis) (field : field_data) : analysis :=
  if is_personal field then
    {| metadata := metadata a; field_types := field_types a;
       required_fields := required_fields a;
       conditional_logic := conditional_logic a;
       likert_scales := likert_scales a;
       food_preferences := food_preferences a;
       personal_info := personal_info a ++ [personal_of field];
       health_assessments := health_assessments a |}
  else a.

(** Lines 90-98 *)
Definition health_step (a : analysis) (field : field_data) : analysis :=
  if any_keyword health_keywords (field_name_of field) then
    {| metadata := metadata a; field_types := field_types a;
       required_fields := required_fields a;
       conditional_logic := conditional_logic a;
       likert_scales := likert_scales a;
       food_preferences := food_preferences a;
       personal_info := personal_info a;
       health_assessments := health_assessments a ++
         [{| he_name := fd_name field; he_type := fd_type field;
             he_field_key := fd_field_key field;
             he_options := if truthy (fd_options field)
                           then fd_options field else PNone |}] |}
  else a.

(** Line 106: the keys kept in ['logic']. *)
Definition logic_key (k : pystr) : bool :=
  contains (str "hide") k || contains (str "show") k
  || contains (str "cond") k.

(** Lines 101-108 *)
Definition conditional_step (a : analysis) (field : field_data)
  : result analysis :=
  let field_config := fd_field_config field in
  hide <- py_in (str "hide_field") field_config ;;
  has_logic <-
    (if hide : bool then Return true
     else py_in (str "show_field") field_config) ;;
  if has_logic : bool then
    logic <-
      match field_config with
      | PDict d => Return (filter (fun kv => logic_key (fst kv)) d)
      | _ => Raise AttributeError
      end ;;
    Return {|
      metadata := metadata a; field_types := field_types a;
      required_fields := required_fields a;
      conditional_logic := conditional_logic a ++
        [{| ce_field_name := fd_name field;
            ce_field_key := fd_field_key field; ce_logic := logic |}];
      likert_scales := likert_scales a;
      food_preferences := food_preferences a;
      personal_info := personal_info a;
      health_assessments := health_assessments a |}
  else Return a.

(** Lines 43-108: the body of [for field in fields]. *)
Definition categorize (a : analysis) (field : field_data)
  : result analysis :=
  let a := required_step a field in
  a <- likert_step a field ;;
  a <- food_step a field ;;
  let a := personal_step a field in
  let a := health_step a field in
  conditional_step a field.

(** Lines 19-40: the dictionary before the loop. *)
Definition initial_analysis (info : form_info) : analysis :=
  let fields := fi_fields info in
  {| metadata :=
       {| fm_name := fi_name info; fm_form_key := fi_form_key info;
          total_fields := length fields;
          fm_required_fields := length (filter fd_required fields);
          fm_optional_fields :=
            length (filter (fun f => negb (fd_required f)) fields) |};
     field_types := Counter opt_str_eqb (map fd_type fields);
     required_fields := []; conditional_logic := [];
     likert_scales := []; food_preferences := [];
     personal_info := []; health_assessments := [] |}.

(** [analyze_questionnaire] on the loaded [form_data]. *)
Definition analyze_questionnaire (form_data : form_info)
  : result analysis :=
  for_each categorize (fi_fields form_data) (initial_analysis form_data).

End Categorize.

(** *** Fields on which the loop does not raise *)

(** An option whose label, when it is a dictionary, is a string. *)
Definition label_ok (opt : pyval) : bool :=
  match opt with
  | PDict d =>
      match dict_get d (str "label") (PStr []) with
      | PStr _ => true
      | _ => false
      end
  | _ => true
  end.

(** Options that are falsy, a string, a dictionary, or a list whose
    dictionaries have string labels. *)
Definition options_ok (v : pyval) : bool :=
  match v with
  | PList l => forallb label_ok l
  | PStr _ | PDict _ => true
  | _ => negb (truthy v)
  end.

Definition config_ok (v : pyval) : bool :=
  match v with
  | PDict _ => true
  | _ => false
  end.

Definition well_typed (field : field_data) : bool :=
  options_ok (fd_options field) && config_ok (fd_field_config field).

(** What a step of the loop may leave untouched. *)
Definition same_core (a a' : analysis) : Prop :=
  metadata a' = metadata a /\ field_types a' = field_types a /\
  personal_info a' = personal_info a.

End Analyze.

(** ** The line counters *)

Module Counters.

(** What opening and reading a file yields: it cannot be opened or read, or
    it has [lines] lines; [valid_utf8] tells whether a strict UTF-8 decoder
    accepts it (with [errors='ignore'] the bad bytes are dropped). *)
Inductive fcontent : Type :=
| Unreadable
| Text (lines : nat) (valid_utf8 : bool).

(** A directory entry: a file, a directory, or a symbolic link to a
    directory, with the listing of its target.  A symbolic link to a file
    is a [File], with what opening it yields.  Entries are kept in listing
    order. *)
Inductive node : Type :=
| File (name : pystr) (c : fcontent)
| Dir (name : pystr) (children : list node)
| Link (name : pystr) (children : list node).

Definition node_name (n : node) : pystr :=
  match n with
  | File name _ => name
  | Dir name _ => name
  | Link name _ => name
  end.

Definition exclude_dirs : list pystr :=
  map str ["node_modules"; ".next"; "dist"; "build"; "temp_disabled";
           ".git"]%string.

(** ['.ts', '.tsx', '.js', '.jsx'] *)
Definition dot_extensions : list pystr :=
  map str [".ts"; ".tsx"; ".js"; ".jsx"]%string.

(** [os.path.join(a, b)] *)
Definition path_join (a b : pystr) : pystr :=
  if startswith b (str "/") then b
  else if PyStr.eqb a [] || endswith a (str "/") then a ++ b
  else a ++ str "/" ++ b.

(** [os.path.splitext(p)[1]] *)
Definition splitext_ext (p : pystr) : pystr :=
  let sepIndex := rfind p (str "/") 0 (len p) in
  let dotIndex := rfind p (str ".") 0 (len p) in
  if (sepIndex <? dotIndex)%Z then
    if existsb (fun c => negb (Ascii.eqb c "."%char))
               (slice p (sepIndex + 1) dotIndex)
    then slice p dotIndex (len p)
    else []
  else [].

(** [open(path, errors='ignore')] then counting the lines: [None] when it
    raises. *)
Definition read_ignore (c : fcontent) : option nat :=
  match c with
  | Unreadable => None
  | Text lines _ => Some lines
  end.

(** [open(path, encoding='utf-8')] then [len(f.readlines())]: [None] when it
    raises. *)
Definition read_strict (c : fcontent) : option nat :=
  match c with
  | Text lines true => Some lines
  | _ => None
  end.

(** The names [os.walk] puts in [dirs]: the directories, and the symbolic
    links to directories. *)
Definition dirs_of (entries : list node) : list pystr :=
  flat_map (fun n =>
              match n with
              | Dir d _ | Link d _ => [d]
              | File _ _ => []
              end)
           entries.

(** The non-directory names of a listing, each with what opening it
    yields. *)
Definition files_of (entries : list node) : list (pystr * fcontent) :=
  flat_map (fun n =>
              match n with
              | File f c => [(f, c)]
              | Dir _ _ | Link _ _ => []
              end)
           entries.

(** One item of [os.walk]: [(root, dirs, files)]. *)
Definition walk_item : Type :=
  (pystr * list pystr * list (pystr * fcontent))%type.

(** [d not in exclude_dirs]: the filter of [dirs[:] = ...]. *)
Definition kept (d : pystr) : bool := negb (in_list d exclude_dirs).

(** [os.walk] below a directory entry of [parent], with the loop body's
    in-place pruning of [dirs]: only kept sub-directories are entered, and
    ([followlinks] is left at [False]) no symbolic link is. *)
Fixpoint walk_node (parent : pystr) (n : node) {struct n} : list walk_item :=
  match n with
  | File _ _ => []
  | Dir d entries =>
      if kept d then
        let top := path_join parent d in
        (top, dirs_of entries, files_of entries)
          :: flat_map (walk_node top) entries
      else []
  | Link _ _ => []
  end.

(** [os.walk(top)] on the directory whose listing is [entries]. *)
Definition walk (top : pystr) (entries : list node) : list walk_item :=
  (top, dirs_of entries, files_of entries)
    :: flat_map (walk_node top) entries.

(** [any(exc in root for exc in exclude_dirs)] *)
Definition root_excluded (root : pystr) : bool :=
  existsb (fun exc => contains exc root) exclude_dirs.

(** *** count_lines.py *)

Definition extensions : list pystr := map str ["ts"; "tsx"; "js"; "jsx"]%string.

Definition count_lines_in_file (c : fcontent) : nat :=
  match read_ignore c with
  | Some lines => lines
  | None => 0
  end.

Record cl_state : Type := {
  cl_total_lines : nat;
  cl_file_counts : list (pystr * nat);
  cl_line_counts : list (pystr * nat)
}.

Definition cl_init : cl_state :=
  {| cl_total_lines := 0;
     cl_file_counts := map (fun ext => (ext, 0)) extensions;
     cl_line_counts := map (fun ext => (ext, 0)) extensions |}.

(** Lines 35-43: the body of [for file in files]. *)
Definition cl_file_step (st : cl_state) (file : pystr * fcontent) : cl_state :=
  let ext := last_segment (fst file) in
  if in_list ext extensions then
    let lines := count_lines_in_file (snd file) in
    {| cl_total_lines := cl_total_lines st + lines;
       cl_file_counts := counter_add PyStr.eqb (cl_file_counts st) ext 1;
       cl_line_counts := counter_add PyStr.eqb (cl_line_counts st) ext lines |}
  else st.

(** Lines 27-43: the body of the walk loop. *)
Definition cl_walk_step (st : cl_state) (item : walk_item) : cl_state :=
  let '(root, _, files) := item in
  if root_excluded root then st
  else fold_left cl_file_step files st.

(** Lines 21-43 of [main] on the current directory's listing. *)
Definition count_lines_main (tree : list node) : cl_state :=
  fold_left cl_walk_step (walk (str ".") tree) cl_init.

(** The printed totals: [sum(file_counts.values())] and [total_lines]. *)
Definition cl_totals (st : cl_state) : nat * nat :=
  (counter_total (cl_file_counts st), cl_total_lines st).

(** *** accurate_count.py *)

Record ac_state : Type := {
  ac_file_counts : list (pystr * nat);
  ac_line_counts : list (pystr * nat);
  ac_total_files : nat;
  ac_total_lines : nat
}.

Definition ac_init : ac_state :=
  {| ac_file_counts := map (fun ext => (ext, 0)) dot_extensions;
     ac_line_counts := map (fun ext => (ext, 0)) dot_extensions;
     ac_total_files := 0; ac_total_lines := 0 |}.

Definition ac_file_step (st : ac_state) (file : pystr * fcontent) : ac_state :=
  let ext := splitext_ext (fst file) in
  if in_list ext (map fst (ac_file_counts st)) then
    match read_ignore (snd file) with
    | Some lines =>
        {| ac_file_counts := counter_add PyStr.eqb (ac_file_counts st) ext 1;
           ac_line_counts := counter_add PyStr.eqb (ac_line_counts st) ext lines;
           ac_total_files := ac_total_files st + 1;
           ac_total_lines := ac_total_lines st + lines |}
    | None => st
    end
  else st.

Definition ac_walk_step (st : ac_state) (item : walk_item) : ac_state :=
  let '(root, _, files) := item in
  if root_excluded root then st
  else fold_left ac_file_step files st.

Definition accurate_count (tree : list node) : ac_state :=
  fold_left ac_walk_step (walk (str ".") tree) ac_init.

Definition ac_totals (st : ac_state) : nat * nat :=
  (ac_total_files st, ac_total_lines st).

(** *** final_count.py (the totals and [by_extension]; [by_directory] and
    [largest_files] are in [Reports]) *)

(** [results['by_extension']]: per extension, the ['files'] and ['lines']
    entries. *)
Fixpoint by_extension_add (d : list (pystr * (nat * nat))) (ext : pystr)
  (lines : nat) : list (pystr * (nat * nat)) :=
  match d with
  | [] => [(ext, (1, lines))]
  | (k, (f, l)) :: d' =>
      if PyStr.eqb k ext then (k, (f + 1, l + lines)) :: d'
      else (k, (f, l)) :: by_extension_add d' ext lines
  end.

Record fc_state : Type := {
  fc_total_files : nat;
  fc_total_lines : nat;
  fc_by_extension : list (pystr * (nat * nat))
}.

Definition fc_init : fc_state :=
  {| fc_total_files := 0; fc_total_lines := 0; fc_by_extension := [] |}.

(** [any(file.endswith(ext) for ext in extensions)] *)
Definition has_dot_extension (file : pystr) : bool :=
  existsb (fun ext => endswith file ext) dot_extensions.

Definition fc_file_step (st : fc_state) (file : pystr * fcontent) : fc_state :=
  if has_dot_extension (fst file) then
    let ext := splitext_ext (fst file) in
    match read_ignore (snd file) with
    | Some lines =>
        {| fc_total_files := fc_total_files st + 1;
           fc_total_lines := fc_total_lines st + lines;
           fc_by_extension := by_extension_add (fc_by_extension st) ext lines |}
    | None => st
    end
  else st.

Definition fc_walk_step (st : fc_state) (item : walk_item) : fc_state :=
  let '(root, _, files) := item in
  if root_excluded root then st
  else fold_left fc_file_step files st.

Definition final_count (tree : list node) : fc_state :=
  fold_left fc_walk_step (walk (str ".") tree) fc_init.

Definition fc_totals (st : fc_state) : nat * nat :=
  (fc_total_files st, fc_total_lines st).

(** *** simple_count.py *)

Record sc_state : Type := {
  sc_total_lines : nat;
  sc_total_files : nat;
  sc_lines_by_ext : list (pystr * nat);
  sc_files_by_ext : list (pystr * nat)
}.

Definition sc_init : sc_state :=
  {| sc_total_lines := 0; sc_total_files := 0;
     sc_lines_by_ext := []; sc_files_by_ext := [] |}.

Definition sc_file_step (st : sc_state) (file : pystr * fcontent) : sc_state :=
  if has_dot_extension (fst file) then
    let ext := splitext_ext (fst file) in
    match read_ignore (snd file) with
    | Some line_count =>
        {| sc_total_lines := sc_total_lines st + line_count;
           sc_total_files := sc_total_files st + 1;
           sc_lines_by_ext :=
             counter_add PyStr.eqb (sc_lines_by_ext st) ext line_count;
           sc_files_by_ext :=
             counter_add PyStr.eqb (sc_files_by_ext st) ext 1 |}
    | None => st
    end
  else st.

Definition sc_walk_step (st : sc_state) (item : walk_item) : sc_state :=
  let '(root, _, files) := item in
  if root_excluded root then st
  else fold_left sc_file_step files st.

Definition simple_count (tree : list node) : sc_state :=
  fold_left sc_walk_step (walk (str ".") tree) sc_init.

Definition sc_totals (st : sc_state) : nat * nat :=
  (sc_total_files st, sc_total_lines st).

(** *** count_code_lines.py *)

(** [_ishidden(name)] of the glob module *)
Definition ishidden (name : pystr) : bool := startswith name (str ".").

(** [_rlistdir] with [dironly]: the non-hidden directories below an entry,
    by relative path, each with its listing.  [entry.is_dir()] follows
    symbolic links, so a link to a directory is listed and entered as a
    directory is. *)
Fixpoint rlistdir_node (n : node) {struct n} : list (pystr * list node) :=
  match n with
  | File _ _ => []
  | Dir x entries | Link x entries =>
      if ishidden x then []
      else
        (x, entries)
          :: map (fun ye => (path_join x (fst ye), snd ye))
                 (flat_map rlistdir_node entries)
  end.

(** [_glob2] for the pattern component ['**']: the start directory, named
    by the empty string, then every directory [_rlistdir] yields. *)
Definition glob2 (entries : list node) : list (pystr * list node) :=
  ([], entries) :: flat_map rlistdir_node entries.

(** [_glob1(dirname, '*' + suffix)]: the entries of a listing that are not
    hidden and whose name the pattern matches. *)
Definition glob1 (entries : list node) (suffix : pystr) : list node :=
  filter (fun n => negb (ishidden (node_name n))
                   && endswith (node_name n) suffix) entries.

(** [glob.glob('**/*' + suffix, recursive=True)]: each path with the entry
    it names. *)
Definition glob (suffix : pystr) (tree : list node) : list (pystr * node) :=
  flat_map (fun de =>
              map (fun n => (path_join (fst de) (node_name n), n))
                  (glob1 (snd de) suffix))
           (glob2 tree).

Record ccl_state : Type := {
  ccl_total_lines : nat;
  ccl_total_files : nat;
  ccl_file_details : list (pystr * nat)
}.

Definition ccl_init : ccl_state :=
  {| ccl_total_lines := 0; ccl_total_files := 0; ccl_file_details := [] |}.

(** Opening a path the glob returned: a directory cannot be opened. *)
Definition open_strict (n : node) : option nat :=
  match n with
  | File _ c => read_strict c
  | Dir _ _ | Link _ _ => None
  end.

(** Lines 13-24: the body of [for filepath in glob.glob(...)]. *)
Definition ccl_path_step (st : ccl_state) (hit : pystr * node) : ccl_state :=
  let filepath := fst hit in
  if contains (str "node_modules") filepath || contains (str ".next") filepath
  then st
  else
    match open_strict (snd hit) with
    | Some lines =>
        {| ccl_total_lines := ccl_total_lines st + lines;
           ccl_total_files := ccl_total_files st + 1;
           ccl_file_details := ccl_file_details st ++ [(filepath, lines)] |}
    | None => st
    end.

(** Lines 11-24: [for ext in extensions: for filepath in glob.glob(...)]. *)
Definition count_code_lines (tree : list node) : ccl_state :=
  fold_left (fun st suffix => fold_left ccl_path_step (glob suffix tree) st)
            dot_extensions ccl_init.

Definition ccl_totals (st : ccl_state) : nat * nat :=
  (ccl_total_files st, ccl_total_lines st).

(** *** What a script counts, as a quantity of the tree *)

(** What one file adds to a script's totals: nothing ([None]), or one file
    with so many lines. *)
Definition contribution : Type := option nat.

(** Files counted and lines counted over a list of contributions. *)
Fixpoint tally (l : list contribution) : nat * nat :=
  match l with
  | [] => (0, 0)
  | None :: l' => tally l'
  | Some n :: l' => (S (fst (tally l')), n + snd (tally l'))
  end.

(** Adding one contribution to a pair of totals. *)
Definition add_contribution (t : nat * nat) (c : contribution) : nat * nat :=
  match c with
  | Some n => (fst t + 1, snd t + n)
  | None => t
  end.

(** The files of a walk item that the loop body processes: none when the
    substring test skips the root. *)
Definition reached (item : walk_item) : list (pystr * fcontent) :=
  let '(root, _, files) := item in
  if root_excluded root then [] else files.

(** The files the four walking scripts reach. *)
Definition walk_files (tree : list node) : list (pystr * fcontent) :=
  flat_map reached (walk (str ".") tree).

Definition cl_contribution (file : pystr * fcontent) : contribution :=
  if in_list (last_segment (fst file)) extensions
  then Some (count_lines_in_file (snd file)) else None.

Definition ac_contribution (file : pystr * fcontent) : contribution :=
  if in_list (splitext_ext (fst file)) dot_extensions
  then read_ignore (snd file) else None.

Definition fc_contribution (file : pystr * fcontent) : contribution :=
  if has_dot_extension (fst file) then read_ignore (snd file) else None.

Definition ccl_contribution (hit : pystr * node) : contribution :=
  if contains (str "node_modules") (fst hit)
     || contains (str ".next") (fst hit)
  then None else open_strict (snd hit).

(** *** Trees on which the five scripts agree *)

(** A name of the file system: not empty, without ['/']. *)
Definition fs_name (name : pystr) : bool :=
  negb (PyStr.eqb name []) && negb (existsb (Ascii.eqb "/"%char) name).




(** A name that ends with one of the four dotted extensions. *)
Definition source_name (f : pystr) : bool :=
  existsb (fun ext => endswith f ext)
          (map str [".ts"; ".tsx"; ".js"; ".jsx"]%string).

(** A file that [count_code_lines.py] counts when it reaches its directory:
    a source name that does not start with a dot and holds neither
    [node_modules] nor [.next], and a content that reads as valid UTF-8. *)
Definition glob_counts (f : pystr) (c : fcontent) : bool :=
  source_name f
  && negb (startswith f (str "."))
  && negb (contains (str "node_modules") f)
  && negb (contains (str ".next") f)
  && match c with Text _ true => true | _ => false end.

(** A file that the walking scripts count when they reach its directory
    (one of them at least does): what follows its last dot, or the whole
    name when it has none, is one of the four bare extensions. *)
Definition walkers_count (f : pystr) : bool :=
  in_list (last_segment f) (map str ["ts"; "tsx"; "js"; "jsx"]%string).

(** A file on which the five scripts agree when all of them reach its
    directory: it is not named by a bare extension and, when its name ends
    with one of the dotted extensions, [count_code_lines.py] counts it. *)
Definition plain_file (f : pystr) (c : fcontent) : bool :=
  fs_name f
  && negb (in_list f (map str ["ts"; "tsx"; "js"; "jsx"]%string))
  && (negb (source_name f) || glob_counts f c).

(** A file on which the five scripts agree, in a directory that the walking
    scripts reach or not ([w]) and that [count_code_lines.py] reaches or not
    ([g]): reached by all, it is plain; reached by one side only, that side
    does not count it. *)
Definition alike_file (w g : bool) (f : pystr) (c : fcontent) : bool :=
  match w, g with
  | true, true => plain_file f c
  | true, false => negb (walkers_count f)
  | false, true => negb (glob_counts f c)
  | false, false => true
  end.






(** A plain file. *)
Definition plain_entry (file : pystr * fcontent) : Prop :=
  plain_file (fst file) (snd file) = true.

(** The path test of [count_code_lines.py] fails. *)
Definition unclean (p : pystr) : bool :=
  contains (str "node_modules") p || contains (str ".next") p.




(** What a file adds to one pass of [count_code_lines.py] when the path of
    its directory passes the path test. *)
Definition hit_contribution (suffix : pystr) (file : pystr * fcontent)
  : contribution :=
  if negb (ishidden (fst file)) && endswith (fst file) suffix
     && negb (unclean (fst file))
  then read_strict (snd file) else None.

(** What a plain file adds to one pass of [count_code_lines.py]. *)
Definition suffix_contribution (suffix : pystr) (file : pystr * fcontent)
  : contribution :=
  if endswith (fst file) suffix then read_strict (snd file) else None.


End Counters.

(** ** Sample inputs *)

Module Samples.
Import FormExtract Analyze Counters.

(** The document [MARKER<form></form>]: no ['<form>'] before the marker,
    and yet the loop breaks. *)
Definition doc_without_opening : pystr :=
  FORM_KEY_MARKER ++ str "<form></form>".

(** A document with a nested form after the marker. *)
Definition doc_nested : pystr :=
  str "ab<form>x" ++ FORM_KEY_MARKER ++ str "<form>q</form>z</form>tail".

(** A stand-in for [int] on a string: decimal digits only. *)
Fixpoint digits_value (s : pystr) (acc : Z) : option Z :=
  match s with
  | [] => Some acc
  | c :: s' =>
      let n := nat_of_ascii c in
      if (48 <=? n) && (n <=? 57)
      then digits_value s' (10 * acc + Z.of_nat (n - 48))%Z
      else None
  end.

Definition sample_int (s : pystr) : option Z :=
  match s with
  | [] => None
  | _ => digits_value s 0
  end.

(** A stand-in for [json.loads]: it accepts the empty array only. *)
Definition sample_json_loads (s : pystr) : option pyval :=
  if PyStr.eqb s (str "[]") then Some (PList []) else None.

(** A stand-in for [str] on a value. *)
Definition sample_py_str (v : pyval) : pystr :=
  match v with
  | PStr s => s
  | _ => []
  end.

Definition leaf (name value : string) : element :=
  Element (str name) (Some (str value)) [].

(** A parsed form with three fields: orders 2 and 1, and one field without
    a [field_order] element. *)
Definition sample_root : element :=
  Element (str "form") None
    [ leaf "id" "7"; leaf "name" "Wellness";
      Element (str "field") None
        [ leaf "name" "Email Address"; leaf "type" "email";
          leaf "field_order" "2"; leaf "required" "1" ];
      Element (str "field") None
        [ leaf "name" "Sleep"; leaf "type" "radio";
          leaf "field_order" "1";
          Element (str "options") (Some (str "<![CDATA[[]]]>")) [] ];
      Element (str "field") None
        [ leaf "name" "Notes"; leaf "type" "radio" ] ].

Definition sample_fromstring (_ : pystr) : option element := Some sample_root.

(** A parsed form whose only field has an empty [field_order] element. *)
Definition root_empty_order : element :=
  Element (str "form") None
    [ Element (str "field") None
        [ leaf "name" "Sleep";
          Element (str "field_order") None [] ] ].

(** The dictionary the extractor returns for [sample_root]. *)
Definition sample_info : form_info :=
  Eval vm_compute in
    match form_info_of sample_json_loads sample_int sample_root with
    | Return info => info
    | Raise _ =>
        {| fi_form_id := None; fi_form_key := None; fi_name := None;
           fi_description := None; fi_created_at := None;
           fi_status := None; fi_fields := [] |}
    end.

(** The analysis of [sample_info]. *)
Definition sample_analysis : analysis :=
  Eval vm_compute in
    match analyze_questionnaire sample_py_str sample_info with
    | Return a => a
    | Raise _ => initial_analysis sample_info
    end.

(** A tree whose only source file lies in a directory named [builder]. *)
Definition tree_builder : list node :=
  [Dir (str "builder") [File (str "a.ts") (Text 3 true)]].

(** A tree whose only source file lies in [.github]. *)
Definition tree_github : list node :=
  [Dir (str ".github") [File (str "d.jsx") (Text 17 true)]].






End Samples.

(** ** extract_form_fields.py: the summary printed by [main] *)

Module ExtractMain.
Import FormExtract Analyze.

(** A [field] element on which line 107 does not raise: it has no
    [field_order] child, or [int] accepts the text of the first one. *)
Definition order_accepted (int_of_str : pystr -> option Z) (field : element)
  : bool :=
  match find_child field (str "field_order") with
  | None => true
  | Some e =>
      match text e with
      | Some s =>
          match int_of_str s with
          | Some _ => true
          | None => false
          end
      | None => false
      end
  end.

(** Lines 156-160: the body of [for field in form_data['fields']], on the
    pair of [field_types] and [required_count]. *)
Definition breakdown_step (st : list (option pystr * nat) * nat)
  (field : field_data) : list (option pystr * nat) * nat :=
  (counter_add opt_str_eqb (fst st) (fd_type field) 1,
   if fd_required field then snd st + 1 else snd st).

(** Lines 154-160 *)
Definition field_breakdown (form_data : form_info)
  : list (option pystr * nat) * nat :=
  fold_left breakdown_step (fi_fields form_data) ([], 0).

(** Line 163: [len(form_data['fields']) - required_count] *)
Definition optional_count (form_data : form_info) : Z :=
  (Z.of_nat (length (fi_fields form_data))
   - Z.of_nat (snd (field_breakdown form_data)))%Z.

End ExtractMain.

(** ** analyze_questionnaire.py: the entries of the categories *)

Module Entries.
Import FormExtract Analyze.

(** Lines 49-54: the entry appended to ['required_fields']. *)
Definition required_of (field : field_data) : required_entry :=
  {| re_name := fd_name field; re_type := fd_type field;
     re_field_key := fd_field_key field; re_order := fd_field_order field |}.

(** Line 92: the test that guards the append to ['health_assessments']. *)
Definition is_health (field : field_data) : bool :=
  any_keyword health_keywords (field_name_of field).

(** Lines 93-98 *)
Definition health_of (field : field_data) : health_entry :=
  {| he_name := fd_name field; he_type := fd_type field;
     he_field_key := fd_field_key field;
     he_options := if truthy (fd_options field)
                   then fd_options field else PNone |}.

(** Lines 101-108: what a field adds to ['conditional_logic'] when its
    configuration is a dictionary: nothing, or one entry whose ['logic']
    holds the items of the configuration with [hide], [show] or [cond] in
    the key. *)
Definition conditional_of (field : field_data) : list conditional_entry :=
  match fd_field_config field with
  | PDict d =>
      if dict_has d (str "hide_field") || dict_has d (str "show_field")
      then [{| ce_field_name := fd_name field;
               ce_field_key := fd_field_key field;
               ce_logic :=
                 filter (fun kv => contains (str "hide") (fst kv)
                                   || contains (str "show") (fst kv)
                                   || contains (str "cond") (fst kv)) d |}]
      else []
  | _ => []
  end.

(** Lines 72-77: the entry appended to ['food_preferences']. *)
Definition food_of (field : field_data) : food_entry :=
  {| fe_name := fd_name field; fe_type := fd_type field;
     fe_field_key := fd_field_key field; fe_options := fd_options field |}.

(** Lines 70-71, for options that can be iterated: the test that guards
    the append to ['food_preferences']. *)
Definition is_food (py_str : pyval -> pystr) (field : field_data) : bool :=
  any_keyword food_keywords (field_name_of field)
  || (truthy (fd_options field)
      && match py_iter (fd_options field) with
         | Return items =>
             existsb (fun opt => contains (str "like") (lower (py_str opt)))
                     items
         | Raise _ => false
         end).

(** A value [len] accepts. *)
Definition has_len (v : pyval) : bool :=
  match v with
  | PStr _ | PList _ | PDict _ => true
  | _ => false
  end.

End Entries.

(** ** analyze_questionnaire.py: [generate_field_summary] *)

Module Summary.
Import FormExtract Analyze.

(** One entry of the returned list.  The keys ['options'],
    ['options_preview'] and ['options_note'] are present or not. *)
Record field_summary : Type := {
  sm_order : Z;
  sm_name : option pystr;
  sm_field_key : option pystr;
  sm_type : option pystr;
  sm_required : bool;
  sm_description : option pystr;
  sm_default_value : option pystr;
  sm_options_count : Z;
  sm_has_conditional_logic : bool;
  sm_special_config : list (pystr * pyval);
  sm_options : option pyval;
  sm_options_preview : option pyval;
  sm_options_note : option pystr
}.

Definition special_keys : list pystr :=
  map str ["likert_id"; "custom_html"; "classes"; "in_section"]%string.

(** [str(n)] on an integer *)
Definition decimal (n : Z) : pystr :=
  str (NilZero.string_of_int (Z.to_int n)).

(** [config.get(k)]: only dictionaries have the method. *)
Definition config_get (config : pyval) (k : pystr) : result pyval :=
  match config with
  | PDict d => Return (dict_get d k PNone)
  | _ => Raise AttributeError
  end.

Section GenerateSummary.
Local Open Scope py_scope.

(** What [d[:5]] raises on a dictionary: [TypeError] up to Python 3.11
    (a slice cannot be hashed), the [KeyError] of a missing key from 3.12. *)
Variable dict_slice_error : exn.

(** [v[:5]] *)
Definition first_five (v : pyval) : result pyval :=
  match v with
  | PStr s => Return (PStr (firstn 5 s))
  | PList l => Return (PList (firstn 5 l))
  | PDict _ => Raise dict_slice_error
  | _ => Raise TypeError
  end.

(** Lines 122-145: the body of [for i, field in enumerate(fields, 1)]. *)
Definition summarize (field : field_data) : result field_summary :=
  let options := fd_options field in
  let config := fd_field_config field in
  options_count <-
    (if truthy options then py_len options else Return 0%Z) ;;
  hide <- config_get config (str "hide_field") ;;
  logic <-
    (if truthy hide then Return hide
     else config_get config (str "show_field")) ;;
  special_config <-
    match config with
    | PDict d => Return (filter (fun kv => in_list (fst kv) special_keys) d)
    | _ => Raise AttributeError
    end ;;
  let field_summary (opts preview : option pyval) (note : option pystr) :=
    {| sm_order := fd_field_order field; sm_name := fd_name field;
       sm_field_key := fd_field_key field; sm_type := fd_type field;
       sm_required := fd_required field;
       sm_description := fd_description field;
       sm_default_value := fd_default_value field;
       sm_options_count := options_count;
       sm_has_conditional_logic := truthy logic;
       sm_special_config := special_config;
       sm_options := opts; sm_options_preview := preview;
       sm_options_note := note |} in
  if truthy options then
    n <- py_len options ;;
    if (n <=? 20)%Z then Return (field_summary (Some options) None None)
    else
      preview <- first_five options ;;
      Return (field_summary None (Some preview)
                (Some (str "Showing 5 of " ++ decimal n ++ str " options")))
  else Return (field_summary None None None).

(** [generate_field_summary] on the loaded [form_data]. *)
Definition generate_field_summary (form_data : form_info)
  : result (list field_summary) :=
  map_m summarize (fi_fields form_data).

End GenerateSummary.

(** Options the summary can take: falsy, a string, a list, or a dictionary
    of at most 20 entries. *)
Definition options_fit (v : pyval) : bool :=
  match v with
  | PStr _ | PList _ => true
  | PDict d => (Z.of_nat (length d) <=? 20)%Z
  | _ => negb (truthy v)
  end.

(** A field on which [summarize] does not raise. *)
Definition summarizable (field : field_data) : bool :=
  options_fit (fd_options field) && config_ok (fd_field_config field).

End Summary.

(** ** Where the entries of a tree lie *)

Module Places.
Import Counters.

(** [dir_under n ds es]: [n] is a directory, [ds] are the names from [n]
    itself down to one of the directories in it, and [es] is the listing
    of that directory.  No symbolic link is gone through. *)
Inductive dir_under : node -> list pystr -> list node -> Prop :=
| dir_self (d : pystr) (es : list node) : dir_under (Dir d es) [d] es
| dir_sub (d : pystr) (sub : list node) (n : node) (ds : list pystr)
          (es : list node) :
    In n sub -> dir_under n ds es -> dir_under (Dir d sub) (d :: ds) es.

(** [listing_at tree ds es]: following the directory names [ds] from the
    start directory, whose listing is [tree], leads to a directory whose
    listing is [es], through no symbolic link. *)
Definition listing_at (tree : list node) (ds : list pystr) (es : list node)
  : Prop :=
  (ds = [] /\ es = tree) \/ exists top, In top tree /\ dir_under top ds es.

(** The listing of a directory, or of the target of a symbolic link to
    one. *)
Definition listing_of (n : node) : option (list node) :=
  match n with
  | Dir _ es | Link _ es => Some es
  | File _ _ => None
  end.

(** [dir_via n ds es]: as [dir_under], with symbolic links to directories
    gone through as directories are. *)
Inductive dir_via : node -> list pystr -> list node -> Prop :=
| via_self (n : node) (es : list node) :
    listing_of n = Some es -> dir_via n [node_name n] es
| via_sub (n : node) (sub : list node) (n' : node) (ds : list pystr)
          (es : list node) :
    listing_of n = Some sub -> In n' sub -> dir_via n' ds es ->
    dir_via n (node_name n :: ds) es.

(** [listing_via tree ds es]: as [listing_at], with symbolic links to
    directories gone through as directories are. *)
Definition listing_via (tree : list node) (ds : list pystr) (es : list node)
  : Prop :=
  (ds = [] /\ es = tree) \/ exists top, In top tree /\ dir_via top ds es.

(** The [root] that [os.walk(top)] reports for the directory reached
    through the names [ds]. *)
Definition walk_root (top : pystr) (ds : list pystr) : pystr :=
  fold_left path_join ds top.

(** The path under which the glob names the directory reached through the
    names [ds]; the start directory is named by the empty string. *)
Fixpoint glob_dir (ds : list pystr) : pystr :=
  match ds with
  | [] => []
  | d :: rest =>
      match rest with
      | [] => d
      | _ :: _ => path_join d (glob_dir rest)
      end
  end.

(** [not _ishidden(name)] *)
Definition visible (name : pystr) : bool := negb (ishidden name).

End Places.

(** ** The reports of the line counters *)

Module Reports.
Import FormExtract Counters.

(** *** count_lines.py: the directory breakdown *)

(** Line 59: ['src/app', 'src/components', ...], each path by its
    components. *)
Definition main_dirs : list (list pystr) :=
  map (fun d => [str "src"; str d])
      ["app"; "components"; "lib"; "hooks"; "contexts"; "services"]%string.

(** The path string of a list of components. *)
Fixpoint dir_path (components : list pystr) : pystr :=
  match components with
  | [] => []
  | c :: rest =>
      match rest with
      | [] => c
      | _ :: _ => c ++ str "/" ++ dir_path rest
      end
  end.

(** The entry a relative path names, looked up component by component;
    the symbolic links on the way are followed. *)
Fixpoint resolve (entries : list node) (components : list pystr)
  : option node :=
  match components with
  | [] => None
  | c :: rest =>
      match List.find (fun n => PyStr.eqb (node_name n) c) entries with
      | Some n =>
          match rest with
          | [] => Some n
          | _ :: _ =>
              match n with
              | Dir _ sub | Link _ sub => resolve sub rest
              | File _ _ => None
              end
          end
      | None => None
      end
  end.

(** Lines 67-72: the body of [for file in files], on the pair of
    [dir_files] and [dir_lines]. *)
Definition dir_file_step (t : nat * nat) (file : pystr * fcontent)
  : nat * nat :=
  if in_list (last_segment (fst file)) extensions
  then (fst t + 1, snd t + count_lines_in_file (snd file))
  else t.

(** Lines 65-72: the body of the walk loop; the pruning is in [walk]. *)
Definition dir_walk_step (t : nat * nat) (item : walk_item) : nat * nat :=
  let '(_, _, files) := item in fold_left dir_file_step files t.

(** Lines 63-72 for a directory with listing [entries]. *)
Definition dir_count (dir_path : pystr) (entries : list node) : nat * nat :=
  fold_left dir_walk_step (walk dir_path entries) (0, 0).

(** Lines 61-74: the lines printed, each with its path, [dir_files] and
    [dir_lines].  A path that names a file exists, and [os.walk] yields
    nothing for it; a path that names a symbolic link to a directory is
    walked as the directory is. *)
Definition directory_breakdown (tree : list node)
  : list (pystr * (nat * nat)) :=
  flat_map (fun components =>
              match resolve tree components with
              | Some (Dir _ entries) | Some (Link _ entries) =>
                  let t := dir_count (dir_path components) entries in
                  if 0 <? fst t then [(dir_path components, t)] else []
              | _ => []
              end) main_dirs.

(** The files of the items of a walk, whatever their root. *)
Definition items_files (items : list walk_item) : list (pystr * fcontent) :=
  flat_map (fun item : walk_item => snd item) items.

(** *** count_code_lines.py: the report *)

(** [l.sort(key=lines, reverse=True)]: descending, and stable. *)
Definition sort_desc (A : Type) (lines : A -> nat) (l : list A) : list A :=
  sort_by (fun x => (- Z.of_nat (lines x))%Z) l.

(** Lines 38-41: the body of [for filepath, lines in file_details], on the
    pair of [ext_counts] and [ext_lines]. *)
Definition ext_step (st : list (pystr * nat) * list (pystr * nat))
  (detail : pystr * nat) : list (pystr * nat) * list (pystr * nat) :=
  let ext := splitext_ext (fst detail) in
  (counter_add PyStr.eqb (fst st) ext 1,
   counter_add PyStr.eqb (snd st) ext (snd detail)).

Record ccl_report : Type := {
  rp_total_files : nat;
  rp_total_lines : nat;
  rp_top10 : list (pystr * nat);
  rp_ext_counts : list (pystr * nat);
  rp_ext_lines : list (pystr * nat)
}.

(** Lines 26-45: what is printed after the loop. *)
Definition report_of (st : ccl_state) : ccl_report :=
  let file_details :=
    sort_desc (fun x : pystr * nat => snd x) (ccl_file_details st) in
  let ext := fold_left ext_step file_details ([], []) in
  {| rp_total_files := ccl_total_files st;
     rp_total_lines := ccl_total_lines st;
     rp_top10 := firstn 10 file_details;
     rp_ext_counts := fst ext;
     rp_ext_lines := snd ext |}.

Definition count_lines_and_files (tree : list node) : ccl_report :=
  report_of (count_code_lines tree).

(** *** final_count.py: [by_directory] and [largest_files] *)

(** [s.lstrip('/')] *)
Fixpoint lstrip_slash (s : pystr) : pystr :=
  match s with
  | [] => []
  | c :: s' => if Ascii.eqb c "/"%char then lstrip_slash s' else s
  end.

(** [s.split('/')[0]] *)
Fixpoint first_segment (s : pystr) : pystr :=
  match s with
  | [] => []
  | c :: s' => if Ascii.eqb c "/"%char then [] else c :: first_segment s'
  end.

(** Lines 26-28 *)
Definition relative_dir (directory root : pystr) : pystr :=
  let r := lstrip_slash (replace root directory []) in
  if PyStr.eqb r [] then str "root" else r.

(** Line 49 *)
Definition dir_key (relative_dir : pystr) : pystr :=
  if contains (str "/") relative_dir then first_segment relative_dir
  else relative_dir.

(** One entry of [file_data]. *)
Record file_entry : Type := {
  lf_path : pystr;
  lf_lines : nat;
  lf_extension : pystr
}.

Record fr_state : Type := {
  fr_total_files : nat;
  fr_total_lines : nat;
  fr_by_extension : list (pystr * (nat * nat));
  fr_by_directory : list (pystr * (nat * nat));
  fr_file_data : list file_entry
}.

Definition fr_init : fr_state :=
  {| fr_total_files := 0; fr_total_lines := 0; fr_by_extension := [];
     fr_by_directory := []; fr_file_data := [] |}.

(** Lines 30-63: the body of [for file in files]. *)
Definition fr_file_step (directory root : pystr) (st : fr_state)
  (file : pystr * fcontent) : fr_state :=
  if has_dot_extension (fst file) then
    let filepath := path_join root (fst file) in
    let ext := splitext_ext (fst file) in
    match read_ignore (snd file) with
    | Some lines =>
        {| fr_total_files := fr_total_files st + 1;
           fr_total_lines := fr_total_lines st + lines;
           fr_by_extension := by_extension_add (fr_by_extension st) ext lines;
           fr_by_directory :=
             by_extension_add (fr_by_directory st)
                              (dir_key (relative_dir directory root)) lines;
           fr_file_data :=
             fr_file_data st
             ++ [{| lf_path := replace filepath directory [];
                    lf_lines := lines; lf_extension := ext |}] |}
    | None => st
    end
  else st.

Definition fr_walk_step (directory : pystr) (st : fr_state)
  (item : walk_item) : fr_state :=
  let '(root, _, files) := item in
  if root_excluded root then st
  else fold_left (fr_file_step directory root) files st.

(** Lines 18-63 *)
Definition fr_loop (directory : pystr) (tree : list node) : fr_state :=
  fold_left (fr_walk_step directory) (walk directory tree) fr_init.

(** The part of the loop's state that [fc_state] keeps. *)
Definition fr_counts (st : fr_state) : fc_state :=
  {| fc_total_files := fr_total_files st;
     fc_total_lines := fr_total_lines st;
     fc_by_extension := fr_by_extension st |}.

(** The returned [results]. *)
Record fc_results : Type := {
  res_total_files : nat;
  res_total_lines : nat;
  res_by_extension : list (pystr * (nat * nat));
  res_by_directory : list (pystr * (nat * nat));
  res_largest_files : list file_entry
}.

(** [count_lines_and_files(directory)] of [final_count.py], on the listing
    of [directory]. *)
Definition final_results (directory : pystr) (tree : list node)
  : fc_results :=
  let st := fr_loop directory tree in
  {| res_total_files := fr_total_files st;
     res_total_lines := fr_total_lines st;
     res_by_extension := fr_by_extension st;
     res_by_directory := fr_by_directory st;
     res_largest_files := firstn 10 (sort_desc lf_lines (fr_file_data st)) |}.

(** [sum(d['files'] for d in by.values())] and the same for ['lines']. *)
Definition by_total (d : list (pystr * (nat * nat))) : nat * nat :=
  fold_right (fun kv acc => (fst (snd kv) + fst acc, snd (snd kv) + snd acc))
             (0, 0) d.

(** Componentwise order on pairs of totals. *)
Definition totals_le (a b : nat * nat) : Prop :=
  fst a <= fst b /\ snd a <= snd b.

End Reports.

(** ** Further sample inputs *)

Module MoreSamples.
Import FormExtract Analyze Counters Samples.

(** A stand-in for [json.loads] that decodes the text [[1]] only. *)
Definition json_loads_one (s : pystr) : option pyval :=
  if PyStr.eqb s (str "[1]") then Some (PList [PInt 1]) else None.

(** An opening and the marker, and no ['</form>']. *)
Definition doc_unclosed : pystr := FORM_OPEN ++ FORM_KEY_MARKER.

(** A document whose form is closed before the marker begins. *)
Definition doc_closed_early : pystr :=
  str "<form></form>" ++ FORM_KEY_MARKER.

(** A field with 21 options, the first of them ["a"]. *)
Definition field_many_options : field_data :=
  {| fd_id := Some (str "1"); fd_field_key := Some (str "k");
     fd_name := Some (str "Sleep"); fd_description := Some [];
     fd_type := Some (str "select"); fd_default_value := Some [];
     fd_field_order := 1; fd_required := true;
     fd_options := PList (PStr (str "a") :: repeat (PStr (str "b")) 20);
     fd_field_config := PDict [(str "hide_field", PStr (str "x"))] |}.

(** A field whose options decoded to a number. *)
Definition field_numeric_options : field_data :=
  {| fd_id := Some (str "2"); fd_field_key := Some (str "n");
     fd_name := Some (str "Count"); fd_description := Some [];
     fd_type := Some (str "number"); fd_default_value := Some [];
     fd_field_order := 2; fd_required := false;
     fd_options := PInt 5;
     fd_field_config := PDict [] |}.

Definition info_of_fields (fields : list field_data) : form_info :=
  {| fi_form_id := None; fi_form_key := None; fi_name := None;
     fi_description := None; fi_created_at := None; fi_status := None;
     fi_fields := fields |}.

(** A form with one field, of 21 options and a [hide_field] entry. *)
Definition info_many : form_info := info_of_fields [field_many_options].

Definition analysis_many : analysis :=
  Eval vm_compute in
    match analyze_questionnaire sample_py_str info_many with
    | Return a => a
    | Raise _ => initial_analysis info_many
    end.

(** The summary of [info_many]. *)
Definition summary_many : list Summary.field_summary :=
  Eval vm_compute in
    match Summary.generate_field_summary TypeError info_many with
    | Return s => s
    | Raise _ => []
    end.

(** A form whose second field has numeric options. *)
Definition info_numeric : form_info :=
  info_of_fields [field_many_options; field_numeric_options].

(** A tree with sources under [src/app], one of them in a directory named
    [builder]. *)
Definition tree_app : list node :=
  [ Dir (str "src")
      [ Dir (str "app")
          [ File (str "page.tsx") (Text 10 true);
            Dir (str "builder") [File (str "a.ts") (Text 3 true)];
            Dir (str "dist") [File (str "out.js") (Text 99 true)] ] ];
    File (str "x.js") (Text 2 true) ].

End MoreSamples.

(** * Properties *)

Unset Implicit Arguments.

(** ** Facts about the string operations *)

Module PyStrFacts.

Lemma eqb_eq (a b : pystr) : PyStr.eqb a b = true <-> a = b.
Proof.
  revert b; induction a as [|c a IH]; intros [|d b]; simpl;
    try (split; [discriminate | discriminate]); try tauto.
  rewrite andb_true_iff, Ascii.eqb_eq, IH.
  split; [intros [-> ->]; reflexivity | intros H; inversion H; auto].
Qed.

Lemma eqb_refl (a : pystr) : PyStr.eqb a a = true.
Proof. apply eqb_eq; reflexivity. Qed.

Lemma eqb_neq (a b : pystr) : PyStr.eqb a b = false <-> a <> b.
Proof.
  rewrite <- eqb_eq. destruct (PyStr.eqb a b); split; congruence.
Qed.

Lemma len_nonneg (s : pystr) : (0 <= len s)%Z.
Proof. unfold len; lia. Qed.

Lemma len_app (a b : pystr) : len (a ++ b) = (len a + len b)%Z.
Proof. unfold len; rewrite length_app; lia. Qed.

Lemma startswith_nil (s : pystr) : startswith s [] = true.
Proof. destruct s; reflexivity. Qed.

Lemma startswith_app (sub rest : pystr) : startswith (sub ++ rest) sub = true.
Proof.
  induction sub as [|c sub IH]; simpl; [reflexivity|].
  rewrite Ascii.eqb_refl; exact IH.
Qed.

Lemma startswith_iff_app (s sub : pystr) :
  startswith s sub = true <-> exists rest, s = sub ++ rest.
Proof.
  split.
  - revert s; induction sub as [|c sub IH]; intros s H.
    + exists s; reflexivity.
    + destruct s as [|d s]; simpl in H; [discriminate|].
      apply andb_true_iff in H; destruct H as [Hc Hs].
      apply Ascii.eqb_eq in Hc; subst d.
      destruct (IH _ Hs) as [rest ->]. exists rest; reflexivity.
  - intros [rest ->]; apply startswith_app.
Qed.

Lemma startswith_iff_firstn (s sub : pystr) :
  startswith s sub = true <-> firstn (length sub) s = sub.
Proof.
  rewrite startswith_iff_app; split.
  - intros [rest ->]. rewrite firstn_app, Nat.sub_diag, firstn_all.
    simpl; apply app_nil_r.
  - intros H. exists (skipn (length sub) s).
    rewrite <- H at 1. symmetry; apply firstn_skipn.
Qed.

Lemma startswith_length (s sub : pystr) :
  startswith s sub = true -> length sub <= length s.
Proof.
  intros H; apply startswith_iff_app in H; destruct H as [rest ->].
  rewrite length_app; lia.
Qed.

(** A prefix test only reads as many characters as the prefix has. *)
Lemma startswith_firstn_ge (s sub : pystr) (n : nat) :
  length sub <= n -> startswith (firstn n s) sub = startswith s sub.
Proof.
  revert s n; induction sub as [|c sub IH]; intros s n Hn.
  - rewrite !startswith_nil; reflexivity.
  - destruct n as [|n]; [simpl in Hn; lia|].
    destruct s as [|d s]; simpl; [reflexivity|].
    rewrite IH by (simpl in Hn; lia). reflexivity.
Qed.

Lemma endswith_app (a sub : pystr) : endswith (a ++ sub) sub = true.
Proof. unfold endswith; rewrite rev_app_distr; apply startswith_app. Qed.

Lemma endswith_iff_app (s sub : pystr) :
  endswith s sub = true <-> exists a, s = a ++ sub.
Proof.
  unfold endswith; rewrite startswith_iff_app; split.
  - intros [rest H]. exists (rev rest).
    rewrite <- (rev_involutive s), H, rev_app_distr, rev_involutive.
    reflexivity.
  - intros [a ->]. exists (rev a). apply rev_app_distr.
Qed.

(** A slice with bounds [0 <= a <= b] is [b - a] characters from [a]. *)
Lemma slice_nonneg (s : pystr) (a b : Z) :
  (0 <= a <= b)%Z ->
  slice s a b = firstn (Z.to_nat (b - a)) (skipn (Z.to_nat a) s).
Proof.
  intros Hab. unfold slice, norm_index.
  destruct (Z.ltb_spec a 0) as [Ha|Ha]; [lia|].
  destruct (Z.ltb_spec b 0) as [Hb|Hb]; [lia|].
  pose proof (len_nonneg s) as Hn. unfold len in *.
  destruct (Z.le_gt_cases (Z.of_nat (length s)) a) as [Hge|Hlt].
  - rewrite (Z.min_r a), (Z.min_r b) by lia.
    rewrite !skipn_all2 by lia. rewrite !firstn_nil. reflexivity.
  - rewrite (Z.min_l a) by lia.
    destruct (Z.le_gt_cases b (Z.of_nat (length s))) as [Hb'|Hb'].
    + rewrite (Z.min_l b) by lia. reflexivity.
    + rewrite (Z.min_r b) by lia.
      rewrite !firstn_all2; [reflexivity | |];
        rewrite length_skipn; lia.
Qed.

Lemma occurs_at_iff (s sub : pystr) (i : Z) :
  occurs_at s sub i <->
  (0 <= i)%Z /\ startswith (skipn (Z.to_nat i) s) sub = true.
Proof.
  unfold occurs_at. split; intros [Hi H]; split; try assumption.
  - rewrite slice_nonneg in H by (pose proof (len_nonneg sub); lia).
    apply startswith_iff_firstn.
    replace (Z.to_nat (i + len sub - i)) with (length sub) in H
      by (unfold len; lia).
    exact H.
  - rewrite slice_nonneg by (pose proof (len_nonneg sub); lia).
    replace (Z.to_nat (i + len sub - i)) with (length sub)
      by (unfold len; lia).
    apply startswith_iff_firstn; exact H.
Qed.

(** The test [s[i:i+len(sub)] == sub] of the source, at an index [i >= 0]. *)
Lemma slice_test (s sub : pystr) (i : Z) :
  (0 <= i)%Z ->
  PyStr.eqb (slice s i (i + len sub)) sub
  = startswith (skipn (Z.to_nat i) s) sub.
Proof.
  intros Hi.
  destruct (startswith (skipn (Z.to_nat i) s) sub) eqn:E.
  - apply eqb_eq. apply (proj2 (occurs_at_iff s sub i)). auto.
  - apply eqb_neq. intros H.
    assert (occurs_at s sub i) as Ho by (split; assumption).
    apply occurs_at_iff in Ho. destruct Ho; congruence.
Qed.

Lemma skipn_S_cons (s : pystr) (k : nat) :
  k < length s -> exists c, skipn k s = c :: skipn (S k) s.
Proof.
  revert s; induction k as [|k IH]; intros [|d s] H; simpl in H; try lia.
  - exists d; reflexivity.
  - destruct (IH s) as [c Hc]; [lia|]. exists c; exact Hc.
Qed.

(** [find] returns the first index at which [sub] occurs. *)
Lemma find_from_spec (s sub : pystr) (i : Z) :
  (0 <= i)%Z ->
  (find_from s sub i = (-1)%Z /\
   forall k, startswith (skipn k s) sub = false)
  \/ (exists k, find_from s sub i = (i + Z.of_nat k)%Z /\
        startswith (skipn k s) sub = true /\
        forall j, j < k -> startswith (skipn j s) sub = false).
Proof.
  revert i; induction s as [|c s IH]; intros i Hi; cbn [find_from].
  - destruct (startswith [] sub) eqn:E.
    + right. exists 0. repeat split; [lia | exact E | intros; lia].
    + left. split; [reflexivity|]. intros k. rewrite skipn_nil. exact E.
  - destruct (startswith (c :: s) sub) eqn:E.
    + right. exists 0. repeat split; [lia | exact E | intros; lia].
    + destruct (IH (i + 1)%Z ltac:(lia)) as [[Hr Hno]|[k [Hr [Hk Hno]]]].
      * left. split; [exact Hr|]. intros [|k]; [exact E | apply Hno].
      * right. exists (S k). repeat split; [rewrite Hr; lia | exact Hk |].
        intros [|j] Hj; [exact E | apply Hno; lia].
Qed.

Lemma find_spec (s sub : pystr) :
  (find s sub = (-1)%Z /\ forall j, ~ occurs_at s sub j)
  \/ (occurs_at s sub (find s sub) /\
      forall j, occurs_at s sub j -> (find s sub <= j)%Z).
Proof.
  unfold find.
  destruct (find_from_spec s sub 0 ltac:(lia)) as [[Hr Hno]|[k [Hr [Hk Hno]]]].
  - left. split; [exact Hr|]. intros j Hj.
    apply occurs_at_iff in Hj. destruct Hj as [_ Hj].
    rewrite Hno in Hj; discriminate.
  - right. rewrite Hr. split.
    + apply occurs_at_iff. split; [lia|].
      replace (Z.to_nat (0 + Z.of_nat k)) with k by lia. exact Hk.
    + intros j Hj. apply occurs_at_iff in Hj. destruct Hj as [Hj0 Hj].
      destruct (Z.lt_ge_cases j (0 + Z.of_nat k)) as [Hlt|Hge]; [|lia].
      rewrite Hno in Hj by lia. discriminate.
Qed.


(** [rfind] returns the last index at which [sub] occurs inside the
    bounds. *)
Lemma rfind_from_spec (s sub : pystr) (lo hi : Z) :
  forall (i best : Z),
  (rfind_from s sub i lo hi best = best /\
   forall k, k <= length s ->
     (lo <= i + Z.of_nat k)%Z -> (i + Z.of_nat k + len sub <= hi)%Z ->
     startswith (skipn k s) sub = false)
  \/ (exists k, k <= length s /\
        rfind_from s sub i lo hi best = (i + Z.of_nat k)%Z /\
        (lo <= i + Z.of_nat k)%Z /\ (i + Z.of_nat k + len sub <= hi)%Z /\
        startswith (skipn k s) sub = true /\
        forall j, k < j -> j <= length s ->
          (lo <= i + Z.of_nat j)%Z -> (i + Z.of_nat j + len sub <= hi)%Z ->
          startswith (skipn j s) sub = false).
Proof.
  induction s as [|c s IH]; intros i best; cbn [rfind_from].
  - destruct ((lo <=? i)%Z && (i + len sub <=? hi)%Z && startswith [] sub)
      eqn:E.
    + apply andb_true_iff in E; destruct E as [E E3].
      apply andb_true_iff in E; destruct E as [E1 E2].
      right. exists 0. simpl length.
      repeat (split; [first [lia | exact E3] |]).
      intros; lia.
    + left. split; [reflexivity|]. intros k Hk H1 H2.
      simpl in Hk. assert (k = 0) by lia; subst k.
      rewrite !andb_false_iff in E. simpl skipn.
      destruct E as [[E|E]|E]; [lia | lia | exact E].
  - set (best' := if (lo <=? i)%Z && (i + len sub <=? hi)%Z
                       && startswith (c :: s) sub then i else best).
    destruct (IH (i + 1)%Z best') as [[Hr Hno]|[k [Hk [Hr [H1 [H2 [H3 Hno]]]]]]].
    + subst best'.
      destruct ((lo <=? i)%Z && (i + len sub <=? hi)%Z
                && startswith (c :: s) sub) eqn:E.
      * apply andb_true_iff in E; destruct E as [E E3].
        apply andb_true_iff in E; destruct E as [E1 E2].
        right. exists 0.
        repeat (split; [first [simpl; lia | rewrite Hr; lia | exact E3] |]).
        intros [|j] Hj Hjl Hj1 Hj2; [lia|].
        simpl skipn. apply Hno; simpl in Hjl; lia.
      * left. split; [exact Hr|]. intros [|k] Hk H1 H2.
        -- rewrite !andb_false_iff in E. simpl skipn.
           destruct E as [[E|E]|E]; [lia | lia | exact E].
        -- simpl skipn. apply Hno; simpl in Hk; lia.
    + right. exists (S k).
      repeat (split; [first [simpl; lia | rewrite Hr; lia | exact H3] |]).
      intros [|j] Hj Hjl Hj1 Hj2; [lia|].
      simpl skipn. apply Hno; simpl in Hjl; lia.
Qed.

Lemma occurs_at_bound (s sub : pystr) (j : Z) :
  occurs_at s sub j -> sub <> [] -> (j + len sub <= len s)%Z.
Proof.
  intros H Hne. apply occurs_at_iff in H. destruct H as [Hj H].
  apply startswith_length in H.
  destruct (Z.le_gt_cases (len s) j) as [Hge|Hlt].
  - rewrite skipn_all2 in H by (unfold len in Hge; lia).
    destruct sub; [congruence | simpl in H; lia].
  - rewrite length_skipn in H. unfold len in *. lia.
Qed.

Lemma rfind_spec (s sub : pystr) (hi : Z) :
  (0 <= hi <= len s)%Z ->
  (rfind s sub 0 hi = (-1)%Z /\
   forall j, occurs_at s sub j -> ~ (j + len sub <= hi)%Z)
  \/ (occurs_at s sub (rfind s sub 0 hi) /\
      (rfind s sub 0 hi + len sub <= hi)%Z /\
      forall j, occurs_at s sub j -> (j + len sub <= hi)%Z ->
                (j <= rfind s sub 0 hi)%Z).
Proof.
  intros Hhi. unfold rfind.
  assert (norm_index (len s) 0 = 0%Z) as ->
    by (unfold norm_index; simpl; pose proof (len_nonneg s); lia).
  assert (norm_index (len s) hi = hi) as ->.
  { unfold norm_index. destruct (Z.ltb_spec hi 0); lia. }
  destruct (rfind_from_spec s sub 0 hi 0 (-1))
    as [[Hr Hno]|[k [Hk [Hr [H1 [H2 [H3 Hno]]]]]]].
  - left. split; [exact Hr|]. intros j Hj Hb.
    apply occurs_at_iff in Hj. destruct Hj as [Hj0 Hj].
    rewrite (Hno (Z.to_nat j)) in Hj; [discriminate | | lia | lia].
    pose proof (len_nonneg sub). unfold len in *. lia.
  - right. rewrite Hr. split; [|split].
    + apply occurs_at_iff. split; [lia|].
      replace (Z.to_nat (0 + Z.of_nat k)) with k by lia. exact H3.
    + exact H2.
    + intros j Hj Hb. apply occurs_at_iff in Hj. destruct Hj as [Hj0 Hj].
      destruct (Z.le_gt_cases j (0 + Z.of_nat k)) as [Hle|Hgt]; [exact Hle|].
      rewrite (Hno (Z.to_nat j)) in Hj; [discriminate | lia | | lia | lia].
      pose proof (len_nonneg sub). unfold len in *. lia.
Qed.

Lemma firstn_add (A : Type) (l : list A) (k n : nat) :
  firstn (k + n) l = firstn k l ++ firstn n (skipn k l).
Proof.
  revert l; induction k as [|k IH]; intros [|x l]; simpl;
    try reflexivity.
  - rewrite firstn_nil; reflexivity.
  - rewrite IH; reflexivity.
Qed.

Lemma skipn_S_tl (A : Type) (l : list A) (k : nat) :
  skipn (S k) l = tl (skipn k l).
Proof.
  revert l; induction k as [|k IH]; intros l.
  - destruct l; reflexivity.
  - destruct l as [|x l]; [reflexivity|].
    change (skipn (S (S k)) (x :: l)) with (skipn (S k) l).
    change (skipn (S k) (x :: l)) with (skipn k l).
    apply IH.
Qed.

Lemma lstrip_nil_iff (s : pystr) :
  lstrip s = [] <-> forallb isspace s = true.
Proof.
  induction s as [|c s IH]; simpl; [tauto|].
  destruct (isspace c); simpl; [exact IH|].
  split; discriminate.
Qed.

Lemma lstrip_head (s : pystr) :
  lstrip s = [] \/ exists c t, lstrip s = c :: t /\ isspace c = false.
Proof.
  induction s as [|c s IH]; simpl; [left; reflexivity|].
  destruct (isspace c) eqn:E; [exact IH|].
  right. exists c, s. split; [reflexivity | exact E].
Qed.

Lemma forallb_rev (A : Type) (f : A -> bool) (l : list A) :
  forallb f (rev l) = forallb f l.
Proof.
  induction l as [|x l IH]; simpl; [reflexivity|].
  rewrite forallb_app, IH. simpl. rewrite andb_true_r. apply andb_comm.
Qed.

(** [s.strip() == ''] exactly when [s] holds whitespace only. *)
Lemma strip_nil_iff (s : pystr) :
  strip s = [] <-> forallb isspace s = true.
Proof.
  unfold strip. split.
  - intros H.
    assert (lstrip (rev (lstrip s)) = []) as H1.
    { rewrite <- (rev_involutive (lstrip (rev (lstrip s)))), H.
      reflexivity. }
    apply lstrip_nil_iff in H1. rewrite forallb_rev in H1.
    destruct (lstrip_head s) as [E|[c [t [E Hc]]]].
    + apply lstrip_nil_iff. exact E.
    + rewrite E in H1. simpl in H1. rewrite Hc in H1. discriminate.
  - intros H. apply lstrip_nil_iff in H. rewrite H. reflexivity.
Qed.

End PyStrFacts.

(** ** extract_form_fields.py: the balanced-tag scan *)

Module ScanFacts.
Import PyStrFacts FormExtract.

Lemma open_close_exclusive (x : pystr) :
  startswith x FORM_OPEN = true -> startswith x FORM_CLOSE = false.
Proof.
  intros H. apply startswith_iff_app in H. destruct H as [rest ->].
  reflexivity.
Qed.

Lemma open_test (content : pystr) (i : Z) :
  (0 <= i)%Z ->
  PyStr.eqb (slice content i (i + 6)) FORM_OPEN
  = startswith (skipn (Z.to_nat i) content) FORM_OPEN.
Proof. intros Hi. exact (slice_test content FORM_OPEN i Hi). Qed.

Lemma close_test (content : pystr) (i : Z) :
  (0 <= i)%Z ->
  PyStr.eqb (slice content i (i + 7)) FORM_CLOSE
  = startswith (skipn (Z.to_nat i) content) FORM_CLOSE.
Proof. intros Hi. exact (slice_test content FORM_CLOSE i Hi). Qed.

Lemma delta_at_suffix (content : pystr) (i : Z) :
  (0 <= i)%Z -> delta_at content i = tag_delta (skipn (Z.to_nat i) content).
Proof.
  intros Hi. unfold delta_at, tag_delta.
  rewrite open_test, close_test by assumption. reflexivity.
Qed.

Lemma running_count_step (content : pystr) (a p : Z) :
  (a <= p)%Z ->
  running_count content a p
  = (delta_at content a + running_count content (a + 1) p)%Z.
Proof.
  intros H. unfold running_count.
  replace (Z.to_nat (p - a + 1)) with (S (Z.to_nat (p - (a + 1) + 1))) by lia.
  reflexivity.
Qed.

Lemma running_count_self (content : pystr) (a : Z) :
  running_count content a a = delta_at content a.
Proof.
  unfold running_count. replace (Z.to_nat (a - a + 1)) with 1 by lia.
  simpl. lia.
Qed.

(** What a [break] of the loop tells: it happened at the first ['</form>']
    where the count, started from [form_level] at [pos], is back at zero. *)
Lemma scan_loop_spec (content : pystr) :
  forall (remaining : nat) (pos form_level form_end : Z),
  (0 <= pos)%Z ->
  scan_loop content remaining pos form_level = Some form_end ->
  exists p,
    (pos <= p < pos + Z.of_nat remaining)%Z /\ form_end = (p + 7)%Z /\
    occurs_at content FORM_CLOSE p /\
    (form_level + running_count content pos p = 0)%Z /\
    forall q, (pos <= q < p)%Z -> occurs_at content FORM_CLOSE q ->
              (form_level + running_count content pos q <> 0)%Z.
Proof.
  induction remaining as [|remaining IH]; intros pos level e Hpos H;
    [discriminate|].
  cbn [scan_loop] in H.
  destruct (PyStr.eqb (slice content pos (pos + 6)) FORM_OPEN) eqn:Eo.
  - apply IH in H; [|lia].
    destruct H as [p [Hp [He [Hc [Hz Hmin]]]]].
    exists p. split; [lia|]. split; [exact He|]. split; [exact Hc|]. split.
    + rewrite running_count_step by lia. unfold delta_at. rewrite Eo. lia.
    + intros q Hq Hoc. destruct (Z.eq_dec q pos) as [->|Hne].
      * exfalso. rewrite open_test in Eo by assumption.
        apply occurs_at_iff in Hoc. destruct Hoc as [_ Hoc].
        rewrite (open_close_exclusive _ Eo) in Hoc. discriminate.
      * rewrite running_count_step by lia. unfold delta_at. rewrite Eo.
        specialize (Hmin q ltac:(lia) Hoc). lia.
  - destruct (PyStr.eqb (slice content pos (pos + 7)) FORM_CLOSE) eqn:Ec.
    + cbv zeta in H. destruct (Z.eqb_spec (level - 1) 0) as [Ez|Ez].
      * inversion H; subst e; clear H. exists pos.
        split; [lia|]. split; [reflexivity|]. split.
        { split; [exact Hpos | apply eqb_eq; exact Ec]. }
        split.
        { rewrite running_count_self. unfold delta_at. rewrite Eo, Ec. lia. }
        intros q Hq; lia.
      * apply IH in H; [|lia].
        destruct H as [p [Hp [He [Hc [Hz Hmin]]]]].
        exists p. split; [lia|]. split; [exact He|]. split; [exact Hc|].
        split.
        { rewrite running_count_step by lia. unfold delta_at.
          rewrite Eo, Ec. lia. }
        intros q Hq Hoc. destruct (Z.eq_dec q pos) as [->|Hne].
        { rewrite running_count_self. unfold delta_at. rewrite Eo, Ec. lia. }
        rewrite running_count_step by lia. unfold delta_at. rewrite Eo, Ec.
        specialize (Hmin q ltac:(lia) Hoc). lia.
    + apply IH in H; [|lia].
      destruct H as [p [Hp [He [Hc [Hz Hmin]]]]].
      exists p. split; [lia|]. split; [exact He|]. split; [exact Hc|].
      split.
      { rewrite running_count_step by lia. unfold delta_at.
        rewrite Eo, Ec. lia. }
      intros q Hq Hoc. destruct (Z.eq_dec q pos) as [->|Hne].
      { exfalso. destruct Hoc as [_ Hoc].
        apply eqb_eq in Hoc. change (pos + len FORM_CLOSE)%Z with (pos + 7)%Z in Hoc.
        congruence. }
      rewrite running_count_step by lia. unfold delta_at. rewrite Eo, Ec.
      specialize (Hmin q ltac:(lia) Hoc). lia.
Qed.

Lemma running_from_balance (content : pystr) :
  forall (n : nat) (i : Z), (0 <= i)%Z ->
  running_from content i n = balance (skipn (Z.to_nat i) content) n.
Proof.
  induction n as [|n IH]; intros i Hi; [reflexivity|].
  cbn [running_from balance].
  rewrite delta_at_suffix, IH by lia.
  replace (Z.to_nat (i + 1)) with (S (Z.to_nat i)) by lia.
  rewrite skipn_S_tl. reflexivity.
Qed.

Lemma count_sub_cons (c : ascii) (y sub : pystr) :
  count_sub (c :: y) sub
  = (if startswith (c :: y) sub then 1 else 0) + count_sub y sub.
Proof. reflexivity. Qed.

(** When the count is taken up to a ['</form>'], it is the difference of
    the numbers of opening and closing tags of the text up to the end of
    that tag. *)
Lemma balance_counts :
  forall (k : nat) (x : pystr),
  startswith (skipn k x) FORM_CLOSE = true ->
  balance x (S k)
  = (Z.of_nat (count_sub (firstn (k + 7) x) FORM_OPEN)
     - Z.of_nat (count_sub (firstn (k + 7) x) FORM_CLOSE))%Z.
Proof.
  induction k as [|k IH]; intros x H.
  - simpl skipn in H. apply startswith_iff_app in H.
    destruct H as [rest ->]. vm_compute. reflexivity.
  - destruct x as [|c x]; [discriminate|].
    simpl skipn in H.
    change (balance (c :: x) (S (S k)))
      with (tag_delta (c :: x) + balance x (S k))%Z.
    rewrite (IH x H).
    change (S k + 7) with (S (k + 7)). cbn [firstn].
    rewrite !count_sub_cons.
    change (c :: firstn (k + 7) x) with (firstn (S (k + 7)) (c :: x)).
    rewrite !startswith_firstn_ge by (simpl; lia).
    unfold tag_delta.
    destruct (startswith (c :: x) FORM_OPEN) eqn:Eo.
    + rewrite (open_close_exclusive _ Eo). lia.
    + destruct (startswith (c :: x) FORM_CLOSE); lia.
Qed.

(** A ['<form>'] that begins before the marker ends before it. *)
Lemma open_before_marker (content : pystr) (j m : Z) :
  occurs_at content FORM_OPEN j -> occurs_at content FORM_KEY_MARKER m ->
  (j < m)%Z -> (j + 6 <= m)%Z.
Proof.
  intros Hj Hm Hlt.
  apply occurs_at_iff in Hj. destruct Hj as [Hj0 Hj].
  apply occurs_at_iff in Hm. destruct Hm as [Hm0 Hm].
  destruct (Z.le_gt_cases (j + 6) m) as [Hle|Hgt]; [exact Hle|exfalso].
  replace (Z.to_nat m) with (Z.to_nat (m - j) + Z.to_nat j) in Hm by lia.
  rewrite <- skipn_skipn in Hm.
  apply startswith_iff_app in Hj. destruct Hj as [rest Hj].
  rewrite Hj in Hm.
  assert (Z.to_nat (m - j) = 1 \/ Z.to_nat (m - j) = 2 \/ Z.to_nat (m - j) = 3
          \/ Z.to_nat (m - j) = 4 \/ Z.to_nat (m - j) = 5) as Hd by lia.
  destruct Hd as [Hd|[Hd|[Hd|[Hd|Hd]]]]; rewrite Hd in Hm;
    simpl in Hm; discriminate.
Qed.

End ScanFacts.

Module LocateFacts.
Import PyStrFacts FormExtract ScanFacts Samples.


(** C1, as stated, fails: the marker is present and the scan finds a close
    at which the count is back at zero, but no ['<form>'] precedes the
    marker ([rfind] gives [-1]) and the extracted slice is [">"], which
    does not start with ['<form>']. *)
Lemma slice_without_opening_counterexample :
  occurs_at doc_without_opening FORM_KEY_MARKER 0 /\
  rfind doc_without_opening FORM_OPEN 0
        (find doc_without_opening FORM_KEY_MARKER) = (-1)%Z /\
  scan doc_without_opening (-1) = Some (len doc_without_opening) /\
  locate doc_without_opening = FormXml (str ">") /\
  startswith (str ">") FORM_OPEN = false.
Proof.
  split; [split; [lia | vm_compute; reflexivity]|].
  repeat split; vm_compute; reflexivity.
Qed.

(** C1 (amended): when the marker is present, a ['<form>'] begins before it
    and the scan breaks, the extracted text is the slice from the last
    ['<form>'] before the first marker up to the end of the first ['</form>']
    at which the running count from the slice's start is back at zero; it
    starts with ['<form>'], ends with ['</form>'] and holds as many
    ['<form>'] as ['</form>']. *)
Theorem locate_extracts_balanced_form (content form_xml : pystr) :
  locate content = FormXml form_xml ->
  (exists j, occurs_at content FORM_OPEN j /\
             (j < find content FORM_KEY_MARKER)%Z) ->
  let m := find content FORM_KEY_MARKER in
  let o := rfind content FORM_OPEN 0 m in
  (occurs_at content FORM_KEY_MARKER m /\
   forall j, occurs_at content FORM_KEY_MARKER j -> (m <= j)%Z) /\
  (occurs_at content FORM_OPEN o /\ (o < m)%Z /\
   forall j, occurs_at content FORM_OPEN j -> (j < m)%Z -> (j <= o)%Z) /\
  (exists p,
     (o <= p)%Z /\ occurs_at content FORM_CLOSE p /\
     running_count content o p = 0%Z /\
     (forall q, (o <= q < p)%Z -> occurs_at content FORM_CLOSE q ->
                running_count content o q <> 0%Z) /\
     form_xml = slice content o (p + 7)) /\
  startswith form_xml FORM_OPEN = true /\
  endswith form_xml FORM_CLOSE = true /\
  count_sub form_xml FORM_OPEN = count_sub form_xml FORM_CLOSE.
Proof.
  intros H Hne m o. unfold locate in H. fold m in H. fold o in H.
  destruct (Z.eqb_spec m (-1)) as [Hm|Hm]; [discriminate|].
  destruct (scan content o) as [form_end|] eqn:Es; [|discriminate].
  inversion H as [Hx]; clear H. subst form_xml.
  (* the marker *)
  destruct (find_spec content FORM_KEY_MARKER) as [[Hf _]|[Hmk Hmin]];
    [contradiction|]. fold m in Hmk, Hmin.
  assert (m + len FORM_KEY_MARKER <= len content)%Z as Hmb
    by (apply occurs_at_bound; [exact Hmk | discriminate]).
  assert (0 <= m)%Z as Hm0 by (destruct Hmk; assumption).
  pose proof (len_nonneg FORM_KEY_MARKER) as Hlm.
  (* the opening tag *)
  destruct (rfind_spec content FORM_OPEN m ltac:(lia))
    as [[_ Hnone]|[Hop [Hob Hlast]]].
  { exfalso. destruct Hne as [j [Hj Hjm]]. apply (Hnone j Hj).
    change (len FORM_OPEN) with 6%Z.
    apply (open_before_marker content j m); assumption. }
  fold o in Hop, Hob, Hlast. change (len FORM_OPEN) with 6%Z in Hob, Hlast.
  assert (0 <= o)%Z as Ho0 by (destruct Hop; assumption).
  (* the closing tag *)
  unfold scan in Es. apply scan_loop_spec in Es; [|exact Ho0].
  destruct Es as [p [Hp [He [Hcl [Hz Hfirst]]]]].
  rewrite Z.add_0_l in Hz.
  (* the slice *)
  set (x := skipn (Z.to_nat o) content).
  set (k := Z.to_nat (p - o)).
  assert (slice content o form_end = firstn (k + 7) x) as Hslice.
  { rewrite He, slice_nonneg by lia.
    replace (Z.to_nat (p + 7 - o)) with (k + 7) by (subst k; lia).
    reflexivity. }
  assert (startswith (skipn k x) FORM_CLOSE = true) as Hkx.
  { subst x k. rewrite skipn_skipn.
    replace (Z.to_nat (p - o) + Z.to_nat o) with (Z.to_nat p) by lia.
    apply occurs_at_iff in Hcl. tauto. }
  split; [split; assumption|].
  split.
  { split; [exact Hop|]. split; [lia|].
    intros j Hj Hjm. apply Hlast; [exact Hj|].
    apply (open_before_marker content j m); assumption. }
  split.
  { exists p. split; [lia|]. split; [exact Hcl|]. split; [exact Hz|].
    split.
    - intros q Hq Hoc. specialize (Hfirst q Hq Hoc). lia.
    - rewrite He. reflexivity. }
  split.
  { rewrite Hslice, startswith_firstn_ge by (simpl; lia).
    apply occurs_at_iff in Hop. tauto. }
  split.
  { rewrite Hslice, firstn_add.
    apply startswith_iff_firstn in Hkx. simpl length in Hkx.
    rewrite Hkx. apply endswith_app. }
  { pose proof (balance_counts k x Hkx) as Hb.
    unfold running_count in Hz.
    rewrite running_from_balance in Hz by exact Ho0.
    fold x in Hz.
    replace (Z.to_nat (p - o + 1)) with (S k) in Hz by (subst k; lia).
    rewrite Hslice. lia. }
Qed.


(** The theorem on [doc_nested]: the inner form is kept inside the slice. *)
Lemma locate_extracts_balanced_form_witness :
  locate doc_nested
  = FormXml (str "<form>x" ++ FORM_KEY_MARKER ++ str "<form>q</form>z</form>")
  /\ startswith (str "<form>x" ++ FORM_KEY_MARKER
                 ++ str "<form>q</form>z</form>") FORM_OPEN = true.
Proof.
  assert (locate doc_nested
          = FormXml (str "<form>x" ++ FORM_KEY_MARKER
                     ++ str "<form>q</form>z</form>")) as H
    by (vm_compute; reflexivity).
  assert (exists j, occurs_at doc_nested FORM_OPEN j /\
                    (j < find doc_nested FORM_KEY_MARKER)%Z) as Hj.
  { exists 2%Z. split; [split; [lia | vm_compute; reflexivity]|].
    vm_compute. reflexivity. }
  split; [exact H|].
  apply (locate_extracts_balanced_form doc_nested _ H Hj).
Defined.

(** C2: a document can hold the marker without the scan ever breaking.  On
    the marker alone no ['<form>'] precedes it; on [<form>MARKER] one does
    but it is never closed.  Both run off the end with [form_end]
    unassigned. *)
Theorem scan_runs_off_the_end :
  rfind FORM_KEY_MARKER FORM_OPEN 0 (find FORM_KEY_MARKER FORM_KEY_MARKER)
  = (-1)%Z /\
  locate FORM_KEY_MARKER = FormEndUnbound /\
  locate (FORM_OPEN ++ FORM_KEY_MARKER) = FormEndUnbound.
Proof. vm_compute. repeat split; reflexivity. Qed.

End LocateFacts.

(** ** extract_form_fields.py: parsing and the returned dictionary *)

Module ExtractFacts.
Import PyStrFacts FormExtract.

Section SortFacts.
Variable A : Type.
Variable key : A -> Z.


Lemma insert_by_perm (x : A) (l : list A) :
  Permutation (x :: l) (insert_by key x l).
Proof.
  induction l as [|y l IH]; simpl; [apply Permutation_refl|].
  destruct (key x <=? key y)%Z; [apply Permutation_refl|].
  eapply perm_trans; [apply perm_swap|]. apply perm_skip. exact IH.
Qed.

Lemma insert_by_Forall (P : A -> Prop) (x : A) (l : list A) :
  P x -> Forall P l -> Forall P (insert_by key x l).
Proof.
  intros Hx Hl. eapply Permutation_Forall; [apply insert_by_perm|].
  constructor; assumption.
Qed.

Lemma insert_by_sorted (x : A) (l : list A) :
  StronglySorted (key_le key) l -> StronglySorted (key_le key) (insert_by key x l).
Proof.
  induction 1 as [|y l Hs IH Hy]; simpl.
  - constructor; constructor.
  - destruct (Z.leb_spec (key x) (key y)) as [Hle|Hgt].
    + constructor; [constructor; assumption|].
      constructor; [exact Hle|].
      eapply Forall_impl; [|exact Hy].
      intros z Hz. unfold key_le in *. lia.
    + constructor; [exact IH|].
      apply insert_by_Forall; [unfold key_le; lia | exact Hy].
Qed.

Lemma sort_by_sorted (l : list A) : StronglySorted (key_le key) (sort_by key l).
Proof.
  induction l as [|x l IH]; simpl; [constructor|].
  apply insert_by_sorted; exact IH.
Qed.

Lemma sort_by_perm (l : list A) : Permutation l (sort_by key l).
Proof.
  induction l as [|x l IH]; simpl; [constructor|].
  eapply perm_trans; [apply perm_skip; exact IH | apply insert_by_perm].
Qed.
End SortFacts.

Section WithLibrary.
Variable json_loads : pystr -> option pyval.
Variable fromstring : pystr -> option element.
Variable int_of_str : pystr -> option Z.

Local Abbreviation parse_field_options := (parse_field_options json_loads).
Local Abbreviation parse_field_options_config := (parse_field_options_config json_loads).
Local Abbreviation build_field := (build_field json_loads int_of_str).
Local Abbreviation form_info_of := (form_info_of json_loads int_of_str).
Local Abbreviation extract_form_fields :=
  (extract_form_fields json_loads fromstring int_of_str).
Local Abbreviation order_from := (order_from int_of_str).

(** C9: the four outcomes of [parse_field_options], next to those of
    [parse_field_options_config].  An absent or empty input gives an empty
    list (resp. dictionary).  Otherwise the content is the input with every
    ['<![CDATA['] and then every [']]>'] removed: when it is blank, the
    result is again empty; when [json.loads] accepts it, the decoded value;
    and, when [json.loads] raises, the input string itself from
    [parse_field_options] but an empty dictionary from
    [parse_field_options_config]. *)
Theorem parse_field_options_outcomes (options_str : option pystr) :
  ((options_str = None \/ options_str = Some []) ->
   parse_field_options options_str = PList [] /\
   parse_field_options_config options_str = PDict [])
  /\
  (forall s, options_str = Some s -> s <> [] ->
     let clean_str :=
       replace (replace s (str "<![CDATA[") []) (str "]]>") [] in
     (forallb isspace clean_str = true ->
      parse_field_options options_str = PList [] /\
      parse_field_options_config options_str = PDict [])
     /\
     (forall v, forallb isspace clean_str = false ->
        json_loads clean_str = Some v ->
        parse_field_options options_str = v /\
        parse_field_options_config options_str = v)
     /\
     (forallb isspace clean_str = false -> json_loads clean_str = None ->
      parse_field_options options_str = PStr s /\
      parse_field_options options_str <> PList [] /\
      parse_field_options_config options_str = PDict [])).
Proof.
  split.
  - intros [->| ->]; split; reflexivity.
  - intros s -> Hs clean_str. apply eqb_neq in Hs.
    unfold FormExtract.parse_field_options,
      FormExtract.parse_field_options_config, strip_cdata, CDATA_OPEN,
      CDATA_CLOSE.
    rewrite Hs. fold clean_str.
    assert (forallb isspace clean_str = true ->
            PyStr.eqb (strip clean_str) [] = true) as Hblank.
    { intros H. apply eqb_eq. apply strip_nil_iff. exact H. }
    assert (forallb isspace clean_str = false ->
            PyStr.eqb (strip clean_str) [] = false) as Hfull.
    { intros H. apply eqb_neq. intros E. apply strip_nil_iff in E.
      congruence. }
    split; [|split].
    + intros Hb. rewrite (Hblank Hb). split; reflexivity.
    + intros v Hb Hj. rewrite (Hfull Hb), Hj. split; reflexivity.
    + intros Hb Hj. rewrite (Hfull Hb), Hj.
      split; [reflexivity|]. split; [discriminate | reflexivity].
Qed.

Lemma map_m_Forall2 (A B : Type) (f : A -> result B) (l : list A)
      (ys : list B) :
  map_m f l = Return ys -> Forall2 (fun x y => f x = Return y) l ys.
Proof.
  revert ys; induction l as [|x l IH]; intros ys H; simpl in H.
  - inversion H. constructor.
  - destruct (f x) as [y|e] eqn:Ex; simpl in H; [|discriminate].
    destruct (map_m f l) as [ys'|e]; simpl in H; [|discriminate].
    inversion H; subst. constructor; [exact Ex | apply IH; reflexivity].
Qed.


Lemma build_field_order (field : element) (fd : field_data) :
  build_field field = Return fd -> order_from field fd.
Proof.
  unfold FormExtract.build_field, FormExtract.order_from. intros H.
  destruct (find_child field (str "field_order")) as [e|].
  - destruct (py_int int_of_str (text e)) as [z|ex]; simpl in H;
      [|discriminate].
    inversion H; subst; reflexivity.
  - simpl in H. inversion H; subst; reflexivity.
Qed.

(** C8: a returned dictionary lists the fields in non-decreasing
    [field_order]; they are the fields built from the [field] children
    of the parsed form, re-ordered, and a field without a [field_order]
    element has order 0. *)
Theorem extracted_fields_sorted (content : pystr) (d : form_info) :
  extract_form_fields content = Return (Some d) ->
  StronglySorted (fun a b => (fd_field_order a <= fd_field_order b)%Z)
                 (fi_fields d)
  /\ exists form_xml root built,
       locate content = FormXml form_xml /\
       fromstring form_xml = Some root /\
       Forall2 (fun e fd => build_field e = Return fd /\ order_from e fd)
               (findall root (str "field")) built /\
       Permutation built (fi_fields d).
Proof.
  unfold FormExtract.extract_form_fields. intros H.
  destruct (locate content) as [| |form_xml] eqn:El; try discriminate.
  destruct (fromstring form_xml) as [root|] eqn:Ef; [|discriminate].
  unfold FormExtract.form_info_of in H.
  destruct (map_m build_field (findall root (str "field")))
    as [built|ex] eqn:Em; simpl in H; [|discriminate].
  inversion H; subst d; clear H. cbn [fi_fields].
  split; [apply sort_by_sorted|].
  exists form_xml, root, built.
  split; [reflexivity|]. split; [exact Ef|]. split.
  - apply map_m_Forall2 in Em.
    eapply Forall2_impl; [|exact Em].
    intros e fd Hb. split; [exact Hb | apply build_field_order; exact Hb].
  - apply sort_by_perm.
Qed.

(** C5: on a document that holds the marker but no closing tag, the
    function neither returns [None] nor a dictionary: reading [form_end]
    raises. *)
Theorem extract_raises_on_unclosed_form :
  find FORM_KEY_MARKER FORM_KEY_MARKER <> (-1)%Z /\
  extract_form_fields FORM_KEY_MARKER = Raise UnboundLocalError /\
  extract_form_fields (FORM_OPEN ++ FORM_KEY_MARKER)
  = Raise UnboundLocalError.
Proof.
  unfold FormExtract.extract_form_fields.
  split; [vm_compute; discriminate|].
  split.
  - replace (locate FORM_KEY_MARKER) with FormEndUnbound
      by (vm_compute; reflexivity). reflexivity.
  - replace (locate (FORM_OPEN ++ FORM_KEY_MARKER)) with FormEndUnbound
      by (vm_compute; reflexivity). reflexivity.
Qed.

(** A [field_order] element without text makes line 107 call [int(None)]:
    the function raises whatever the library functions are. *)
Lemma extract_raises_on_empty_field_order :
  form_info_of Samples.root_empty_order = Raise TypeError /\
  FormExtract.extract_form_fields json_loads
    (fun _ => Some Samples.root_empty_order) int_of_str Samples.doc_nested
  = Raise TypeError.
Proof.
  assert (form_info_of Samples.root_empty_order = Raise TypeError) as H
    by reflexivity.
  split; [exact H|].
  unfold FormExtract.extract_form_fields.
  replace (locate Samples.doc_nested)
    with (FormXml (str "<form>x" ++ FORM_KEY_MARKER
                   ++ str "<form>q</form>z</form>"))
    by (vm_compute; reflexivity).
  rewrite H. reflexivity.
Qed.

(** The function returns [None] in the two cases the source names. *)
Lemma extract_returns_none_iff (content : pystr) :
  extract_form_fields content = Return None <->
  (find content FORM_KEY_MARKER = (-1)%Z \/
   exists form_xml, locate content = FormXml form_xml /\
                    fromstring form_xml = None).
Proof.
  unfold FormExtract.extract_form_fields. split.
  - intros H. destruct (locate content) as [| |form_xml] eqn:El.
    + left. unfold locate in El.
      destruct (Z.eqb_spec (find content FORM_KEY_MARKER) (-1));
        [assumption|].
      destruct (scan content _); discriminate.
    + discriminate.
    + right. exists form_xml. split; [reflexivity|].
      destruct (fromstring form_xml) as [root|]; [|reflexivity].
      destruct (form_info_of root); simpl in H; discriminate.
  - intros [Hf|[form_xml [El Hp]]].
    + unfold locate. rewrite Hf. reflexivity.
    + rewrite El, Hp. reflexivity.
Qed.

End WithLibrary.

(** The theorem on three CDATA wrappers: around blanks, around the JSON
    text [[1]], and around text that is not JSON. *)
Lemma parse_field_options_outcomes_witness :
  (parse_field_options MoreSamples.json_loads_one
                       (Some (str "<![CDATA[  ]]>")) = PList [] /\
   parse_field_options_config MoreSamples.json_loads_one
                              (Some (str "<![CDATA[  ]]>")) = PDict [])
  /\
  (parse_field_options MoreSamples.json_loads_one
                       (Some (str "<![CDATA[[1]]]>")) = PList [PInt 1] /\
   parse_field_options_config MoreSamples.json_loads_one
                              (Some (str "<![CDATA[[1]]]>")) = PList [PInt 1])
  /\
  (parse_field_options MoreSamples.json_loads_one
                       (Some (str "<![CDATA[not json]]>"))
   = PStr (str "<![CDATA[not json]]>") /\
   parse_field_options_config MoreSamples.json_loads_one
                              (Some (str "<![CDATA[not json]]>")) = PDict []).
Proof.
  split; [|split].
  - apply (proj1 (proj2 (parse_field_options_outcomes
                           MoreSamples.json_loads_one
                           (Some (str "<![CDATA[  ]]>")))
                        (str "<![CDATA[  ]]>") eq_refl
                        ltac:(discriminate))).
    vm_compute. reflexivity.
  - apply (proj1 (proj2 (proj2 (parse_field_options_outcomes
                                  MoreSamples.json_loads_one
                                  (Some (str "<![CDATA[[1]]]>")))
                               (str "<![CDATA[[1]]]>") eq_refl
                               ltac:(discriminate)))
                 (PList [PInt 1]));
      vm_compute; reflexivity.
  - destruct (proj2 (proj2 (proj2 (parse_field_options_outcomes
                                     MoreSamples.json_loads_one
                                     (Some (str "<![CDATA[not json]]>")))
                                  (str "<![CDATA[not json]]>") eq_refl
                                  ltac:(discriminate)))
                ltac:(vm_compute; reflexivity)
                ltac:(vm_compute; reflexivity)) as [Ha [_ Hb]].
    split; assumption.
Defined.

(** The theorem on [doc_nested] parsed as [sample_root]. *)
Lemma extracted_fields_sorted_witness :
  StronglySorted (fun a b => (fd_field_order a <= fd_field_order b)%Z)
                 (fi_fields Samples.sample_info).
Proof.
  assert (extract_form_fields Samples.sample_json_loads
            Samples.sample_fromstring Samples.sample_int Samples.doc_nested
          = Return (Some Samples.sample_info)) as H
    by (vm_compute; reflexivity).
  exact (proj1 (extracted_fields_sorted _ _ _ _ _ H)).
Defined.

End ExtractFacts.

(** ** Counters *)

Module PyDictFacts.

Section CounterLaws.
Variable K : Type.
Variable key_eqb : K -> K -> bool.
Hypothesis key_eqb_eq : forall a b, key_eqb a b = true <-> a = b.


Lemma counter_get_add (c : list (K * nat)) (k k' : K) (n : nat) :
  counter_get key_eqb (counter_add key_eqb c k n) k'
  = if key_eqb k k'
    then Some (match counter_get key_eqb c k with
               | Some m => m + n
               | None => n
               end)
    else counter_get key_eqb c k'.
Proof.
  induction c as [|[k0 m] c IH]; simpl.
  - destruct (key_eqb k k'); reflexivity.
  - destruct (key_eqb k0 k) eqn:E0; simpl.
    + apply key_eqb_eq in E0; subst k0.
      destruct (key_eqb k k'); reflexivity.
    + rewrite IH. destruct (key_eqb k0 k') eqn:E1; [|reflexivity].
      apply key_eqb_eq in E1; subst k0.
      destruct (key_eqb k k') eqn:E2; [|reflexivity].
      apply key_eqb_eq in E2; subst k'.
      rewrite (proj2 (key_eqb_eq k k) eq_refl) in E0. discriminate.
Qed.

Lemma counter_total_add (c : list (K * nat)) (k : K) (n : nat) :
  counter_total (counter_add key_eqb c k n) = counter_total c + n.
Proof.
  induction c as [|[k0 m] c IH]; simpl; [lia|].
  destruct (key_eqb k0 k); simpl; [lia|]. rewrite IH. lia.
Qed.

Lemma counter_add_keys (c : list (K * nat)) (k : K) (n : nat) :
  map fst (counter_add key_eqb c k n)
  = if existsb (fun k' => key_eqb k' k) (map fst c)
    then map fst c else map fst c ++ [k].
Proof.
  induction c as [|[k0 m] c IH]; simpl; [reflexivity|].
  destruct (key_eqb k0 k) eqn:E0; simpl; [reflexivity|].
  rewrite IH. destruct (existsb _ (map fst c)); reflexivity.
Qed.

Lemma counter_add_NoDup (c : list (K * nat)) (k : K) (n : nat) :
  NoDup (map fst c) -> NoDup (map fst (counter_add key_eqb c k n)).
Proof.
  intros H. rewrite counter_add_keys.
  destruct (existsb (fun k' => key_eqb k' k) (map fst c)) eqn:E;
    [exact H|].
  apply NoDup_app; [exact H | repeat constructor; simpl; tauto |].
  intros x Hx [Hk|[]]. subst x.
  assert (existsb (fun k' => key_eqb k' k) (map fst c) = true) as Ht.
  { apply existsb_exists. exists k. split; [exact Hx|].
    apply key_eqb_eq; reflexivity. }
  congruence.
Qed.

Lemma fold_counter_get (keys : list K) (c : list (K * nat)) (k : K) :
  counter_get key_eqb (fold_left (fun c k => counter_add key_eqb c k 1) keys c) k
  = match counter_get key_eqb c k with
    | Some m => Some (m + occurrences key_eqb keys k)
    | None => if occurrences key_eqb keys k =? 0 then None
              else Some (occurrences key_eqb keys k)
    end.
Proof.
  revert c; induction keys as [|k0 keys IH]; intros c; simpl.
  - unfold occurrences; simpl.
    destruct (counter_get key_eqb c k); [f_equal; lia | reflexivity].
  - rewrite IH, counter_get_add. unfold occurrences; simpl.
    destruct (key_eqb k0 k) eqn:E0; simpl.
    + apply key_eqb_eq in E0; subst k0.
      destruct (counter_get key_eqb c k); f_equal; lia.
    + reflexivity.
Qed.

Lemma fold_counter_total (keys : list K) (c : list (K * nat)) :
  counter_total (fold_left (fun c k => counter_add key_eqb c k 1) keys c)
  = counter_total c + length keys.
Proof.
  revert c; induction keys as [|k0 keys IH]; intros c; simpl; [lia|].
  rewrite IH, counter_total_add. lia.
Qed.

Lemma fold_counter_NoDup (keys : list K) (c : list (K * nat)) :
  NoDup (map fst c) ->
  NoDup (map fst (fold_left (fun c k => counter_add key_eqb c k 1) keys c)).
Proof.
  revert c; induction keys as [|k0 keys IH]; intros c H; simpl; [exact H|].
  apply IH. apply counter_add_NoDup. exact H.
Qed.

(** [Counter(keys)] maps each key to its number of occurrences, holds each
    key once, and its values add up to the number of keys counted. *)
Lemma Counter_get (keys : list K) (k : K) :
  counter_get key_eqb (Counter key_eqb keys) k
  = if occurrences key_eqb keys k =? 0 then None else Some (occurrences key_eqb keys k).
Proof. unfold Counter. rewrite fold_counter_get. reflexivity. Qed.

Lemma Counter_total (keys : list K) :
  counter_total (Counter key_eqb keys) = length keys.
Proof. unfold Counter. rewrite fold_counter_total. reflexivity. Qed.

Lemma Counter_NoDup (keys : list K) :
  NoDup (map fst (Counter key_eqb keys)).
Proof. unfold Counter. apply fold_counter_NoDup. constructor. Qed.

End CounterLaws.

End PyDictFacts.

(** ** analyze_questionnaire.py *)

Module AnalyzeFacts.
Import PyStrFacts PyDictFacts FormExtract Analyze.

Lemma contains_iff (sub s : pystr) :
  contains sub s = true <-> exists pre post, s = pre ++ sub ++ post.
Proof.
  split.
  - induction s as [|c s IH]; intros H.
    + simpl in H. rewrite orb_false_r in H.
      apply startswith_iff_app in H. destruct H as [rest H].
      exists [], rest. exact H.
    + cbn [contains] in H. apply orb_true_iff in H. destruct H as [H|H].
      * apply startswith_iff_app in H. destruct H as [rest H].
        exists [], rest. exact H.
      * destruct (IH H) as [pre [post ->]]. exists (c :: pre), post.
        reflexivity.
  - intros [pre [post ->]]. induction pre as [|c pre IH].
    + simpl app. destruct (sub ++ post) eqn:E; cbn [contains];
        rewrite <- E, startswith_app; reflexivity.
    + simpl app. cbn [contains]. rewrite IH. apply orb_true_r.
Qed.

Lemma opt_str_eqb_eq (a b : option pystr) :
  opt_str_eqb a b = true <-> a = b.
Proof.
  destruct a as [x|], b as [y|]; simpl;
    try (split; [discriminate | discriminate]); [|tauto].
  rewrite eqb_eq. split; [intros ->; reflexivity | intros H; inversion H; auto].
Qed.

Lemma in_list_iff (x : pystr) (l : list pystr) :
  in_list x l = true <-> In x l.
Proof.
  unfold in_list. rewrite existsb_exists. split.
  - intros [y [Hy E]]. apply eqb_eq in E. subst y. exact Hy.
  - intros H. exists x. split; [exact H | apply eqb_refl].
Qed.




Lemma same_core_refl (a : analysis) : same_core a a.
Proof. repeat split. Qed.

Lemma same_core_trans (a b c : analysis) :
  same_core a b -> same_core b c -> same_core a c.
Proof.
  unfold same_core. intros [H1 [H2 H3]] [H4 [H5 H6]].
  repeat split; congruence.
Qed.

Ltac split_result H :=
  repeat match type of H with
         | context [match ?x with _ => _ end] =>
             destruct x eqn:?; simpl in H; try discriminate H
         end.

Section CategorizeFacts.
Variable py_str : pyval -> pystr.

Lemma required_step_core (a : analysis) (f : field_data) :
  same_core a (required_step a f).
Proof. unfold required_step. destruct (fd_required f); repeat split. Qed.

Lemma health_step_core (a : analysis) (f : field_data) :
  same_core a (health_step a f).
Proof.
  unfold health_step.
  destruct (any_keyword health_keywords (field_name_of f)); repeat split.
Qed.

Lemma likert_step_core (a a' : analysis) (f : field_data) :
  likert_step a f = Return a' -> same_core a a'.
Proof.
  unfold likert_step, bind. intros H. split_result H;
    inversion H; subst; repeat split.
Qed.

Lemma food_step_core (a a' : analysis) (f : field_data) :
  food_step py_str a f = Return a' -> same_core a a'.
Proof.
  unfold food_step, bind. intros H. split_result H;
    inversion H; subst; repeat split.
Qed.

Lemma conditional_step_core (a a' : analysis) (f : field_data) :
  conditional_step a f = Return a' -> same_core a a'.
Proof.
  unfold conditional_step, bind. intros H. split_result H;
    inversion H; subst; repeat split.
Qed.

Lemma personal_step_spec (a : analysis) (f : field_data) :
  metadata (personal_step a f) = metadata a /\
  field_types (personal_step a f) = field_types a /\
  personal_info (personal_step a f)
  = personal_info a ++ (if is_personal f then [personal_of f] else []).
Proof.
  unfold personal_step. destruct (is_personal f); cbn;
    rewrite ?app_nil_r; repeat split.
Qed.

(** One pass of the loop body appends the field to ['personal_info'] exactly
    when the test of line 81 holds, and leaves the metadata and the type
    counts as they were. *)
Lemma categorize_spec (a a' : analysis) (f : field_data) :
  categorize py_str a f = Return a' ->
  metadata a' = metadata a /\ field_types a' = field_types a /\
  personal_info a'
  = personal_info a ++ (if is_personal f then [personal_of f] else []).
Proof.
  unfold categorize. intros H.
  destruct (likert_step (required_step a f) f) as [a1|e] eqn:E1;
    simpl in H; [|discriminate].
  destruct (food_step py_str a1 f) as [a2|e] eqn:E2;
    simpl in H; [|discriminate].
  pose proof (required_step_core a f) as [R1 [R2 R3]].
  apply likert_step_core in E1. destruct E1 as [L1 [L2 L3]].
  apply food_step_core in E2. destruct E2 as [F1 [F2 F3]].
  destruct (personal_step_spec a2 f) as [P1 [P2 P3]].
  pose proof (health_step_core (personal_step a2 f) f) as [H1 [H2 H3]].
  apply conditional_step_core in H. destruct H as [C1 [C2 C3]].
  repeat split; congruence.
Qed.

Lemma for_each_categorize (fields : list field_data) :
  forall a a',
  for_each (categorize py_str) fields a = Return a' ->
  metadata a' = metadata a /\ field_types a' = field_types a /\
  personal_info a'
  = personal_info a ++ map personal_of (filter is_personal fields).
Proof.
  induction fields as [|f fields IH]; intros a a' H; simpl in H.
  - inversion H; subst. rewrite app_nil_r. repeat split.
  - destruct (categorize py_str a f) as [a1|e] eqn:E; simpl in H;
      [|discriminate].
    apply categorize_spec in E. destruct E as [E1 [E2 E3]].
    apply IH in H. destruct H as [H1 [H2 H3]].
    split; [congruence|]. split; [congruence|].
    rewrite H3, E3. simpl filter.
    destruct (is_personal f); simpl; rewrite <- app_assoc; reflexivity.
Qed.


(** C7: in a returned analysis, the entry of ['field_types'] for a type is
    the number of fields of that type (and there is no entry when there is
    no such field), no type has two entries, and the entries add up to
    [total_fields], the length of the fields list. *)
Theorem field_types_partition (form_data : form_info) (a : analysis) :
  analyze_questionnaire py_str form_data = Return a ->
  (forall t,
     counter_get opt_str_eqb (field_types a) t
     = let n := length (filter (fun f => opt_str_eqb (fd_type f) t)
                               (fi_fields form_data)) in
       if n =? 0 then None else Some n)
  /\ NoDup (map fst (field_types a))
  /\ counter_total (field_types a) = total_fields (metadata a)
  /\ total_fields (metadata a) = length (fi_fields form_data).
Proof.
  unfold analyze_questionnaire. intros H.
  apply for_each_categorize in H. destruct H as [Hm [Ht _]].
  rewrite Hm, Ht. cbn [initial_analysis metadata field_types total_fields].
  split; [|split; [|split]].
  - intros t. rewrite (Counter_get _ opt_str_eqb opt_str_eqb_eq).
    unfold occurrences. cbv zeta.
    assert (forall l : list field_data,
              length (filter (fun k' => opt_str_eqb k' t) (map fd_type l))
              = length (filter (fun f => opt_str_eqb (fd_type f) t) l)) as E.
    { induction l as [|x l IHl]; simpl; [reflexivity|].
      destruct (opt_str_eqb (fd_type x) t); simpl; rewrite IHl; reflexivity. }
    rewrite E. reflexivity.
  - apply (Counter_NoDup _ opt_str_eqb opt_str_eqb_eq).
  - rewrite Counter_total. apply length_map.
  - reflexivity.
Qed.

End CategorizeFacts.

Section Returns.
Variable py_str : pyval -> pystr.

Lemma option_labels_strings (l : list pyval) :
  (forall x, In x l -> exists s, x = PStr s) -> option_labels l = [].
Proof.
  induction l as [|x l IH]; intros H; [reflexivity|].
  simpl. destruct (H x (or_introl eq_refl)) as [s ->]. simpl.
  apply IH. intros y Hy. apply H. right. exact Hy.
Qed.

Lemma any_m_labels (l : list pyval) :
  forallb label_ok l = true ->
  exists b,
    any_m (fun label =>
             bind (lower_of label)
                  (fun l0 => Return (contains (str "strongly") l0)))
          (option_labels l)
    = Return b.
Proof.
  induction l as [|x l IH]; intros H; [exists false; reflexivity|].
  simpl in H. apply andb_true_iff in H. destruct H as [Hx H].
  destruct (IH H) as [b Hb].
  destruct x as [| | | | |items|d]; try (exists b; exact Hb).
  cbn [label_ok] in Hx. unfold option_labels. cbn [flat_map app].
  fold (option_labels l).
  destruct (dict_get d (str "label") (PStr [])) as [| | | |s| |];
    try discriminate.
  cbn [any_m lower_of bind].
  destruct (contains (str "strongly") (lower s)).
  - exists true. reflexivity.
  - exists b. exact Hb.
Qed.

Lemma likert_step_returns (a : analysis) (f : field_data) :
  well_typed f = true -> exists a', likert_step a f = Return a'.
Proof.
  unfold well_typed, likert_step. intros H.
  apply andb_true_iff in H. destruct H as [Ho Hc].
  destruct (fd_field_config f) as [| | | | | |cfg]; try discriminate.
  destruct (fd_options f) as [|b|z|x|s|l|d]; cbn [options_ok] in Ho.
  - simpl. eauto.
  - apply negb_true_iff in Ho. rewrite Ho. simpl. eauto.
  - apply negb_true_iff in Ho. rewrite Ho. simpl. eauto.
  - apply negb_true_iff in Ho. rewrite Ho. simpl. eauto.
  - destruct (truthy (PStr s)); [|simpl; eauto].
    cbn [py_len py_iter bind].
    destruct (0 <? len s)%Z; [|eauto].
    rewrite option_labels_strings; [simpl; eauto|].
    intros x Hx. apply in_map_iff in Hx. destruct Hx as [c [<- _]]. eauto.
  - destruct (truthy (PList l)); [|simpl; eauto].
    cbn [py_len py_iter bind].
    destruct (0 <? Z.of_nat (length l))%Z; [|eauto].
    destruct (any_m_labels l Ho) as [b Hb].
    rewrite Hb. cbn [bind]. destruct b; eauto.
  - destruct (truthy (PDict d)); [|simpl; eauto].
    cbn [py_len py_iter bind].
    destruct (0 <? Z.of_nat (length d))%Z; [|eauto].
    rewrite option_labels_strings; [simpl; eauto|].
    intros x Hx. apply in_map_iff in Hx. destruct Hx as [c [<- _]]. eauto.
Qed.

Lemma food_step_returns (a : analysis) (f : field_data) :
  well_typed f = true -> exists a', food_step py_str a f = Return a'.
Proof.
  unfold well_typed, food_step. intros H.
  apply andb_true_iff in H. destruct H as [Ho _].
  destruct (any_keyword food_keywords (field_name_of f)); [simpl; eauto|].
  destruct (fd_options f) as [|b|z|x|s|l|d]; cbn [options_ok] in Ho;
    try (apply negb_true_iff in Ho; rewrite Ho; simpl; eauto; fail).
  - destruct (truthy (PStr s)); [|simpl; eauto].
    cbn [py_iter bind]. destruct (existsb _ _); eauto.
  - destruct (truthy (PList l)); [|simpl; eauto].
    cbn [py_iter bind]. destruct (existsb _ _); eauto.
  - destruct (truthy (PDict d)); [|simpl; eauto].
    cbn [py_iter bind]. destruct (existsb _ _); eauto.
Qed.

Lemma conditional_step_returns (a : analysis) (f : field_data) :
  well_typed f = true -> exists a', conditional_step a f = Return a'.
Proof.
  unfold well_typed, conditional_step. intros H.
  apply andb_true_iff in H. destruct H as [_ Hc].
  destruct (fd_field_config f) as [| | | | | |cfg]; try discriminate.
  cbn [py_in bind].
  destruct (dict_has cfg (str "hide_field")); cbn [bind]; [eauto|].
  destruct (dict_has cfg (str "show_field")); cbn [bind]; eauto.
Qed.

Lemma categorize_returns (a : analysis) (f : field_data) :
  well_typed f = true -> exists a', categorize py_str a f = Return a'.
Proof.
  intros H. unfold categorize.
  destruct (likert_step_returns (required_step a f) f H) as [a1 ->].
  cbn [bind].
  destruct (food_step_returns a1 f H) as [a2 ->]. cbn [bind].
  apply conditional_step_returns. exact H.
Qed.

(** The analysis returns on every form whose fields are well typed. *)
Lemma analyze_returns (form_data : form_info) :
  forallb well_typed (fi_fields form_data) = true ->
  exists a, analyze_questionnaire py_str form_data = Return a.
Proof.
  unfold analyze_questionnaire.
  generalize (initial_analysis form_data).
  induction (fi_fields form_data) as [|f fields IH]; intros a H; simpl.
  - eauto.
  - simpl in H. apply andb_true_iff in H. destruct H as [Hf H].
    destruct (categorize_returns a f Hf) as [a1 ->]. cbn [bind].
    apply IH. exact H.
Qed.

End Returns.


(** The theorem on [sample_info]: two [radio] fields and one [email]. *)
Lemma field_types_partition_witness :
  counter_total (field_types Samples.sample_analysis)
  = total_fields (metadata Samples.sample_analysis).
Proof.
  assert (analyze_questionnaire Samples.sample_py_str Samples.sample_info
          = Return Samples.sample_analysis) as H by (vm_compute; reflexivity).
  exact (proj1 (proj2 (proj2 (field_types_partition _ _ _ H)))).
Defined.

End AnalyzeFacts.

(** ** Paths and file names *)

Module PathFacts.
Import PyStrFacts AnalyzeFacts Counters.







(** *** The extension of a file name *)

Ltac no_char :=
  let H := fresh in
  intros H; simpl in H; repeat (destruct H as [H|H]; [discriminate|]);
  exact H.

Lemma last_segment_from_nodot (s acc : pystr) :
  ~ In "."%char s -> last_segment_from s acc = acc ++ s.
Proof.
  revert acc; induction s as [|c s IH]; intros acc H; simpl.
  - symmetry; apply app_nil_r.
  - destruct (Ascii.eqb_spec c "."%char) as [->|Hc].
    + exfalso. apply H. left. reflexivity.
    + rewrite IH by (intros Hin; apply H; right; exact Hin).
      rewrite <- app_assoc. reflexivity.
Qed.

Lemma last_segment_from_dot (pre r acc : pystr) :
  ~ In "."%char r -> last_segment_from (pre ++ "."%char :: r) acc = r.
Proof.
  intros Hr. revert acc; induction pre as [|c pre IH]; intros acc; simpl.
  - apply (last_segment_from_nodot r [] Hr).
  - destruct (Ascii.eqb c "."%char); apply IH.
Qed.

(** A name has no ['.'], or splits at its last ['.']. *)
Lemma last_dot_cases (s : pystr) :
  ~ In "."%char s \/
  exists pre r, s = pre ++ "."%char :: r /\ ~ In "."%char r.
Proof.
  induction s as [|c s IH]; [left; intros []|].
  destruct IH as [Hn|[pre [r [-> Hr]]]].
  - destruct (Ascii.eqb_spec c "."%char) as [->|Hc].
    + right. exists [], s. split; [reflexivity | exact Hn].
    + left. intros [H|H]; [congruence | contradiction].
  - right. exists (c :: pre), r. split; [reflexivity | exact Hr].
Qed.

Lemma endswith_nodot (s e0 : pystr) :
  ~ In "."%char s -> endswith s ("."%char :: e0) = false.
Proof.
  intros H. destruct (endswith s ("."%char :: e0)) eqn:E; [|reflexivity].
  apply endswith_iff_app in E. destruct E as [a ->].
  exfalso. apply H. apply in_or_app. right. left. reflexivity.
Qed.

Lemma endswith_last_dot (pre r e0 : pystr) :
  ~ In "."%char r -> ~ In "."%char e0 ->
  endswith (pre ++ "."%char :: r) ("."%char :: e0) = PyStr.eqb r e0.
Proof.
  intros Hr He. destruct (PyStr.eqb r e0) eqn:E.
  - apply eqb_eq in E. subst e0. apply endswith_app.
  - destruct (endswith _ _) eqn:E2; [|reflexivity].
    apply endswith_iff_app in E2. destruct E2 as [a Ha].
    pose proof (last_segment_from_dot pre r [] Hr) as H1.
    rewrite Ha, (last_segment_from_dot a e0 [] He) in H1.
    subst e0. rewrite eqb_refl in E. discriminate.
Qed.

Lemma has_dot_extension_nodot (f : pystr) :
  ~ In "."%char f -> has_dot_extension f = false.
Proof.
  intros H. unfold has_dot_extension, dot_extensions. cbn [map existsb].
  change (str ".ts") with ("."%char :: str "ts").
  change (str ".tsx") with ("."%char :: str "tsx").
  change (str ".js") with ("."%char :: str "js").
  change (str ".jsx") with ("."%char :: str "jsx").
  rewrite !endswith_nodot by exact H. reflexivity.
Qed.

Lemma has_dot_extension_dot (pre r : pystr) :
  ~ In "."%char r ->
  has_dot_extension (pre ++ "."%char :: r) = in_list r extensions.
Proof.
  intros H. unfold has_dot_extension, dot_extensions, in_list, extensions.
  cbn [map existsb].
  change (str ".ts") with ("."%char :: str "ts").
  change (str ".tsx") with ("."%char :: str "tsx").
  change (str ".js") with ("."%char :: str "js").
  change (str ".jsx") with ("."%char :: str "jsx").
  rewrite !endswith_last_dot by (first [exact H | no_char]). reflexivity.
Qed.

(** [count_lines.py]'s extension test agrees with the dotted-suffix test
    on every name that is not itself a bare extension. *)
Lemma last_segment_matches (f : pystr) :
  in_list f extensions = false ->
  in_list (last_segment f) extensions = has_dot_extension f.
Proof.
  intros Hf. unfold last_segment.
  destruct (last_dot_cases f) as [Hn|[pre [r [-> Hr]]]].
  - rewrite last_segment_from_nodot by exact Hn. simpl app.
    rewrite Hf, has_dot_extension_nodot by exact Hn. reflexivity.
  - rewrite last_segment_from_dot, has_dot_extension_dot by exact Hr.
    reflexivity.
Qed.

Lemma In_skipn_in (A : Type) (x : A) (n : nat) (l : list A) :
  In x (skipn n l) -> In x l.
Proof.
  intros H. rewrite <- (firstn_skipn n l). apply in_or_app. right. exact H.
Qed.

Lemma occurs_at_char_in (f : pystr) (c : ascii) (k : Z) :
  occurs_at f [c] k -> In c (skipn (Z.to_nat k) f).
Proof.
  intros H. apply occurs_at_iff in H. destruct H as [_ H].
  apply startswith_iff_app in H. destruct H as [rest ->]. left. reflexivity.
Qed.

Lemma occurs_at_app (pre r : pystr) (c : ascii) :
  occurs_at (pre ++ c :: r) [c] (len pre).
Proof.
  apply occurs_at_iff. split; [apply len_nonneg|].
  unfold len. rewrite Nat2Z.id, skipn_app, skipn_all, Nat.sub_diag.
  simpl. rewrite Ascii.eqb_refl. reflexivity.
Qed.

Lemma rfind_char_none (f : pystr) (c : ascii) :
  ~ In c f -> rfind f [c] 0 (len f) = (-1)%Z.
Proof.
  intros Hn.
  destruct (rfind_spec f [c] (len f)) as [[H _]|[Ho _]];
    [pose proof (len_nonneg f); lia | exact H |].
  exfalso. apply Hn. eapply In_skipn_in. apply occurs_at_char_in. exact Ho.
Qed.

Lemma rfind_char_last (pre r : pystr) (c : ascii) :
  ~ In c r ->
  rfind (pre ++ c :: r) [c] 0 (len (pre ++ c :: r)) = len pre.
Proof.
  intros Hr. set (f := pre ++ c :: r).
  assert (len f = len pre + 1 + len r)%Z as Hlen
    by (subst f; unfold len; rewrite length_app; simpl; lia).
  pose proof (len_nonneg pre) as Hp. pose proof (len_nonneg r) as Hlr.
  destruct (rfind_spec f [c] (len f)) as [[H Hno]|[Ho [Hb Hmax]]];
    [lia | |].
  - exfalso. apply (Hno (len pre) (occurs_at_app pre r c)).
    change (len [c]) with 1%Z. lia.
  - pose proof (Hmax (len pre) (occurs_at_app pre r c)) as Hge.
    change (len [c]) with 1%Z in *.
    destruct (Z.le_gt_cases (rfind f [c] 0 (len f)) (len pre)) as [Hle|Hgt];
      [lia|].
    exfalso. apply Hr. apply occurs_at_char_in in Ho.
    subst f. rewrite skipn_app in Ho.
    rewrite skipn_all2 in Ho by (unfold len in *; lia).
    simpl app in Ho.
    destruct (Z.to_nat (rfind (pre ++ c :: r) [c] 0 (len (pre ++ c :: r)))
              - length pre) as [|m] eqn:Em;
      [unfold len in *; lia|].
    simpl skipn in Ho. eapply In_skipn_in. exact Ho.
Qed.

Lemma splitext_ext_nodot (f : pystr) :
  ~ In "/"%char f -> ~ In "."%char f -> splitext_ext f = [].
Proof.
  intros Hs Hd. unfold splitext_ext.
  change (str "/") with ["/"%char]. change (str ".") with ["."%char].
  rewrite !rfind_char_none by assumption. reflexivity.
Qed.

Lemma splitext_ext_dot (pre r : pystr) :
  ~ In "/"%char (pre ++ "."%char :: r) -> ~ In "."%char r ->
  splitext_ext (pre ++ "."%char :: r)
  = if existsb (fun c => negb (Ascii.eqb c "."%char)) pre
    then "."%char :: r else [].
Proof.
  intros Hs Hr. unfold splitext_ext.
  change (str "/") with ["/"%char]. change (str ".") with ["."%char].
  rewrite rfind_char_none by exact Hs.
  rewrite rfind_char_last by exact Hr.
  pose proof (len_nonneg pre) as Hp.
  destruct (Z.ltb_spec (-1) (len pre)) as [_|Hc]; [|lia].
  change (-1 + 1)%Z with 0%Z.
  rewrite !slice_nonneg
    by (unfold len in *; rewrite ?length_app; simpl; lia).
  replace (Z.to_nat (len pre - 0)) with (length pre) by (unfold len; lia).
  simpl skipn at 1.
  rewrite firstn_app, firstn_all, Nat.sub_diag. simpl firstn. rewrite app_nil_r.
  destruct (existsb _ pre); [|reflexivity].
  unfold len at 3. rewrite Nat2Z.id, skipn_app, skipn_all, Nat.sub_diag.
  simpl app. simpl skipn. apply firstn_all2.
  unfold len. rewrite length_app. simpl. lia.
Qed.

Lemma fs_name_no_slash (f : pystr) :
  fs_name f = true -> ~ In "/"%char f.
Proof.
  unfold fs_name. intros H Hin.
  apply andb_true_iff in H. destruct H as [_ H].
  apply negb_true_iff in H.
  assert (existsb (Ascii.eqb "/"%char) f = true) as Ht.
  { apply existsb_exists. exists "/"%char. split; [exact Hin|].
    apply Ascii.eqb_refl. }
  congruence.
Qed.


(** [os.path.splitext]'s extension test agrees with the dotted-suffix test
    on every name without ['/'] that is not a hidden source name. *)
Lemma splitext_matches (f : pystr) :
  fs_name f = true ->
  (has_dot_extension f = true -> ishidden f = false) ->
  in_list (splitext_ext f) dot_extensions = has_dot_extension f.
Proof.
  intros Hfs Hhid. pose proof (fs_name_no_slash f Hfs) as Hs.
  destruct (last_dot_cases f) as [Hn|[pre [r [-> Hr]]]].
  - rewrite splitext_ext_nodot, has_dot_extension_nodot by assumption.
    reflexivity.
  - rewrite splitext_ext_dot by assumption.
    rewrite has_dot_extension_dot in * by exact Hr.
    destruct (existsb (fun c => negb (Ascii.eqb c "."%char)) pre) eqn:E.
    + unfold in_list, dot_extensions, extensions. cbn [map existsb].
      change (str ".ts") with ("."%char :: str "ts").
      change (str ".tsx") with ("."%char :: str "tsx").
      change (str ".js") with ("."%char :: str "js").
      change (str ".jsx") with ("."%char :: str "jsx").
      cbn [PyStr.eqb]. rewrite Ascii.eqb_refl. reflexivity.
    + destruct (in_list r extensions) eqn:M; [|reflexivity].
      exfalso. specialize (Hhid eq_refl). unfold ishidden in Hhid.
      destruct pre as [|c pre].
      * simpl in Hhid. discriminate.
      * simpl in E. apply orb_false_iff in E. destruct E as [E _].
        apply negb_false_iff in E. apply Ascii.eqb_eq in E. subst c.
        simpl in Hhid. discriminate.
Qed.

Lemma rfind_lower (s sub : pystr) : (-1 <= rfind s sub 0 (len s))%Z.
Proof.
  pose proof (len_nonneg s) as Hl.
  destruct (rfind_spec s sub (len s) ltac:(lia)) as [[E _]|[[H0 _] _]]; lia.
Qed.

(** The extension [os.path.splitext] gives is a suffix of the name. *)
Lemma splitext_suffix (f : pystr) :
  splitext_ext f = [] \/ endswith f (splitext_ext f) = true.
Proof.
  unfold splitext_ext.
  set (sep := rfind f (str "/") 0 (len f)).
  set (dot := rfind f (str ".") 0 (len f)).
  destruct (Z.ltb_spec sep dot) as [Hlt|_]; [|left; reflexivity].
  destruct (existsb _ _); [|left; reflexivity].
  right.
  pose proof (rfind_lower f (str "/")) as Hsep. fold sep in Hsep.
  pose proof (len_nonneg f) as Hl.
  destruct (rfind_spec f (str ".") (len f) ltac:(lia))
    as [[E _]|[Hoc [Hb _]]]; [fold dot in E; lia|].
  fold dot in Hoc, Hb. destruct Hoc as [H0 _]. change (len (str ".")) with 1%Z in Hb.
  rewrite slice_nonneg by lia.
  rewrite firstn_all2 by (rewrite length_skipn; unfold len; lia).
  apply endswith_iff_app. exists (firstn (Z.to_nat dot) f).
  symmetry. apply firstn_skipn.
Qed.

Lemma splitext_has_dot_extension (f : pystr) :
  in_list (splitext_ext f) dot_extensions = true ->
  has_dot_extension f = true.
Proof.
  intros H. unfold has_dot_extension. apply existsb_exists.
  exists (splitext_ext f). apply AnalyzeFacts.in_list_iff in H.
  split; [exact H|].
  destruct (splitext_suffix f) as [E|E]; [|exact E].
  rewrite E in H. exfalso. revert H. no_char.
Qed.

Lemma has_dot_extension_last_segment (f : pystr) :
  has_dot_extension f = true ->
  in_list (last_segment f) extensions = true.
Proof.
  intros H. destruct (in_list f extensions) eqn:E.
  - exfalso. apply AnalyzeFacts.in_list_iff in E.
    destruct E as [<-|[<-|[<-|[<-|[]]]]]; discriminate H.
  - rewrite (last_segment_matches f E). exact H.
Qed.

(** *** Substrings of joined paths *)










Lemma source_name_eq (f : pystr) : source_name f = has_dot_extension f.
Proof. reflexivity. Qed.

Lemma walkers_count_eq (f : pystr) :
  walkers_count f = in_list (last_segment f) extensions.
Proof. reflexivity. Qed.

End PathFacts.

(** ** The line counters: what each script totals *)

Module CounterFacts.
Import PyStrFacts PyDictFacts AnalyzeFacts Counters Samples.


Lemma tally_app (l1 l2 : list contribution) :
  tally (l1 ++ l2)
  = (fst (tally l1) + fst (tally l2), snd (tally l1) + snd (tally l2)).
Proof.
  induction l1 as [|[n|] l1 IH]; simpl.
  - destruct (tally l2); reflexivity.
  - rewrite IH. simpl. f_equal; lia.
  - exact IH.
Qed.

Lemma fold_add_contribution (l : list contribution) (t : nat * nat) :
  fold_left add_contribution l t
  = (fst t + fst (tally l), snd t + snd (tally l)).
Proof.
  revert t; induction l as [|[n|] l IH]; intros [f n0]; simpl.
  - f_equal; lia.
  - rewrite IH. simpl. f_equal; lia.
  - rewrite IH. reflexivity.
Qed.

(** A loop over files whose body adds each file's contribution to the
    totals, and keeps an invariant of the state, ends with the totals raised
    by the tally of the files. *)
Lemma fold_files_totals (S X : Type) (Inv : S -> Prop)
      (totals : S -> nat * nat) (step : S -> X -> S)
      (contrib : X -> contribution) :
  (forall st f, Inv st ->
     totals (step st f) = add_contribution (totals st) (contrib f)
     /\ Inv (step st f)) ->
  forall files st, Inv st ->
    totals (fold_left step files st)
    = (fst (totals st) + fst (tally (map contrib files)),
       snd (totals st) + snd (tally (map contrib files)))
    /\ Inv (fold_left step files st).
Proof.
  intros Hstep. induction files as [|f files IH]; intros st Hst; simpl.
  - split; [|exact Hst]. destruct (totals st); simpl; f_equal; lia.
  - destruct (Hstep st f Hst) as [Ht Hi].
    destruct (IH (step st f) Hi) as [IHt IHi]. split; [|exact IHi].
    rewrite IHt, Ht.
    destruct (contrib f) as [n|]; simpl; [|reflexivity].
    f_equal; lia.
Qed.

(** The same over the items of a walk. *)
Lemma fold_walk_totals (S : Type) (Inv : S -> Prop) (totals : S -> nat * nat)
      (step : S -> pystr * fcontent -> S)
      (contrib : pystr * fcontent -> contribution) :
  (forall st f, Inv st ->
     totals (step st f) = add_contribution (totals st) (contrib f)
     /\ Inv (step st f)) ->
  forall (items : list walk_item) st, Inv st ->
    totals (fold_left
              (fun st (item : walk_item) =>
                 let '(root, _, files) := item in
                 if root_excluded root then st else fold_left step files st)
              items st)
    = (fst (totals st)
       + fst (tally (map contrib
                (flat_map reached items))),
       snd (totals st)
       + snd (tally (map contrib
                (flat_map reached items)))).
Proof.
  intros Hstep. induction items as [|[[root dirs] files] items IH];
    intros st Hst; simpl.
  - destruct (totals st); simpl; f_equal; lia.
  - destruct (root_excluded root); simpl; [apply IH; exact Hst|].
    destruct (fold_files_totals S _ Inv totals step contrib Hstep files st Hst)
      as [Ht Hi].
    rewrite (IH _ Hi), Ht.
    rewrite map_app, tally_app. simpl. f_equal; lia.
Qed.

Lemma cl_file_step_totals (st : cl_state) (f : pystr * fcontent) :
  cl_totals (cl_file_step st f)
  = add_contribution (cl_totals st) (cl_contribution f).
Proof.
  unfold cl_file_step, cl_contribution, cl_totals.
  destruct (in_list (last_segment (fst f)) extensions); [|reflexivity].
  simpl. rewrite counter_total_add. reflexivity.
Qed.

Lemma ac_file_step_totals (st : ac_state) (f : pystr * fcontent) :
  map fst (ac_file_counts st) = dot_extensions ->
  ac_totals (ac_file_step st f)
  = add_contribution (ac_totals st) (ac_contribution f)
  /\ map fst (ac_file_counts (ac_file_step st f)) = dot_extensions.
Proof.
  intros Hk. unfold ac_file_step, ac_contribution, ac_totals. rewrite Hk.
  destruct (in_list (splitext_ext (fst f)) dot_extensions) eqn:E;
    [|split; [reflexivity | exact Hk]].
  destruct (read_ignore (snd f)); [|split; [reflexivity | exact Hk]].
  split; [reflexivity|]. cbn [ac_file_counts].
  rewrite counter_add_keys, Hk.
  unfold in_list in E.
  assert (existsb (fun k' => PyStr.eqb k' (splitext_ext (fst f)))
                  dot_extensions = true) as ->; [|reflexivity].
  apply existsb_exists. apply existsb_exists in E.
  destruct E as [x [Hx E]]. exists x. split; [exact Hx|].
  apply eqb_eq in E. subst x. apply eqb_refl.
Qed.

Lemma fc_file_step_totals (st : fc_state) (f : pystr * fcontent) :
  fc_totals (fc_file_step st f)
  = add_contribution (fc_totals st) (fc_contribution f).
Proof.
  unfold fc_file_step, fc_contribution, fc_totals.
  destruct (has_dot_extension (fst f)); [|reflexivity].
  destruct (read_ignore (snd f)); reflexivity.
Qed.

Lemma sc_file_step_totals (st : sc_state) (f : pystr * fcontent) :
  sc_totals (sc_file_step st f)
  = add_contribution (sc_totals st) (fc_contribution f).
Proof.
  unfold sc_file_step, fc_contribution, sc_totals.
  destruct (has_dot_extension (fst f)); [|reflexivity].
  destruct (read_ignore (snd f)); reflexivity.
Qed.

(** The totals [count_lines.py] prints are the tally of its contributions
    over the files the walk reaches. *)
Lemma count_lines_totals (tree : list node) :
  cl_totals (count_lines_main tree)
  = tally (map cl_contribution (walk_files tree)).
Proof.
  unfold count_lines_main, walk_files.
  change cl_walk_step with
    (fun st (item : walk_item) =>
       let '(root, _, files) := item in
       if root_excluded root then st else fold_left cl_file_step files st).
  rewrite (fold_walk_totals cl_state (fun _ => True) cl_totals cl_file_step
             cl_contribution (fun st f _ => conj (cl_file_step_totals st f) I) _ _ I).
  destruct (tally _); reflexivity.
Qed.

Lemma final_count_totals (tree : list node) :
  fc_totals (final_count tree)
  = tally (map fc_contribution (walk_files tree)).
Proof.
  unfold final_count, walk_files.
  change fc_walk_step with
    (fun st (item : walk_item) =>
       let '(root, _, files) := item in
       if root_excluded root then st else fold_left fc_file_step files st).
  rewrite (fold_walk_totals fc_state (fun _ => True) fc_totals fc_file_step
             fc_contribution (fun st f _ => conj (fc_file_step_totals st f) I) _ _ I).
  destruct (tally _); reflexivity.
Qed.

Lemma simple_count_totals (tree : list node) :
  sc_totals (simple_count tree)
  = tally (map fc_contribution (walk_files tree)).
Proof.
  unfold simple_count, walk_files.
  change sc_walk_step with
    (fun st (item : walk_item) =>
       let '(root, _, files) := item in
       if root_excluded root then st else fold_left sc_file_step files st).
  rewrite (fold_walk_totals sc_state (fun _ => True) sc_totals sc_file_step
             fc_contribution (fun st f _ => conj (sc_file_step_totals st f) I) _ _ I).
  destruct (tally _); reflexivity.
Qed.

Lemma accurate_count_totals (tree : list node) :
  ac_totals (accurate_count tree)
  = tally (map ac_contribution (walk_files tree)).
Proof.
  unfold accurate_count, walk_files.
  change ac_walk_step with
    (fun st (item : walk_item) =>
       let '(root, _, files) := item in
       if root_excluded root then st else fold_left ac_file_step files st).
  rewrite (fold_walk_totals ac_state
             (fun st => map fst (ac_file_counts st) = dot_extensions)
             ac_totals ac_file_step ac_contribution ac_file_step_totals
             _ ac_init (eq_refl dot_extensions)).
  destruct (tally _); reflexivity.
Qed.

Lemma files_of_app (a b : list node) :
  files_of (a ++ b) = files_of a ++ files_of b.
Proof. unfold files_of. apply flat_map_app. Qed.

(** The walk starts at ['.'], which the substring test lets through. *)
Lemma walk_files_top (tree : list node) :
  walk_files tree
  = files_of tree
    ++ flat_map reached (flat_map (walk_node (str ".")) tree).
Proof.
  unfold walk_files, walk. cbn [flat_map]. unfold reached at 1.
  replace (root_excluded (str ".")) with false by (vm_compute; reflexivity).
  reflexivity.
Qed.

Lemma walk_files_insert_file (pre post : list node) (f : pystr)
      (c : fcontent) :
  exists rest,
    walk_files (pre ++ File f c :: post)
    = (files_of pre ++ (f, c) :: files_of post) ++ rest /\
    walk_files (pre ++ post) = (files_of pre ++ files_of post) ++ rest.
Proof.
  eexists. rewrite !walk_files_top, !files_of_app, !flat_map_app.
  cbn [flat_map walk_node files_of app]. split; reflexivity.
Qed.

(** C10: a file that cannot be opened or read counts 0 lines; the loop body
    of [main] still adds 1 to its extension's file count and to the printed
    file total, and leaves every line count and the printed line total as
    they were; and a tree with such a file in its top directory prints one
    file more, and the same lines, than the tree without it. *)
Theorem unreadable_file_counted :
  count_lines_in_file Unreadable = 0 /\
  (forall (st : cl_state) (file : pystr) (n m : nat),
     in_list (last_segment file) extensions = true ->
     counter_get PyStr.eqb (cl_file_counts st) (last_segment file) = Some n ->
     counter_get PyStr.eqb (cl_line_counts st) (last_segment file) = Some m ->
     let st' := cl_file_step st (file, Unreadable) in
     counter_get PyStr.eqb (cl_file_counts st') (last_segment file)
     = Some (n + 1) /\
     (forall ext, counter_get PyStr.eqb (cl_line_counts st') ext
                  = counter_get PyStr.eqb (cl_line_counts st) ext) /\
     cl_total_lines st' = cl_total_lines st /\
     cl_totals st' = (fst (cl_totals st) + 1, snd (cl_totals st))) /\
  (forall (pre post : list node) (file : pystr),
     in_list (last_segment file) extensions = true ->
     cl_totals (count_lines_main (pre ++ File file Unreadable :: post))
     = (fst (cl_totals (count_lines_main (pre ++ post))) + 1,
        snd (cl_totals (count_lines_main (pre ++ post))))).
Proof.
  split; [reflexivity|]. split.
  - intros st file n m Hext Hn Hm st'. subst st'.
    unfold cl_file_step, cl_totals. cbn [fst snd]. rewrite Hext.
    cbn [cl_file_counts cl_line_counts cl_total_lines count_lines_in_file
         read_ignore].
    split; [|split; [|split]].
    + rewrite (counter_get_add _ PyStr.eqb eqb_eq), eqb_refl, Hn.
      reflexivity.
    + intros ext. rewrite (counter_get_add _ PyStr.eqb eqb_eq), Hm.
      destruct (PyStr.eqb (last_segment file) ext) eqn:E; [|reflexivity].
      apply eqb_eq in E. subst ext. rewrite Hm. f_equal. lia.
    + lia.
    + rewrite counter_total_add. f_equal. lia.
  - intros pre post file Hext. rewrite !count_lines_totals.
    destruct (walk_files_insert_file pre post file Unreadable)
      as [rest [-> ->]].
    rewrite !map_app, !tally_app. cbn [map].
    assert (cl_contribution (file, Unreadable) = Some 0) as ->
      by (unfold cl_contribution; cbn [fst snd]; rewrite Hext; reflexivity).
    cbn [tally fst snd]. f_equal; lia.
Qed.


(** *** Trees on which the five scripts agree *)

(** Induction on directory entries, with the hypothesis for every entry of
    a directory and of the target of a symbolic link. *)
Lemma node_ind2 (P : node -> Prop) :
  (forall f c, P (File f c)) ->
  (forall d entries, Forall P entries -> P (Dir d entries)) ->
  (forall d entries, Forall P entries -> P (Link d entries)) ->
  forall n, P n.
Proof.
  intros HF HD HL. fix IH 1. intros [f c|d entries|d entries].
  - apply HF.
  - apply HD. induction entries as [|n entries IHe]; constructor.
    + apply IH.
    + exact IHe.
  - apply HL. induction entries as [|n entries IHe]; constructor.
    + apply IH.
    + exact IHe.
Qed.


Lemma tally_all_none (A : Type) (c : A -> contribution) (l : list A) :
  Forall (fun x => c x = None) l -> tally (map c l) = (0, 0).
Proof.
  intros H. induction H as [|x l Hx _ IH]; [reflexivity|].
  cbn [map]. rewrite Hx. exact IH.
Qed.


Lemma plain_entry_parts (file : pystr * fcontent) :
  plain_entry file ->
  fs_name (fst file) = true /\ in_list (fst file) extensions = false /\
  (has_dot_extension (fst file) = true ->
   ishidden (fst file) = false /\
   contains (str "node_modules") (fst file) = false /\
   contains (str ".next") (fst file) = false /\
   exists lines, snd file = Text lines true).
Proof.
  unfold plain_entry, plain_file, glob_counts.
  change (source_name (fst file)) with (has_dot_extension (fst file)).
  change (in_list (fst file) (map str ["ts"; "tsx"; "js"; "jsx"]%string))
    with (in_list (fst file) extensions).
  change (startswith (fst file) (str ".")) with (ishidden (fst file)).
  intros H.
  apply andb_true_iff in H. destruct H as [H H3].
  apply andb_true_iff in H. destruct H as [H1 H2].
  apply negb_true_iff in H2. split; [exact H1|]. split; [exact H2|].
  intros Hd. rewrite Hd in H3. simpl in H3.
  repeat (apply andb_true_iff in H3; destruct H3 as [H3 ?]).
  repeat split; try (apply negb_true_iff; assumption).
  destruct (snd file) as [|lines [|]]; try discriminate.
  exists lines. reflexivity.
Qed.

Lemma cl_contribution_plain (file : pystr * fcontent) :
  plain_entry file -> cl_contribution file = fc_contribution file.
Proof.
  intros H. apply plain_entry_parts in H. destruct H as [_ [Hb Hd]].
  unfold cl_contribution, fc_contribution.
  rewrite (PathFacts.last_segment_matches _ Hb).
  destruct (has_dot_extension (fst file)); [|reflexivity].
  destruct (Hd eq_refl) as [_ [_ [_ [lines ->]]]]. reflexivity.
Qed.

Lemma ac_contribution_plain (file : pystr * fcontent) :
  plain_entry file -> ac_contribution file = fc_contribution file.
Proof.
  intros H. apply plain_entry_parts in H. destruct H as [Hfs [_ Hd]].
  unfold ac_contribution, fc_contribution.
  rewrite (PathFacts.splitext_matches _ Hfs); [reflexivity|].
  intros Ht. apply (Hd Ht).
Qed.



(** *** The walk on well-named trees *)



Lemma walkers_count_source (f : pystr) :
  walkers_count f = false -> has_dot_extension f = false.
Proof.
  intros H. destruct (has_dot_extension f) eqn:E; [|reflexivity].
  apply PathFacts.has_dot_extension_last_segment in E.
  rewrite PathFacts.walkers_count_eq in H. congruence.
Qed.

Section Walkers.

(** What one of the walking scripts adds for a file: as [final_count.py]
    for a plain file, and nothing for a file that [count_lines.py] does not
    count. *)
Variable contrib : pystr * fcontent -> contribution.
Hypothesis contrib_plain :
  forall file, plain_entry file -> contrib file = fc_contribution file.
Hypothesis contrib_none :
  forall file, walkers_count (fst file) = false -> contrib file = None.




End Walkers.

Lemma cl_contribution_none (file : pystr * fcontent) :
  walkers_count (fst file) = false -> cl_contribution file = None.
Proof.
  intros H. unfold cl_contribution.
  rewrite <- PathFacts.walkers_count_eq, H. reflexivity.
Qed.

Lemma fc_contribution_none (file : pystr * fcontent) :
  walkers_count (fst file) = false -> fc_contribution file = None.
Proof.
  intros H. unfold fc_contribution.
  rewrite (walkers_count_source _ H). reflexivity.
Qed.

Lemma ac_contribution_none (file : pystr * fcontent) :
  walkers_count (fst file) = false -> ac_contribution file = None.
Proof.
  intros H. unfold ac_contribution.
  destruct (in_list (splitext_ext (fst file)) dot_extensions) eqn:E;
    [|reflexivity].
  apply PathFacts.splitext_has_dot_extension in E.
  rewrite (walkers_count_source _ H) in E. discriminate.
Qed.

(** *** The glob of [count_code_lines.py] on well-named trees *)

Lemma ccl_path_step_totals (st : ccl_state) (hit : pystr * node) :
  ccl_totals (ccl_path_step st hit)
  = add_contribution (ccl_totals st) (ccl_contribution hit).
Proof.
  unfold ccl_path_step, ccl_contribution, ccl_totals.
  destruct (contains (str "node_modules") (fst hit)
            || contains (str ".next") (fst hit)); [reflexivity|].
  destruct (open_strict (snd hit)); reflexivity.
Qed.

Lemma fold_left_flat_map (S A B : Type) (f : S -> B -> S) (g : A -> list B)
      (l : list A) (st : S) :
  fold_left (fun st x => fold_left f (g x) st) l st
  = fold_left f (flat_map g l) st.
Proof.
  revert st; induction l as [|x l IH]; intros st; simpl; [reflexivity|].
  rewrite fold_left_app. apply IH.
Qed.

(** The totals [count_code_lines.py] prints are the tally of its
    contributions over the four globs. *)
Lemma count_code_lines_totals (tree : list node) :
  ccl_totals (count_code_lines tree)
  = tally (map ccl_contribution
               (flat_map (fun suffix => glob suffix tree) dot_extensions)).
Proof.
  unfold count_code_lines. rewrite fold_left_flat_map.
  destruct (fold_files_totals ccl_state _ (fun _ => True) ccl_totals
              ccl_path_step ccl_contribution
              (fun st hit _ => conj (ccl_path_step_totals st hit) I)
              (flat_map (fun suffix => glob suffix tree) dot_extensions)
              ccl_init I) as [H _].
  rewrite H. destruct (tally _); reflexivity.
Qed.

Lemma dot_extension_suffix (f suffix : pystr) :
  In suffix dot_extensions -> endswith f suffix = true ->
  has_dot_extension f = true.
Proof.
  intros Hin He. unfold has_dot_extension. apply existsb_exists.
  exists suffix. split; assumption.
Qed.




(** On a plain file the glob counts what the suffix test alone gives. *)
Lemma hit_contribution_plain (suffix : pystr) (file : pystr * fcontent) :
  In suffix dot_extensions -> plain_entry file ->
  hit_contribution suffix file = suffix_contribution suffix file.
Proof.
  intros Hs H. apply plain_entry_parts in H. destruct H as [_ [_ Hd]].
  unfold hit_contribution, suffix_contribution, unclean.
  destruct (endswith (fst file) suffix) eqn:E;
    [|rewrite andb_false_r; reflexivity].
  destruct (Hd (dot_extension_suffix _ suffix Hs E)) as [-> [-> [-> _]]].
  reflexivity.
Qed.

(** A file the glob does not count adds nothing to any pass. *)
Lemma hit_contribution_none (suffix : pystr) (file : pystr * fcontent) :
  In suffix dot_extensions ->
  glob_counts (fst file) (snd file) = false ->
  hit_contribution suffix file = None.
Proof.
  intros Hs H. unfold hit_contribution, unclean.
  destruct (endswith (fst file) suffix) eqn:E;
    [|rewrite andb_false_r; reflexivity].
  unfold glob_counts in H.
  rewrite PathFacts.source_name_eq, (dot_extension_suffix _ suffix Hs E) in H.
  change (startswith (fst file) (str ".")) with (ishidden (fst file)) in H.
  destruct (ishidden (fst file)); [reflexivity|].
  destruct (contains (str "node_modules") (fst file)); [reflexivity|].
  destruct (contains (str ".next") (fst file)); [reflexivity|].
  cbn [negb andb orb] in *.
  destruct (snd file) as [|lines [|]]; [reflexivity | discriminate H
                                        | reflexivity].
Qed.











(** A plain file passes at most one of the four suffix tests, and what it
    then adds is what [final_count.py] adds for it. *)
Lemma suffix_contributions_plain (file : pystr * fcontent) :
  plain_entry file ->
  let e := fc_contribution file in
  let a := suffix_contribution (str ".ts") file in
  let b := suffix_contribution (str ".tsx") file in
  let c := suffix_contribution (str ".js") file in
  let d := suffix_contribution (str ".jsx") file in
  (a = e /\ b = None /\ c = None /\ d = None) \/
  (a = None /\ b = e /\ c = None /\ d = None) \/
  (a = None /\ b = None /\ c = e /\ d = None) \/
  (a = None /\ b = None /\ c = None /\ d = e).
Proof.
  intros H. apply plain_entry_parts in H. destruct H as [_ [_ Hd]].
  destruct file as [f c]. cbn [fst snd] in Hd.
  unfold suffix_contribution, fc_contribution. cbn [fst snd].
  change (str ".ts") with ("."%char :: str "ts").
  change (str ".tsx") with ("."%char :: str "tsx").
  change (str ".js") with ("."%char :: str "js").
  change (str ".jsx") with ("."%char :: str "jsx").
  destruct (PathFacts.last_dot_cases f) as [Hn|[pre [r [-> Hr]]]].
  - rewrite !PathFacts.endswith_nodot by exact Hn.
    rewrite PathFacts.has_dot_extension_nodot by exact Hn.
    left. repeat split.
  - rewrite !PathFacts.endswith_last_dot
      by (first [exact Hr | PathFacts.no_char]).
    rewrite PathFacts.has_dot_extension_dot in * by exact Hr.
    unfold in_list, extensions in *. cbn [map existsb] in *.
    destruct (PyStr.eqb r (str "ts")) eqn:E1;
      [apply eqb_eq in E1; subst r;
       destruct (Hd eq_refl) as [_ [_ [_ [lines ->]]]];
       left; repeat split |].
    destruct (PyStr.eqb r (str "tsx")) eqn:E2;
      [apply eqb_eq in E2; subst r;
       destruct (Hd eq_refl) as [_ [_ [_ [lines ->]]]];
       right; left; repeat split |].
    destruct (PyStr.eqb r (str "js")) eqn:E3;
      [apply eqb_eq in E3; subst r;
       destruct (Hd eq_refl) as [_ [_ [_ [lines ->]]]];
       right; right; left; repeat split |].
    destruct (PyStr.eqb r (str "jsx")) eqn:E4;
      [apply eqb_eq in E4; subst r;
       destruct (Hd eq_refl) as [_ [_ [_ [lines ->]]]];
       right; right; right; repeat split |].
    left. repeat split.
Qed.

Lemma suffix_tallies (files : list (pystr * fcontent)) :
  Forall plain_entry files ->
  tally (map (suffix_contribution (str ".ts")) files
         ++ map (suffix_contribution (str ".tsx")) files
         ++ map (suffix_contribution (str ".js")) files
         ++ map (suffix_contribution (str ".jsx")) files)
  = tally (map fc_contribution files).
Proof.
  intros H. rewrite !tally_app.
  induction H as [|file files Hf _ IH]; [reflexivity|].
  cbn [map].
  destruct (suffix_contributions_plain file Hf)
    as [[-> [-> [-> ->]]]|[[-> [-> [-> ->]]]|[[-> [-> [-> ->]]]|
        [-> [-> [-> ->]]]]]];
    destruct (fc_contribution file) as [n|]; cbn [tally fst snd] in *;
    try exact IH;
    apply injective_projections; cbn [fst snd];
    [ apply (f_equal fst) in IH | apply (f_equal snd) in IH
    | apply (f_equal fst) in IH | apply (f_equal snd) in IH
    | apply (f_equal fst) in IH | apply (f_equal snd) in IH
    | apply (f_equal fst) in IH | apply (f_equal snd) in IH ];
    cbn [fst snd] in IH; lia.
Qed.

(** The class is exact file by file.  For a file of a well-formed name:
    in a directory that all scripts reach it is alike exactly when the
    walking scripts add for it what [final_count.py] adds and the four
    passes of the glob add the same; in a directory that only the walk
    reaches, exactly when no walking script counts it; in a directory that
    only the glob reaches, exactly when no pass of the glob counts it. *)
Lemma alike_file_exact (f : pystr) (c : fcontent) :
  fs_name f = true ->
  let file := (f, c) in
  let glob_adds :=
    tally (map (fun suffix => hit_contribution suffix file) dot_extensions) in
  (alike_file true true f c = true <->
   cl_contribution file = fc_contribution file /\
   ac_contribution file = fc_contribution file /\
   glob_adds = tally [fc_contribution file]) /\
  (alike_file true false f c = true <->
   cl_contribution file = None /\ ac_contribution file = None /\
   fc_contribution file = None) /\
  (alike_file false true f c = true <-> glob_adds = (0, 0)).
Proof.
  intros Hfs file glob_adds.
  assert (glob_counts f c = false -> glob_adds = (0, 0)) as Hnone.
  { intros H. apply tally_all_none. apply Forall_forall. intros suffix Hs.
    apply hit_contribution_none; [exact Hs | exact H]. }
  assert (glob_adds = (0, 0) -> glob_counts f c = false) as Hsome.
  { intros H. destruct (glob_counts f c) eqn:E; [exfalso|reflexivity].
    unfold glob_counts in E.
    repeat (apply andb_true_iff in E; destruct E as [E ?]).
    destruct c as [|lines [|]]; try discriminate.
    assert (forall suffix, hit_contribution suffix file
                           = if endswith f suffix then Some lines else None)
      as Hhit.
    { intros suffix. unfold hit_contribution, unclean, ishidden, file.
      cbn [fst snd read_strict].
      repeat match goal with
             | Hn : negb _ = true |- _ => apply negb_true_iff in Hn; rewrite Hn
             end.
      cbn [negb orb andb]. rewrite andb_true_r. reflexivity. }
    subst glob_adds. unfold dot_extensions in H. cbn [map] in H.
    rewrite !Hhit in H.
    unfold source_name in E. cbn [map existsb] in E.
    destruct (endswith f (str ".ts")); [discriminate H|].
    destruct (endswith f (str ".tsx")); [discriminate H|].
    destruct (endswith f (str ".js")); [discriminate H|].
    destruct (endswith f (str ".jsx")); discriminate. }
  split; [|split].
  - cbn [alike_file]. split.
    + intros H. change (plain_entry file) in H.
      split; [apply cl_contribution_plain; exact H|].
      split; [apply ac_contribution_plain; exact H|].
      pose proof (suffix_tallies [file] (Forall_cons _ H (Forall_nil _)))
        as Ht.
      cbn [map app] in Ht. rewrite <- Ht. subst glob_adds.
      unfold dot_extensions. cbn [map].
      rewrite !hit_contribution_plain
        by (first [exact H | vm_compute; tauto]).
      reflexivity.
    + intros [Hcl [_ Hg]].
      unfold plain_file. rewrite Hfs. cbn [andb].
      destruct (in_list f (map str ["ts"; "tsx"; "js"; "jsx"]%string)) eqn:Eb.
      { exfalso. apply AnalyzeFacts.in_list_iff in Eb.
        destruct Eb as [<-|[<-|[<-|[<-|[]]]]]; discriminate Hcl. }
      cbn [negb andb].
      destruct (source_name f) eqn:Es; [|reflexivity].
      cbn [negb orb].
      destruct (glob_counts f c) eqn:Eg; [reflexivity|exfalso].
      rewrite (Hnone eq_refl) in Hg.
      unfold fc_contribution, file in Hg. cbn [fst snd] in Hg.
      rewrite <- PathFacts.source_name_eq, Es in Hg.
      destruct c as [|lines v]; [|discriminate Hg].
      unfold cl_contribution, fc_contribution, file in Hcl.
      cbn [fst snd] in Hcl.
      rewrite <- PathFacts.source_name_eq, Es in Hcl.
      rewrite (PathFacts.has_dot_extension_last_segment f Es) in Hcl.
      discriminate Hcl.
  - cbn [alike_file]. split.
    + intros H. apply negb_true_iff in H.
      split; [apply cl_contribution_none; exact H|].
      split; [apply ac_contribution_none; exact H|].
      apply fc_contribution_none; exact H.
    + intros [Hcl _]. apply negb_true_iff.
      unfold cl_contribution, file in Hcl. cbn [fst snd] in Hcl.
      rewrite PathFacts.walkers_count_eq.
      destruct (in_list (last_segment f) extensions);
        [discriminate Hcl | reflexivity].
  - cbn [alike_file]. split.
    + intros H. apply negb_true_iff in H. exact (Hnone H).
    + intros H. apply negb_true_iff. exact (Hsome H).
Qed.



(** C4: in [tree_builder] the file [builder/a.ts] has a counted extension,
    and [builder], its only directory, is not in the exclusion list; yet the
    walk leaves all counters as initialised, because ['build'] is a
    substring of the root ['./builder'].  The same happens to
    [.github/d.jsx], whose root holds ['.git']. *)
Theorem count_lines_skips_substring_match :
  in_list (last_segment (str "a.ts")) extensions = true /\
  in_list (str "builder") exclude_dirs = false /\
  walk (str ".") tree_builder
  = [ (str ".", [str "builder"], []);
      (str "./builder", [], [(str "a.ts", Text 3 true)]) ] /\
  root_excluded (str "./builder") = true /\
  count_lines_main tree_builder = cl_init /\
  cl_totals (count_lines_main tree_builder) = (0, 0) /\
  in_list (last_segment (str "d.jsx")) extensions = true /\
  in_list (str ".github") exclude_dirs = false /\
  count_lines_main tree_github = cl_init.
Proof. vm_compute. repeat split; reflexivity. Qed.


(** The theorem on the initial state and an unreadable [u.tsx]. *)
Lemma unreadable_file_counted_witness :
  cl_totals (cl_file_step cl_init (str "u.tsx", Unreadable)) = (1, 0).
Proof.
  exact (proj2 (proj2 (proj2
    (proj1 (proj2 unreadable_file_counted) cl_init (str "u.tsx") 0 0
           eq_refl eq_refl eq_refl)))).
Defined.

End CounterFacts.

(** ** extract_form_fields.py: when the scan breaks, and what the slice holds *)

Module ScanMore.
Import PyStrFacts FormExtract ScanFacts AnalyzeFacts.

Lemma close_open_exclusive (x : pystr) :
  startswith x FORM_CLOSE = true -> startswith x FORM_OPEN = false.
Proof.
  intros H. apply startswith_iff_app in H. destruct H as [rest ->].
  reflexivity.
Qed.

(** The loop breaks whenever a ['</form>'] lies ahead at which the count is
    back at zero. *)
Lemma scan_loop_breaks (content : pystr) :
  forall (remaining : nat) (pos form_level p : Z),
  (0 <= pos)%Z -> (pos <= p < pos + Z.of_nat remaining)%Z ->
  occurs_at content FORM_CLOSE p ->
  (form_level + running_count content pos p = 0)%Z ->
  exists form_end, scan_loop content remaining pos form_level = Some form_end.
Proof.
  induction remaining as [|remaining IH]; intros pos level p Hpos Hp Hc Hz;
    [lia|].
  cbn [scan_loop].
  destruct (PyStr.eqb (slice content pos (pos + 6)) FORM_OPEN) eqn:Eo.
  - destruct (Z.eq_dec p pos) as [->|Hne].
    + exfalso. rewrite open_test in Eo by assumption.
      apply occurs_at_iff in Hc. destruct Hc as [_ Hc].
      rewrite (open_close_exclusive _ Eo) in Hc. discriminate.
    + apply (IH (pos + 1)%Z (level + 1)%Z p); try lia; [exact Hc|].
      rewrite running_count_step in Hz by lia. unfold delta_at in Hz.
      rewrite Eo in Hz. lia.
  - destruct (PyStr.eqb (slice content pos (pos + 7)) FORM_CLOSE) eqn:Ec.
    + cbv zeta. destruct (Z.eqb_spec (level - 1) 0) as [Ez|Ez].
      * eexists; reflexivity.
      * destruct (Z.eq_dec p pos) as [->|Hne].
        { exfalso. rewrite running_count_self in Hz. unfold delta_at in Hz.
          rewrite Eo, Ec in Hz. lia. }
        apply (IH (pos + 1)%Z (level - 1)%Z p); try lia; [exact Hc|].
        rewrite running_count_step in Hz by lia. unfold delta_at in Hz.
        rewrite Eo, Ec in Hz. lia.
    + destruct (Z.eq_dec p pos) as [->|Hne].
      { exfalso. destruct Hc as [_ Hc]. apply eqb_eq in Hc.
        change (pos + len FORM_CLOSE)%Z with (pos + 7)%Z in Hc. congruence. }
      apply (IH (pos + 1)%Z level p); try lia; [exact Hc|].
      rewrite running_count_step in Hz by lia. unfold delta_at in Hz.
      rewrite Eo, Ec in Hz. lia.
Qed.

(** What a ['<form>'] before the marker gives: the marker's first index [m]
    and the last opening [o] that ends before it. *)
Lemma opening_facts (content : pystr) :
  (exists j, occurs_at content FORM_OPEN j /\
             (j < find content FORM_KEY_MARKER)%Z) ->
  let m := find content FORM_KEY_MARKER in
  let o := rfind content FORM_OPEN 0 m in
  m <> (-1)%Z /\ occurs_at content FORM_KEY_MARKER m /\
  (forall j, occurs_at content FORM_KEY_MARKER j -> (m <= j)%Z) /\
  occurs_at content FORM_OPEN o /\ (o + 6 <= m)%Z /\
  (forall j, occurs_at content FORM_OPEN j -> (j < m)%Z -> (j <= o)%Z).
Proof.
  intros Hne m o.
  assert (m <> (-1)%Z) as Hm.
  { destruct Hne as [j [[Hj0 _] Hjm]]. fold m in Hjm. lia. }
  destruct (find_spec content FORM_KEY_MARKER) as [[Hf _]|[Hmk Hmin]];
    [contradiction|]. fold m in Hmk, Hmin.
  assert (m + len FORM_KEY_MARKER <= len content)%Z as Hmb
    by (apply occurs_at_bound; [exact Hmk | discriminate]).
  assert (0 <= m)%Z as Hm0 by (destruct Hmk; assumption).
  pose proof (len_nonneg FORM_KEY_MARKER) as Hlm.
  destruct (rfind_spec content FORM_OPEN m ltac:(lia))
    as [[_ Hnone]|[Hop [Hob Hlast]]].
  { exfalso. destruct Hne as [j [Hj Hjm]]. apply (Hnone j Hj).
    change (len FORM_OPEN) with 6%Z.
    apply (open_before_marker content j m); assumption. }
  fold o in Hop, Hob, Hlast. change (len FORM_OPEN) with 6%Z in Hob, Hlast.
  split; [exact Hm|]. split; [exact Hmk|]. split; [exact Hmin|].
  split; [exact Hop|]. split; [exact Hob|].
  intros j Hj Hjm. apply Hlast; [exact Hj|].
  apply (open_before_marker content j m); assumption.
Qed.

(** X1: when a ['<form>'] precedes the marker, line 73 reads [form_end]
    unassigned exactly when no ['</form>'] at or after the opening brings
    the running count from the opening back to zero. *)
Theorem locate_unbound_iff (content : pystr) :
  (exists j, occurs_at content FORM_OPEN j /\
             (j < find content FORM_KEY_MARKER)%Z) ->
  let o := rfind content FORM_OPEN 0 (find content FORM_KEY_MARKER) in
  locate content = FormEndUnbound <->
  forall p, (o <= p)%Z -> occurs_at content FORM_CLOSE p ->
            running_count content o p <> 0%Z.
Proof.
  intros Hne o.
  destruct (opening_facts content Hne) as [Hm [_ [_ [Hop _]]]].
  fold o in Hop.
  assert (0 <= o)%Z as Ho0 by (destruct Hop; assumption).
  unfold locate. fold o.
  destruct (Z.eqb_spec (find content FORM_KEY_MARKER) (-1)) as [E|_];
    [contradiction|].
  split.
  - intros H p Hp Hc Hz.
    destruct (scan_loop_breaks content
                (Z.to_nat (len content - o)) o 0 p Ho0) as [e He].
    + pose proof (occurs_at_bound content FORM_CLOSE p Hc ltac:(discriminate))
        as Hb. change (len FORM_CLOSE) with 7%Z in Hb. lia.
    + exact Hc.
    + lia.
    + unfold scan in H. rewrite He in H. discriminate.
  - intros H. destruct (scan content o) as [e|] eqn:Es; [|reflexivity].
    exfalso. unfold scan in Es. apply scan_loop_spec in Es; [|exact Ho0].
    destruct Es as [p [Hp [_ [Hc [Hz _]]]]].
    apply (H p); [lia | exact Hc | lia].
Qed.

(** No ['</form>'] begins inside the marker. *)
Lemma no_close_in_marker (k : nat) (rest : pystr) :
  k < 80 ->
  startswith (skipn k (FORM_KEY_MARKER ++ rest)) FORM_CLOSE = false.
Proof.
  intros Hk. do 80 (destruct k as [|k]; [reflexivity|]). lia.
Qed.

Lemma close_after_marker (content : pystr) (q m : Z) :
  occurs_at content FORM_CLOSE q -> occurs_at content FORM_KEY_MARKER m ->
  (m <= q)%Z -> (m + 80 <= q)%Z.
Proof.
  intros Hq Hm Hle.
  apply occurs_at_iff in Hq. destruct Hq as [Hq0 Hq].
  apply occurs_at_iff in Hm. destruct Hm as [Hm0 Hm].
  destruct (Z.le_gt_cases (m + 80) q) as [H|H]; [exact H|exfalso].
  replace (Z.to_nat q) with (Z.to_nat (q - m) + Z.to_nat m) in Hq by lia.
  rewrite <- skipn_skipn in Hq.
  apply startswith_iff_app in Hm. destruct Hm as [rest Hm].
  rewrite Hm in Hq. rewrite no_close_in_marker in Hq by lia. discriminate.
Qed.

(** A ['</form>'] that begins before the marker ends before it. *)
Lemma close_before_marker (content : pystr) (q m : Z) :
  occurs_at content FORM_CLOSE q -> occurs_at content FORM_KEY_MARKER m ->
  (q < m)%Z -> (q + 7 <= m)%Z.
Proof.
  intros Hq Hm Hlt.
  apply occurs_at_iff in Hq. destruct Hq as [Hq0 Hq].
  apply occurs_at_iff in Hm. destruct Hm as [Hm0 Hm].
  destruct (Z.le_gt_cases (q + 7) m) as [Hle|Hgt]; [exact Hle|exfalso].
  replace (Z.to_nat m) with (Z.to_nat (m - q) + Z.to_nat q) in Hm by lia.
  rewrite <- skipn_skipn in Hm.
  apply startswith_iff_app in Hq. destruct Hq as [rest Hq].
  rewrite Hq in Hm.
  assert (Z.to_nat (m - q) = 1 \/ Z.to_nat (m - q) = 2 \/ Z.to_nat (m - q) = 3
          \/ Z.to_nat (m - q) = 4 \/ Z.to_nat (m - q) = 5
          \/ Z.to_nat (m - q) = 6) as Hd by lia.
  destruct Hd as [Hd|[Hd|[Hd|[Hd|[Hd|Hd]]]]]; rewrite Hd in Hm;
    simpl in Hm; discriminate.
Qed.

(** An occurrence that lies inside the bounds of a slice is in the slice. *)
Lemma occurs_in_slice (content sub : pystr) (o m e : Z) :
  occurs_at content sub m -> (0 <= o <= m)%Z -> (m + len sub <= e)%Z ->
  contains sub (slice content o e) = true.
Proof.
  intros Hm Ho He. apply occurs_at_iff in Hm. destruct Hm as [Hm0 Hm].
  apply startswith_iff_app in Hm. destruct Hm as [rest Hm].
  pose proof (len_nonneg sub) as Hl.
  rewrite slice_nonneg by lia.
  apply contains_iff.
  exists (firstn (Z.to_nat (m - o)) (skipn (Z.to_nat o) content)),
         (firstn (Z.to_nat (e - m - len sub)) rest).
  replace (Z.to_nat (e - o))
    with (Z.to_nat (m - o) + (length sub + Z.to_nat (e - m - len sub)))
    by (unfold len in *; lia).
  rewrite firstn_add. f_equal.
  rewrite skipn_skipn.
  replace (Z.to_nat (m - o) + Z.to_nat o) with (Z.to_nat m) by lia.
  rewrite Hm. apply firstn_app_2.
Qed.

(** An occurrence in a slice is an occurrence in the text, inside the
    bounds of the slice. *)
Lemma contains_slice_occurs (content sub : pystr) (o e : Z) :
  (0 <= o <= e)%Z -> contains sub (slice content o e) = true ->
  exists j, (o <= j)%Z /\ (j + len sub <= e)%Z /\ occurs_at content sub j.
Proof.
  intros Hoe H. rewrite slice_nonneg in H by lia.
  apply contains_iff in H. destruct H as [pre [post H]].
  set (X := skipn (Z.to_nat o) content) in *.
  assert (X = pre ++ sub ++ post ++ skipn (Z.to_nat (e - o)) X) as HX.
  { rewrite <- (firstn_skipn (Z.to_nat (e - o)) X) at 1. rewrite H.
    rewrite <- !app_assoc. reflexivity. }
  pose proof (len_nonneg pre) as Hp.
  exists (o + len pre)%Z. split; [lia|]. split.
  - pose proof (firstn_le_length (Z.to_nat (e - o)) X) as Hle.
    rewrite H in Hle. rewrite !length_app in Hle. unfold len. lia.
  - apply occurs_at_iff. split; [lia|].
    replace (Z.to_nat (o + len pre)) with (length pre + Z.to_nat o)
      by (unfold len; lia).
    rewrite <- skipn_skipn. fold X. rewrite HX.
    rewrite skipn_app, skipn_all, Nat.sub_diag. simpl.
    apply startswith_app.
Qed.

Lemma occurs_at_dec (s sub : pystr) (q : Z) :
  occurs_at s sub q \/ ~ occurs_at s sub q.
Proof.
  unfold occurs_at. destruct (Z_le_dec 0 q) as [H|H]; [|right; tauto].
  destruct (PyStr.eqb (slice s q (q + len sub)) sub) eqn:E.
  - left. split; [exact H | apply eqb_eq; exact E].
  - right. intros [_ Hs]. apply eqb_eq in Hs. congruence.
Qed.

(** The first index of a range at which a decidable property holds. *)
Lemma first_in_range (P : Z -> Prop) :
  (forall q, P q \/ ~ P q) ->
  forall (n : nat) (a : Z),
  (exists q, (a <= q < a + Z.of_nat n)%Z /\ P q) ->
  exists q0, (a <= q0 < a + Z.of_nat n)%Z /\ P q0 /\
             forall q, (a <= q < q0)%Z -> ~ P q.
Proof.
  intros Hdec. induction n as [|n IH]; intros a [q [Hq HP]]; [lia|].
  destruct (Hdec a) as [Ha|Ha].
  - exists a. split; [lia|]. split; [exact Ha|]. intros; lia.
  - destruct (IH (a + 1)%Z) as [q0 [Hq0 [HP0 Hmin]]].
    + exists q. split; [|exact HP].
      destruct (Z.eq_dec q a) as [->|Hne]; [contradiction|lia].
    + exists q0. split; [lia|]. split; [exact HP0|].
      intros j Hj. destruct (Z.eq_dec j a) as [->|Hne]; [exact Ha|].
      apply Hmin. lia.
Qed.

Lemma delta_at_open (content : pystr) (j : Z) :
  occurs_at content FORM_OPEN j -> delta_at content j = 1%Z.
Proof.
  intros [_ H]. unfold delta_at.
  change (j + len FORM_OPEN)%Z with (j + 6)%Z in H.
  rewrite H. reflexivity.
Qed.

Lemma delta_at_close (content : pystr) (j : Z) :
  occurs_at content FORM_CLOSE j -> delta_at content j = (-1)%Z.
Proof.
  intros H. pose proof H as [H0 Hs]. unfold delta_at.
  rewrite open_test by exact H0.
  apply occurs_at_iff in H. destruct H as [_ H].
  rewrite (close_open_exclusive _ H).
  change (j + len FORM_CLOSE)%Z with (j + 7)%Z in Hs.
  rewrite Hs. reflexivity.
Qed.

Lemma delta_at_none (content : pystr) (j : Z) :
  (0 <= j)%Z -> ~ occurs_at content FORM_OPEN j ->
  ~ occurs_at content FORM_CLOSE j -> delta_at content j = 0%Z.
Proof.
  intros Hj Ho Hc. unfold delta_at.
  destruct (PyStr.eqb (slice content j (j + 6)) FORM_OPEN) eqn:Eo.
  { exfalso. apply Ho. split; [exact Hj | apply eqb_eq; exact Eo]. }
  destruct (PyStr.eqb (slice content j (j + 7)) FORM_CLOSE) eqn:Ec.
  { exfalso. apply Hc. split; [exact Hj | apply eqb_eq; exact Ec]. }
  reflexivity.
Qed.

(** Over indices that hold no tag the count does not move. *)
Lemma running_count_flat (content : pystr) :
  forall (n : nat) (a q : Z), q = (a + Z.of_nat n)%Z ->
  (forall j, (a <= j < q)%Z -> delta_at content j = 0%Z) ->
  running_count content a q = delta_at content q.
Proof.
  induction n as [|n IH]; intros a q Hq Hflat.
  - replace q with a by lia. apply running_count_self.
  - rewrite running_count_step by lia.
    rewrite (Hflat a) by lia.
    rewrite (IH (a + 1)%Z q) by (try lia; intros j Hj; apply Hflat; lia).
    lia.
Qed.

(** X2: when a ['<form>'] precedes the marker and the scan breaks, the
    extracted text holds the marker exactly when no ['</form>'] begins
    between the opening and the marker.  Otherwise the text extracted is
    the form that closes before the marker: it runs from the opening to
    the end of the first ['</form>'] after it, ends at or before the
    marker, and does not hold the marker. *)
Theorem form_holds_marker_iff (content form_xml : pystr) :
  locate content = FormXml form_xml ->
  (exists j, occurs_at content FORM_OPEN j /\
             (j < find content FORM_KEY_MARKER)%Z) ->
  let m := find content FORM_KEY_MARKER in
  let o := rfind content FORM_OPEN 0 m in
  (contains FORM_KEY_MARKER form_xml = true <->
   forall q, (o <= q < m)%Z -> ~ occurs_at content FORM_CLOSE q)
  /\
  (forall q0, (o <= q0 < m)%Z -> occurs_at content FORM_CLOSE q0 ->
     (forall q, (o <= q < q0)%Z -> ~ occurs_at content FORM_CLOSE q) ->
     form_xml = slice content o (q0 + 7) /\
     (q0 + 7 <= m)%Z /\
     contains FORM_KEY_MARKER form_xml = false).
Proof.
  intros H Hne m o.
  destruct (opening_facts content Hne) as [Hm [Hmk [Hmin [Hop [Hom Hlast]]]]].
  fold m in Hm, Hmk, Hmin, Hop, Hom, Hlast. fold o in Hop, Hom, Hlast.
  assert (0 <= o)%Z as Ho0 by (destruct Hop; assumption).
  unfold locate in H. fold m in H. fold o in H.
  destruct (Z.eqb_spec m (-1)) as [E|_]; [contradiction|].
  destruct (scan content o) as [form_end|] eqn:Es; [|discriminate].
  injection H as Hx. subst form_xml.
  unfold scan in Es. apply scan_loop_spec in Es; [|exact Ho0].
  destruct Es as [p [Hp [He [Hcl [Hz Hfirst]]]]].
  rewrite Z.add_0_l in Hz. subst form_end.
  (* the scan stops at the first close between the opening and the marker *)
  assert (forall q0, (o <= q0 < m)%Z -> occurs_at content FORM_CLOSE q0 ->
            (forall q, (o <= q < q0)%Z -> ~ occurs_at content FORM_CLOSE q) ->
            p = q0 /\ (q0 + 7 <= m)%Z) as Hearly.
  { intros q0 Hq0 Hc0 Hmin0.
    assert (o < q0)%Z as Hoq.
    { destruct (Z.eq_dec q0 o) as [E|E]; [|lia]. exfalso. subst q0.
      pose proof (delta_at_open content o Hop).
      pose proof (delta_at_close content o Hc0). lia. }
    assert (running_count content o q0 = 0%Z) as Hz0.
    { rewrite running_count_step by lia.
      rewrite (delta_at_open content o Hop).
      rewrite (running_count_flat content (Z.to_nat (q0 - (o + 1)))
                 (o + 1)%Z q0); [|lia|].
      2:{ intros j Hj. apply delta_at_none; [lia | | apply Hmin0; lia].
          intros Hoj. specialize (Hlast j Hoj ltac:(lia)). lia. }
      rewrite (delta_at_close content q0 Hc0). lia. }
    assert (p = q0) as Hpq.
    { destruct (Z_lt_le_dec q0 p) as [Hlt|Hle].
      - exfalso. specialize (Hfirst q0 ltac:(lia) Hc0). lia.
      - destruct (Z.eq_dec p q0) as [E|E]; [exact E|exfalso].
        apply (Hmin0 p); [lia | exact Hcl]. }
    split; [exact Hpq|].
    apply (close_before_marker content q0 m Hc0 Hmk). lia. }
  (* a slice that ends at or before the marker does not hold it *)
  assert (forall e, (o <= e <= m)%Z ->
            contains FORM_KEY_MARKER (slice content o e) = true -> False)
    as Hout.
  { intros e Hle Hin.
    apply contains_slice_occurs in Hin; [|lia].
    destruct Hin as [j [Hj [Hje Hoc]]].
    specialize (Hmin j Hoc).
    change (len FORM_KEY_MARKER) with 80%Z in Hje. lia. }
  split; [split|].
  - intros Hin q Hq Hcq.
    destruct (first_in_range (occurs_at content FORM_CLOSE)
                (occurs_at_dec content FORM_CLOSE)
                (Z.to_nat (m - o)) o) as [q0 [Hq0 [Hc0 Hmin0]]].
    { exists q. split; [lia | exact Hcq]. }
    destruct (Hearly q0 ltac:(lia) Hc0 Hmin0) as [-> Hend].
    exact (Hout (q0 + 7)%Z ltac:(lia) Hin).
  - intros Hnone.
    assert (m <= p)%Z as Hmp.
    { destruct (Z_lt_le_dec p m) as [Hlt|Hle]; [|exact Hle].
      exfalso. apply (Hnone p); [lia | exact Hcl]. }
    pose proof (close_after_marker content p m Hcl Hmk Hmp) as Hafter.
    apply (occurs_in_slice content FORM_KEY_MARKER o m (p + 7) Hmk);
      [lia|]. change (len FORM_KEY_MARKER) with 80%Z. lia.
  - intros q0 Hq0 Hc0 Hmin0.
    destruct (Hearly q0 Hq0 Hc0 Hmin0) as [-> Hend].
    split; [reflexivity|]. split; [exact Hend|].
    destruct (contains FORM_KEY_MARKER (slice content o (q0 + 7))) eqn:E;
      [|reflexivity].
    exfalso. exact (Hout (q0 + 7)%Z ltac:(lia) E).
Qed.

(** The first theorem on [<form>MARKER]: no ['</form>'] at all. *)
Lemma locate_unbound_iff_witness :
  locate MoreSamples.doc_unclosed = FormEndUnbound <->
  forall p,
    (rfind MoreSamples.doc_unclosed FORM_OPEN 0
           (find MoreSamples.doc_unclosed FORM_KEY_MARKER) <= p)%Z ->
    occurs_at MoreSamples.doc_unclosed FORM_CLOSE p ->
    running_count MoreSamples.doc_unclosed
      (rfind MoreSamples.doc_unclosed FORM_OPEN 0
             (find MoreSamples.doc_unclosed FORM_KEY_MARKER)) p <> 0%Z.
Proof.
  apply (locate_unbound_iff MoreSamples.doc_unclosed).
  exists 0%Z. split; [split; [lia | vm_compute; reflexivity]|].
  vm_compute. reflexivity.
Defined.

(** The second theorem on [doc_nested], where the marker is inside the
    slice, and on [doc_closed_early], where the form closes at index 6
    and the marker begins at index 13. *)
Lemma form_holds_marker_iff_witness :
  ((contains FORM_KEY_MARKER
      (str "<form>x" ++ FORM_KEY_MARKER ++ str "<form>q</form>z</form>") = true
    <->
    forall q,
      (rfind Samples.doc_nested FORM_OPEN 0
             (find Samples.doc_nested FORM_KEY_MARKER) <= q
       < find Samples.doc_nested FORM_KEY_MARKER)%Z ->
      ~ occurs_at Samples.doc_nested FORM_CLOSE q)
   /\
   (forall q0,
      (rfind Samples.doc_nested FORM_OPEN 0
             (find Samples.doc_nested FORM_KEY_MARKER) <= q0
       < find Samples.doc_nested FORM_KEY_MARKER)%Z ->
      occurs_at Samples.doc_nested FORM_CLOSE q0 ->
      (forall q,
         (rfind Samples.doc_nested FORM_OPEN 0
                (find Samples.doc_nested FORM_KEY_MARKER) <= q < q0)%Z ->
         ~ occurs_at Samples.doc_nested FORM_CLOSE q) ->
      str "<form>x" ++ FORM_KEY_MARKER ++ str "<form>q</form>z</form>" =
      slice Samples.doc_nested
        (rfind Samples.doc_nested FORM_OPEN 0
               (find Samples.doc_nested FORM_KEY_MARKER)) (q0 + 7) /\
      (q0 + 7 <= find Samples.doc_nested FORM_KEY_MARKER)%Z /\
      contains FORM_KEY_MARKER
        (str "<form>x" ++ FORM_KEY_MARKER ++ str "<form>q</form>z</form>")
      = false))
  /\
  (locate MoreSamples.doc_closed_early = FormXml (str "<form></form>") /\
   str "<form></form>" = slice MoreSamples.doc_closed_early 0 13 /\
   (6 + 7 <= find MoreSamples.doc_closed_early FORM_KEY_MARKER)%Z /\
   contains FORM_KEY_MARKER (str "<form></form>") = false).
Proof.
  split.
  - apply (form_holds_marker_iff Samples.doc_nested).
    + vm_compute. reflexivity.
    + exists 2%Z. split; [split; [lia | vm_compute; reflexivity]|].
      vm_compute. reflexivity.
  - split; [vm_compute; reflexivity|].
    assert (locate MoreSamples.doc_closed_early = FormXml (str "<form></form>"))
      as Hl by (vm_compute; reflexivity).
    assert (exists j, occurs_at MoreSamples.doc_closed_early FORM_OPEN j /\
                      (j < find MoreSamples.doc_closed_early FORM_KEY_MARKER)%Z)
      as Hj.
    { exists 0%Z. split; [split; [lia | vm_compute; reflexivity]|].
      vm_compute. reflexivity. }
    destruct (form_holds_marker_iff MoreSamples.doc_closed_early
                (str "<form></form>") Hl Hj) as [_ Hsecond].
    apply (Hsecond 6%Z).
    + vm_compute. split; [intros E; discriminate E | reflexivity].
    + split; [lia | vm_compute; reflexivity].
    + intros q Hq [_ Hs].
      assert (rfind MoreSamples.doc_closed_early FORM_OPEN 0
                (find MoreSamples.doc_closed_early FORM_KEY_MARKER) = 0%Z)
        as Er by (vm_compute; reflexivity).
      rewrite Er in Hq.
      assert (q = 0 \/ q = 1 \/ q = 2 \/ q = 3 \/ q = 4 \/ q = 5)%Z
        as Hcases by lia.
      destruct Hcases as [->|[->|[->|[->|[->| ->]]]]];
        vm_compute in Hs; discriminate Hs.
Defined.

End ScanMore.
(** ** extract_form_fields.py: the outcomes of the extraction *)

Module ExtractMore.
Import PyStrFacts FormExtract ScanFacts ExtractFacts ExtractMain.

Section SortStable.
Variable A : Type.
Variable key : A -> Z.

Lemma insert_by_filter (k : Z) (x : A) (l : list A) :
  filter (fun y => (key y =? k)%Z) (insert_by key x l)
  = filter (fun y => (key y =? k)%Z) (x :: l).
Proof.
  induction l as [|y l IH]; [reflexivity|].
  cbn [insert_by]. destruct (Z.leb_spec (key x) (key y)) as [Hle|Hgt];
    [reflexivity|].
  cbn [filter] in *. rewrite IH.
  destruct (Z.eqb_spec (key x) k) as [Ex|Ex];
    destruct (Z.eqb_spec (key y) k) as [Ey|Ey]; try reflexivity.
  lia.
Qed.

(** The sort is stable: the items of one key keep their order. *)
Lemma sort_by_filter (k : Z) (l : list A) :
  filter (fun y => (key y =? k)%Z) (sort_by key l)
  = filter (fun y => (key y =? k)%Z) l.
Proof.
  induction l as [|x l IH]; [reflexivity|].
  cbn [sort_by fold_right]. fold (sort_by key l).
  rewrite insert_by_filter. cbn [filter]. rewrite IH. reflexivity.
Qed.

End SortStable.

Lemma map_m_returns_iff (A B : Type) (f : A -> result B) (ok : A -> bool)
      (l : list A) :
  (forall x, (exists y, f x = Return y) <-> ok x = true) ->
  ((exists ys, map_m f l = Return ys) <-> forallb ok l = true).
Proof.
  intros Hok. induction l as [|x l IH]; cbn [map_m forallb].
  - split; [reflexivity | intros _; eexists; reflexivity].
  - rewrite andb_true_iff, <- IH, <- Hok. split.
    + intros [ys H]. destruct (f x) as [y|e]; [|discriminate].
      cbn [bind] in H. destruct (map_m f l) as [ys'|e]; [|discriminate].
      split; eexists; reflexivity.
    + intros [[y Hy] [ys Hys]]. rewrite Hy, Hys. eexists; reflexivity.
Qed.

(** The first item on which [f] raises decides what the comprehension
    raises. *)
Lemma map_m_raises (A B : Type) (f : A -> result B) (pre post : list A)
      (x : A) (e : exn) :
  (forall y, In y pre -> exists z, f y = Return z) -> f x = Raise e ->
  map_m f (pre ++ x :: post) = Raise e.
Proof.
  intros Hpre Hx. induction pre as [|y pre IH]; cbn [map_m app].
  - rewrite Hx. reflexivity.
  - destruct (Hpre y (or_introl eq_refl)) as [z Hz]. rewrite Hz.
    cbn [bind]. rewrite IH; [reflexivity|].
    intros y' Hy'. apply Hpre. right. exact Hy'.
Qed.

Section WithLibrary.
Variable json_loads : pystr -> option pyval.
Variable fromstring : pystr -> option element.
Variable int_of_str : pystr -> option Z.

Local Abbreviation build_field := (build_field json_loads int_of_str).
Local Abbreviation form_info_of := (form_info_of json_loads int_of_str).
Local Abbreviation extract_form_fields :=
  (extract_form_fields json_loads fromstring int_of_str).
Local Abbreviation order_accepted := (order_accepted int_of_str).

(** X3: [extract_form_fields] returns [None] in exactly two cases: the
    marker occurs nowhere in the content, or the scan breaks and the parser
    rejects the extracted text. *)
Theorem extract_none_iff (content : pystr) :
  extract_form_fields content = Return None <->
  ((forall j, ~ occurs_at content FORM_KEY_MARKER j) \/
   exists form_xml, locate content = FormXml form_xml /\
                    fromstring form_xml = None).
Proof.
  rewrite (extract_returns_none_iff json_loads fromstring int_of_str).
  assert (find content FORM_KEY_MARKER = (-1)%Z <->
          forall j, ~ occurs_at content FORM_KEY_MARKER j) as Hfind.
  { destruct (find_spec content FORM_KEY_MARKER) as [[Hf Hn]|[Hoc _]].
    - tauto.
    - split.
      + intros E. rewrite E in Hoc. destruct Hoc as [H0 _]. lia.
      + intros Hn. exfalso. exact (Hn _ Hoc). }
  rewrite Hfind. reflexivity.
Qed.

Lemma build_field_returns_iff (field : element) :
  (exists fd, build_field field = Return fd) <-> order_accepted field = true.
Proof.
  unfold FormExtract.build_field, ExtractMain.order_accepted, py_int.
  destruct (find_child field (str "field_order")) as [e|];
    [|split; [reflexivity | intros _; eexists; reflexivity]].
  destruct (text e) as [s|]; cbn [bind];
    [|split; [intros [fd H]; discriminate | discriminate]].
  destruct (int_of_str s) as [z|]; cbn [bind].
  - split; [reflexivity | intros _; eexists; reflexivity].
  - split; [intros [fd H]; discriminate | discriminate].
Qed.

(** X4: on a parsed form, the conversion returns exactly when [int] accepts
    the text of every field's [field_order] element (fields without the
    element pass), and the dictionary then has one entry per [field]
    element.  Otherwise the first field that fails decides the exception:
    [TypeError] for an element without text, [ValueError] for a text that
    [int] rejects. *)
Theorem form_info_of_outcomes (root : element) :
  ((exists info, form_info_of root = Return info) <->
   forallb order_accepted (findall root (str "field")) = true)
  /\
  (forall info, form_info_of root = Return info ->
     length (fi_fields info) = length (findall root (str "field")))
  /\
  (forall pre field post e,
     findall root (str "field") = pre ++ field :: post ->
     forallb order_accepted pre = true ->
     find_child field (str "field_order") = Some e ->
     (text e = None -> form_info_of root = Raise TypeError) /\
     (forall s, text e = Some s -> int_of_str s = None ->
                form_info_of root = Raise ValueError)).
Proof.
  split; [|split].
  - rewrite <- (map_m_returns_iff _ _ build_field order_accepted
                  (findall root (str "field")) build_field_returns_iff).
    unfold FormExtract.form_info_of. split.
    + intros [info H].
      destruct (map_m build_field (findall root (str "field"))) as [ys|e];
        [eexists; reflexivity | discriminate].
    + intros [ys H]. rewrite H. eexists; reflexivity.
  - intros info H. unfold FormExtract.form_info_of in H.
    destruct (map_m build_field (findall root (str "field"))) as [ys|e] eqn:E;
      [|discriminate].
    injection H as <-. cbn [fi_fields].
    rewrite <- (Permutation_length (sort_by_perm _ fd_field_order ys)).
    apply map_m_Forall2 in E. symmetry. exact (Forall2_length E).
  - intros pre field post e Hsplit Hpre He.
    assert (forall y, In y pre -> exists z, build_field y = Return z) as Hok.
    { intros y Hy. apply build_field_returns_iff.
      rewrite forallb_forall in Hpre. apply Hpre. exact Hy. }
    unfold FormExtract.form_info_of. rewrite Hsplit. split.
    + intros Ht.
      rewrite (map_m_raises _ _ build_field pre post field TypeError Hok);
        [reflexivity|].
      unfold FormExtract.build_field. rewrite He, Ht. reflexivity.
    + intros s Ht Hs.
      rewrite (map_m_raises _ _ build_field pre post field ValueError Hok);
        [reflexivity|].
      unfold FormExtract.build_field. rewrite He, Ht. cbn [py_int].
      rewrite Hs. reflexivity.
Qed.

(** X5: the sort of line 127 is stable: in the returned dictionary the
    fields that share a [field_order] (all those without the element have
    order 0) appear in the order of their elements in the document. *)
Theorem equal_orders_keep_document_order (content : pystr) (d : form_info) :
  extract_form_fields content = Return (Some d) ->
  exists form_xml root built,
    locate content = FormXml form_xml /\
    fromstring form_xml = Some root /\
    Forall2 (fun e fd => build_field e = Return fd)
            (findall root (str "field")) built /\
    forall k,
      filter (fun fd => (fd_field_order fd =? k)%Z) (fi_fields d)
      = filter (fun fd => (fd_field_order fd =? k)%Z) built.
Proof.
  unfold FormExtract.extract_form_fields. intros H.
  destruct (locate content) as [| |form_xml] eqn:El; try discriminate.
  destruct (fromstring form_xml) as [root|] eqn:Ef; [|discriminate].
  unfold FormExtract.form_info_of in H.
  destruct (map_m build_field (findall root (str "field"))) as [built|e] eqn:E;
    [|discriminate].
  cbn [bind] in H. injection H as <-.
  exists form_xml, root, built. split; [reflexivity|]. split; [exact Ef|].
  split; [apply map_m_Forall2; exact E|].
  intros k. cbn [fi_fields]. apply sort_by_filter.
Qed.

End WithLibrary.

(** The theorem on [doc_nested] parsed as [sample_root]: the one field of
    order 0 is the field without a [field_order] element. *)
Lemma equal_orders_keep_document_order_witness :
  exists form_xml root built,
    locate Samples.doc_nested = FormXml form_xml /\
    Samples.sample_fromstring form_xml = Some root /\
    Forall2 (fun e fd =>
               build_field Samples.sample_json_loads Samples.sample_int e
               = Return fd)
            (findall root (str "field")) built /\
    forall k,
      filter (fun fd => (fd_field_order fd =? k)%Z)
             (fi_fields Samples.sample_info)
      = filter (fun fd => (fd_field_order fd =? k)%Z) built.
Proof.
  assert (extract_form_fields Samples.sample_json_loads
            Samples.sample_fromstring Samples.sample_int Samples.doc_nested
          = Return (Some Samples.sample_info)) as H
    by (vm_compute; reflexivity).
  exact (equal_orders_keep_document_order _ _ _ _ _ H).
Defined.

End ExtractMore.
(** ** analyze_questionnaire.py: the other categories *)

Module AnalyzeMore.
Import PyStrFacts PyDictFacts FormExtract Analyze AnalyzeFacts Entries.

Lemma for_each_app (A S : Type) (body : S -> A -> result S)
      (pre post : list A) (s : S) :
  for_each body (pre ++ post) s
  = bind (for_each body pre s) (for_each body post).
Proof.
  revert s. induction pre as [|x pre IH]; intros s; cbn [for_each app bind];
    [reflexivity|].
  destruct (body s x) as [s1|e]; cbn [bind]; [apply IH | reflexivity].
Qed.

Lemma filter_split_length (A : Type) (p : A -> bool) (l : list A) :
  length (filter p l) + length (filter (fun x => negb (p x)) l) = length l.
Proof.
  induction l as [|x l IH]; [reflexivity|].
  cbn [filter]. destruct (p x); cbn [negb length]; lia.
Qed.

Lemma py_len_has_len (v : pyval) (n : Z) :
  py_len v = Return n -> has_len v = true.
Proof. destruct v; simpl; intros H; try discriminate; reflexivity. Qed.

Lemma logic_nonempty (d : list (pystr * pyval)) :
  dict_has d (str "hide_field") || dict_has d (str "show_field") = true ->
  filter (fun kv => logic_key (fst kv)) d <> [].
Proof.
  intros H.
  assert (exists kv, In kv d /\ logic_key (fst kv) = true) as [kv [Hin Hk]].
  { apply orb_true_iff in H. unfold dict_has in H.
    destruct H as [H|H]; apply existsb_exists in H;
      destruct H as [kv [Hin E]]; apply eqb_eq in E; exists kv;
      (split; [exact Hin | rewrite E; reflexivity]). }
  intros E. assert (In kv (filter (fun kv => logic_key (fst kv)) d)) as Hf
    by (apply filter_In; split; assumption).
  rewrite E in Hf. exact Hf.
Qed.

Section Lists.
Variable py_str : pyval -> pystr.

Lemma required_step_lists (a : analysis) (f : field_data) :
  required_fields (required_step a f)
  = required_fields a ++ (if fd_required f then [required_of f] else []) /\
  food_preferences (required_step a f) = food_preferences a /\
  health_assessments (required_step a f) = health_assessments a /\
  conditional_logic (required_step a f) = conditional_logic a.
Proof.
  unfold required_step. destruct (fd_required f); cbn;
    rewrite ?app_nil_r; repeat split.
Qed.

Lemma likert_step_lists (a a' : analysis) (f : field_data) :
  likert_step a f = Return a' ->
  required_fields a' = required_fields a /\
  food_preferences a' = food_preferences a /\
  health_assessments a' = health_assessments a /\
  conditional_logic a' = conditional_logic a.
Proof.
  unfold likert_step, bind. intros H. split_result H;
    inversion H; subst; repeat split.
Qed.

(** Line 57 evaluates [len(field['options'])] whenever the options are
    truthy. *)
Lemma likert_step_len (a a' : analysis) (f : field_data) :
  likert_step a f = Return a' ->
  truthy (fd_options f) = true -> has_len (fd_options f) = true.
Proof.
  unfold likert_step, bind. intros H Ht. rewrite Ht in H.
  destruct (py_len (fd_options f)) as [n|e] eqn:El; [|discriminate].
  exact (py_len_has_len _ _ El).
Qed.

Lemma food_step_lists (a a' : analysis) (f : field_data) :
  food_step py_str a f = Return a' ->
  required_fields a' = required_fields a /\
  food_preferences a'
  = food_preferences a ++ (if is_food py_str f then [food_of f] else []) /\
  health_assessments a' = health_assessments a /\
  conditional_logic a' = conditional_logic a.
Proof.
  unfold food_step, is_food, bind. intros H.
  destruct (any_keyword food_keywords (field_name_of f)); cbn [orb] in *.
  - inversion H; subst. repeat split.
  - destruct (truthy (fd_options f)); cbn [andb] in *.
    + destruct (py_iter (fd_options f)) as [items|e]; [|discriminate].
      destruct (existsb _ items); inversion H; subst; cbn;
        rewrite ?app_nil_r; repeat split.
    + inversion H; subst. rewrite app_nil_r. repeat split.
Qed.

Lemma personal_step_lists (a : analysis) (f : field_data) :
  required_fields (personal_step a f) = required_fields a /\
  food_preferences (personal_step a f) = food_preferences a /\
  health_assessments (personal_step a f) = health_assessments a /\
  conditional_logic (personal_step a f) = conditional_logic a.
Proof. unfold personal_step. destruct (is_personal f); repeat split. Qed.

Lemma health_step_lists (a : analysis) (f : field_data) :
  required_fields (health_step a f) = required_fields a /\
  food_preferences (health_step a f) = food_preferences a /\
  health_assessments (health_step a f)
  = health_assessments a ++ (if is_health f then [health_of f] else []) /\
  conditional_logic (health_step a f) = conditional_logic a.
Proof.
  unfold health_step, is_health.
  destruct (any_keyword health_keywords (field_name_of f)); cbn;
    rewrite ?app_nil_r; repeat split.
Qed.

Lemma conditional_step_lists (a a' : analysis) (f : field_data) :
  conditional_step a f = Return a' ->
  required_fields a' = required_fields a /\
  food_preferences a' = food_preferences a /\
  health_assessments a' = health_assessments a /\
  conditional_logic a' = conditional_logic a ++ conditional_of f.
Proof.
  unfold conditional_step, conditional_of, bind, py_in. intros H.
  destruct (fd_field_config f) as [|b|z|x|s|l|d]; try discriminate.
  - destruct (contains (str "hide_field") s); [discriminate|].
    destruct (contains (str "show_field") s); [discriminate|].
    inversion H; subst. rewrite app_nil_r. repeat split.
  - destruct (existsb (fun x => eq_str x (str "hide_field")) l);
      [discriminate|].
    destruct (existsb (fun x => eq_str x (str "show_field")) l);
      [discriminate|].
    inversion H; subst. rewrite app_nil_r. repeat split.
  - destruct (dict_has d (str "hide_field")); cbn [orb] in *.
    + inversion H; subst. repeat split.
    + destruct (dict_has d (str "show_field")); inversion H; subst;
        rewrite ?app_nil_r; repeat split.
Qed.

(** What one pass of the loop body appends to the four lists. *)
Lemma categorize_lists (a a' : analysis) (f : field_data) :
  categorize py_str a f = Return a' ->
  required_fields a'
  = required_fields a ++ (if fd_required f then [required_of f] else []) /\
  food_preferences a'
  = food_preferences a ++ (if is_food py_str f then [food_of f] else []) /\
  health_assessments a'
  = health_assessments a ++ (if is_health f then [health_of f] else []) /\
  conditional_logic a' = conditional_logic a ++ conditional_of f /\
  (truthy (fd_options f) = true -> has_len (fd_options f) = true).
Proof.
  unfold categorize. intros H.
  destruct (likert_step (required_step a f) f) as [a1|e] eqn:E1;
    cbn [bind] in H; [|discriminate].
  destruct (food_step py_str a1 f) as [a2|e] eqn:E2;
    cbn [bind] in H; [|discriminate].
  pose proof (likert_step_len _ _ _ E1) as Hlen.
  destruct (required_step_lists a f) as [R1 [R2 [R3 R4]]].
  apply likert_step_lists in E1. destruct E1 as [L1 [L2 [L3 L4]]].
  apply food_step_lists in E2. destruct E2 as [F1 [F2 [F3 F4]]].
  destruct (personal_step_lists a2 f) as [P1 [P2 [P3 P4]]].
  destruct (health_step_lists (personal_step a2 f) f) as [H1 [H2 [H3 H4]]].
  apply conditional_step_lists in H. destruct H as [C1 [C2 [C3 C4]]].
  split; [congruence|]. split; [congruence|]. split; [congruence|].
  split; [congruence | exact Hlen].
Qed.

Lemma for_each_lists (fields : list field_data) :
  forall a a',
  for_each (categorize py_str) fields a = Return a' ->
  required_fields a'
  = required_fields a ++ map required_of (filter fd_required fields) /\
  food_preferences a'
  = food_preferences a ++ map food_of (filter (is_food py_str) fields) /\
  health_assessments a'
  = health_assessments a ++ map health_of (filter is_health fields) /\
  conditional_logic a' = conditional_logic a ++ flat_map conditional_of fields /\
  Forall (fun f => truthy (fd_options f) = true ->
                   has_len (fd_options f) = true) fields.
Proof.
  induction fields as [|f fields IH]; intros a a' H; cbn [for_each] in H.
  - inversion H; subst. cbn. rewrite !app_nil_r. repeat split. constructor.
  - destruct (categorize py_str a f) as [a1|e] eqn:E; cbn [bind] in H;
      [|discriminate].
    apply categorize_lists in E. destruct E as [E1 [E2 [E3 [E4 E5]]]].
    apply IH in H. destruct H as [H1 [H2 [H3 [H4 H5]]]].
    cbn [filter flat_map].
    split; [rewrite H1, E1; destruct (fd_required f); cbn [map];
            rewrite <- app_assoc; reflexivity|].
    split; [rewrite H2, E2; destruct (is_food py_str f); cbn [map];
            rewrite <- app_assoc; reflexivity|].
    split; [rewrite H3, E3; destruct (is_health f); cbn [map];
            rewrite <- app_assoc; reflexivity|].
    split; [rewrite H4, E4, <- app_assoc; reflexivity|].
    constructor; assumption.
Qed.

(** X8: in a returned analysis, ['required_fields'] holds, in order, one
    entry for each field whose ['required'] is true; their number is the
    metadata's [required_fields], and [required_fields] and
    [optional_fields] add up to [total_fields]. *)
Theorem required_fields_characterised (form_data : form_info) (a : analysis) :
  analyze_questionnaire py_str form_data = Return a ->
  required_fields a
  = map required_of (filter fd_required (fi_fields form_data)) /\
  length (required_fields a) = fm_required_fields (metadata a) /\
  fm_required_fields (metadata a) + fm_optional_fields (metadata a)
  = total_fields (metadata a).
Proof.
  unfold analyze_questionnaire. intros H.
  pose proof (for_each_categorize py_str _ _ _ H) as [Hm _].
  apply for_each_lists in H. destruct H as [Hr _].
  cbn [initial_analysis required_fields app] in Hr.
  rewrite Hr, Hm. cbn [initial_analysis metadata fm_required_fields
                       fm_optional_fields total_fields].
  split; [reflexivity|]. split; [apply length_map|].
  apply filter_split_length.
Qed.

(** X9: in a returned analysis, ['health_assessments'] holds, in order, one
    entry for each field whose lower-cased name contains a health keyword,
    and the ['options'] of an entry are [None] or a value that has a
    length, so line 194 of [main] does not raise on them. *)
Theorem health_assessments_characterised (form_data : form_info)
        (a : analysis) :
  analyze_questionnaire py_str form_data = Return a ->
  health_assessments a
  = map health_of (filter is_health (fi_fields form_data)) /\
  Forall (fun e => he_options e = PNone \/
                   (truthy (he_options e) = true /\
                    has_len (he_options e) = true))
         (health_assessments a).
Proof.
  unfold analyze_questionnaire. intros H.
  apply for_each_lists in H. destruct H as [_ [_ [Hh [_ Hlen]]]].
  cbn [initial_analysis health_assessments app] in Hh.
  split; [exact Hh|]. rewrite Hh.
  apply Forall_forall. intros e He. apply in_map_iff in He.
  destruct He as [f [<- Hf]]. apply filter_In in Hf. destruct Hf as [Hf _].
  rewrite Forall_forall in Hlen. specialize (Hlen f Hf).
  unfold health_of. cbn [he_options].
  destruct (truthy (fd_options f)) eqn:Et; [right | left; reflexivity].
  split; [exact Et | exact (Hlen eq_refl)].
Qed.

(** X10: in a returned analysis, ['conditional_logic'] holds, in order, one
    entry for each field whose configuration has the key [hide_field] or
    [show_field]; the ['logic'] of an entry holds the items of the
    configuration whose key has [hide], [show] or [cond] as a substring,
    and it is never empty. *)
Theorem conditional_logic_characterised (form_data : form_info)
        (a : analysis) :
  analyze_questionnaire py_str form_data = Return a ->
  conditional_logic a = flat_map conditional_of (fi_fields form_data) /\
  Forall (fun e =>
            ce_logic e <> [] /\
            Forall (fun kv =>
                      exists pre post,
                        fst kv = pre ++ str "hide" ++ post \/
                        fst kv = pre ++ str "show" ++ post \/
                        fst kv = pre ++ str "cond" ++ post)
                   (ce_logic e))
         (conditional_logic a).
Proof.
  unfold analyze_questionnaire. intros H.
  apply for_each_lists in H. destruct H as [_ [_ [_ [Hc _]]]].
  cbn [initial_analysis conditional_logic app] in Hc.
  split; [exact Hc|]. rewrite Hc.
  apply Forall_forall. intros e He. apply in_flat_map in He.
  destruct He as [f [_ He]]. unfold conditional_of in He.
  destruct (fd_field_config f) as [|b|z|x|s|l|d]; try contradiction.
  destruct (dict_has d (str "hide_field") || dict_has d (str "show_field"))
    eqn:Eh; [|contradiction].
  destruct He as [<-|[]]. cbn [ce_logic]. split.
  - exact (logic_nonempty d Eh).
  - apply Forall_forall. intros kv Hkv. apply filter_In in Hkv.
    destruct Hkv as [_ Hk].
    apply orb_true_iff in Hk. destruct Hk as [Hk|Hk];
      [apply orb_true_iff in Hk; destruct Hk as [Hk|Hk]|];
      apply contains_iff in Hk; destruct Hk as [pre [post Hk]];
      exists pre, post; tauto.
Qed.

(** X11: in a returned analysis, ['food_preferences'] holds, in order, one
    entry for each field whose lower-cased name contains a food keyword or
    one of whose options reads, as a string, with [like] in it; the
    ['options'] of an entry are the field's, and when they are truthy they
    have a length, so line 180 of [main] does not raise on them. *)
Theorem food_preferences_characterised (form_data : form_info)
        (a : analysis) :
  analyze_questionnaire py_str form_data = Return a ->
  food_preferences a
  = map food_of (filter (is_food py_str) (fi_fields form_data)) /\
  Forall (fun e => truthy (fe_options e) = true ->
                   has_len (fe_options e) = true)
         (food_preferences a).
Proof.
  unfold analyze_questionnaire. intros H.
  apply for_each_lists in H. destruct H as [_ [Hf [_ [_ Hlen]]]].
  cbn [initial_analysis food_preferences app] in Hf.
  split; [exact Hf|]. rewrite Hf.
  apply Forall_forall. intros e He. apply in_map_iff in He.
  destruct He as [f [<- Hin]]. apply filter_In in Hin.
  destruct Hin as [Hin _].
  rewrite Forall_forall in Hlen. exact (Hlen f Hin).
Qed.

(** X7: a field whose options are truthy and have no length (a number or
    [true] that [json.loads] decoded) makes the analysis raise [TypeError],
    when the fields before it are well typed. *)
Theorem analysis_raises_on_unsized_options (form_data : form_info)
        (pre post : list field_data) (f : field_data) :
  fi_fields form_data = pre ++ f :: post ->
  forallb well_typed pre = true ->
  truthy (fd_options f) = true -> has_len (fd_options f) = false ->
  analyze_questionnaire py_str form_data = Raise TypeError.
Proof.
  intros Hsplit Hpre Ht Hl. unfold analyze_questionnaire. rewrite Hsplit.
  rewrite for_each_app.
  assert (forall a, exists a',
            for_each (categorize py_str) pre a = Return a') as Hret.
  { clear Hsplit. induction pre as [|x pre IH]; intros a0;
      cbn [for_each]; [eexists; reflexivity|].
    cbn [forallb] in Hpre. apply andb_true_iff in Hpre.
    destruct Hpre as [Hx Hpre].
    destruct (categorize_returns py_str a0 x Hx) as [a1 E]. rewrite E.
    cbn [bind]. apply IH. exact Hpre. }
  destruct (Hret (initial_analysis form_data)) as [a1 E]. rewrite E.
  cbn [bind for_each]. unfold categorize, likert_step. rewrite Ht.
  destruct (fd_options f); try discriminate; reflexivity.
Qed.

End Lists.

(** The theorems on [sample_info]. *)
Lemma required_fields_characterised_witness :
  required_fields Samples.sample_analysis
  = map required_of (filter fd_required (fi_fields Samples.sample_info)).
Proof.
  assert (analyze_questionnaire Samples.sample_py_str Samples.sample_info
          = Return Samples.sample_analysis) as H by (vm_compute; reflexivity).
  exact (proj1 (required_fields_characterised _ _ _ H)).
Defined.

Lemma health_assessments_characterised_witness :
  health_assessments Samples.sample_analysis
  = map health_of (filter is_health (fi_fields Samples.sample_info)).
Proof.
  assert (analyze_questionnaire Samples.sample_py_str Samples.sample_info
          = Return Samples.sample_analysis) as H by (vm_compute; reflexivity).
  exact (proj1 (health_assessments_characterised _ _ _ H)).
Defined.

Lemma conditional_logic_characterised_witness :
  conditional_logic MoreSamples.analysis_many
  = flat_map conditional_of (fi_fields MoreSamples.info_many).
Proof.
  assert (analyze_questionnaire Samples.sample_py_str MoreSamples.info_many
          = Return MoreSamples.analysis_many) as H
    by (vm_compute; reflexivity).
  exact (proj1 (conditional_logic_characterised _ _ _ H)).
Defined.

Lemma food_preferences_characterised_witness :
  food_preferences Samples.sample_analysis
  = map food_of (filter (is_food Samples.sample_py_str)
                        (fi_fields Samples.sample_info)).
Proof.
  assert (analyze_questionnaire Samples.sample_py_str Samples.sample_info
          = Return Samples.sample_analysis) as H by (vm_compute; reflexivity).
  exact (proj1 (food_preferences_characterised _ _ _ H)).
Defined.

(** The theorem on a form whose second field has the options [5]. *)
Lemma analysis_raises_on_unsized_options_witness :
  analyze_questionnaire Samples.sample_py_str MoreSamples.info_numeric
  = Raise TypeError.
Proof.
  apply (analysis_raises_on_unsized_options Samples.sample_py_str
           MoreSamples.info_numeric [MoreSamples.field_many_options] []
           MoreSamples.field_numeric_options);
    vm_compute; reflexivity.
Defined.

End AnalyzeMore.
(** ** analyze_questionnaire.py: the detailed summary *)

Module SummaryFacts.
Import PyStrFacts PyDictFacts FormExtract Analyze AnalyzeFacts Entries Summary.
Import ExtractFacts ExtractMore AnalyzeMore ExtractMain.

Lemma dict_get_truthy (d : list (pystr * pyval)) (k : pystr) :
  truthy (dict_get d k PNone) = true -> dict_has d k = true.
Proof.
  induction d as [|[k' v] d IH]; cbn [dict_get dict_has existsb fst];
    [discriminate|].
  destruct (PyStr.eqb k' k); [reflexivity|]. exact IH.
Qed.

Section WithError.
Variable dict_slice_error : exn.

Local Abbreviation summarize := (summarize dict_slice_error).
Local Abbreviation generate_field_summary :=
  (generate_field_summary dict_slice_error).
Local Abbreviation first_five := (first_five dict_slice_error).

Lemma summarize_returns_iff (f : field_data) :
  (exists e, summarize f = Return e) <-> summarizable f = true.
Proof.
  unfold Summary.summarize, summarizable, options_fit, config_ok, config_get.
  split.
  - intros [e H].
    destruct (fd_field_config f) as [|b|z|x|s|l|d];
      try (exfalso; revert H;
           destruct (truthy (fd_options f));
           [destruct (py_len (fd_options f))|]; cbn [bind]; discriminate).
    rewrite andb_true_r. cbn [bind] in H.
    destruct (fd_options f) as [|b'|z'|x'|s'|l'|d'];
      cbn [truthy py_len bind negb] in *; try reflexivity.
    + destruct b'; [discriminate H | reflexivity].
    + destruct (negb (z' =? 0)%Z); [discriminate H | reflexivity].
    + destruct (negb (PrimFloat.eqb x' PrimFloat.zero));
        [discriminate H | reflexivity].
    + destruct d' as [|kv d']; [reflexivity|]. cbn [bind] in H.
      destruct (Z.of_nat (length (kv :: d')) <=? 20)%Z;
        [reflexivity | cbn [Summary.first_five bind] in H ].
      destruct (truthy (dict_get d (str "hide_field") PNone));
        discriminate H.
  - intros H. apply andb_true_iff in H. destruct H as [Ho Hc].
    destruct (fd_field_config f) as [|b|z|x|s|l|d]; try discriminate Hc.
    destruct (fd_options f) as [|b'|z'|x'|s'|l'|d'];
      cbn [truthy py_len bind negb] in *.
    + destruct (truthy (dict_get d (str "hide_field") PNone));
        eexists; reflexivity.
    + apply negb_true_iff in Ho. rewrite Ho.
      destruct (truthy (dict_get d (str "hide_field") PNone));
        eexists; reflexivity.
    + apply negb_true_iff in Ho. rewrite Ho.
      destruct (truthy (dict_get d (str "hide_field") PNone));
        eexists; reflexivity.
    + apply negb_true_iff in Ho. rewrite Ho.
      destruct (truthy (dict_get d (str "hide_field") PNone));
        eexists; reflexivity.
    + destruct (truthy (dict_get d (str "hide_field") PNone));
        destruct (negb (PyStr.eqb s' [])); cbn [bind];
        try destruct (len s' <=? 20)%Z; eexists; reflexivity.
    + destruct (truthy (dict_get d (str "hide_field") PNone));
        destruct l' as [|y l']; cbn [bind];
        try destruct (Z.of_nat (length (y :: l')) <=? 20)%Z;
        eexists; reflexivity.
    + destruct (truthy (dict_get d (str "hide_field") PNone));
        destruct d' as [|y d']; cbn [bind]; try rewrite Ho;
        eexists; reflexivity.
Qed.

Lemma generate_returns_iff (form_data : form_info) :
  (exists summary, generate_field_summary form_data = Return summary) <->
  forallb summarizable (fi_fields form_data) = true.
Proof. apply map_m_returns_iff. exact summarize_returns_iff. Qed.

(** X13: [generate_field_summary] returns exactly when every field has a
    dictionary as its configuration and options that are falsy, a string, a
    list, or a dictionary of at most 20 entries; the summary then has one
    entry per field. *)
Theorem summary_returns_iff (form_data : form_info) :
  ((exists summary, generate_field_summary form_data = Return summary) <->
   forallb summarizable (fi_fields form_data) = true) /\
  (forall summary, generate_field_summary form_data = Return summary ->
     length summary = length (fi_fields form_data)).
Proof.
  split.
  - apply generate_returns_iff.
  - intros summary H. apply map_m_Forall2 in H. symmetry.
    exact (Forall2_length H).
Qed.





(** A field the summary flags has one of the two keys that the analysis
    looks for. *)
Lemma summarize_flag (f : field_data) (e : field_summary) :
  summarize f = Return e -> sm_has_conditional_logic e = true ->
  exists c, conditional_of f = [c] /\ ce_field_key c = sm_field_key e.
Proof.
  unfold Summary.summarize, config_get, conditional_of. intros H Hflag.
  destruct (fd_field_config f) as [|b|z|x|s|l|d];
    try (exfalso; revert H;
         destruct (truthy (fd_options f));
         [destruct (py_len (fd_options f))|]; cbn [bind]; discriminate).
  assert (sm_field_key e = fd_field_key f /\
          truthy (if truthy (dict_get d (str "hide_field") PNone)
                  then dict_get d (str "hide_field") PNone
                  else dict_get d (str "show_field") PNone) = true)
    as [Hk Ht].
  { destruct (truthy (fd_options f));
      [destruct (py_len (fd_options f)) as [n|err]; [|discriminate H]|];
      cbn [bind] in H;
      destruct (truthy (dict_get d (str "hide_field") PNone));
      cbn [bind] in H;
      try (destruct (n <=? 20)%Z;
           [|destruct (first_five (fd_options f)); [|discriminate H];
             cbn [bind] in H]);
      injection H as <-; (split; [reflexivity | exact Hflag]). }
  assert (dict_has d (str "hide_field") || dict_has d (str "show_field")
          = true) as Hhas.
  { apply orb_true_iff.
    destruct (truthy (dict_get d (str "hide_field") PNone)) eqn:Eh.
    - left. apply dict_get_truthy. exact Eh.
    - right. apply dict_get_truthy. exact Ht. }
  rewrite Hhas. eexists. split; [reflexivity|]. cbn [ce_field_key].
  symmetry. exact Hk.
Qed.

End WithError.

Section Main.
Variable py_str : pyval -> pystr.
Variable dict_slice_error : exn.

Local Abbreviation generate_field_summary :=
  (generate_field_summary dict_slice_error).

(** X14: when both the analysis and the summary of [main] return, every
    field the summary flags with ['has_conditional_logic'] has an entry in
    the analysis' ['conditional_logic'], so the flagged fields are at most
    as many as the entries. *)
Theorem flagged_fields_are_listed (form_data : form_info) (a : analysis)
        (summary : list field_summary) :
  analyze_questionnaire py_str form_data = Return a ->
  generate_field_summary form_data = Return summary ->
  conditional_logic a = flat_map conditional_of (fi_fields form_data) /\
  Forall2 (fun f e =>
             sm_has_conditional_logic e = true ->
             exists c, conditional_of f = [c] /\
                       ce_field_key c = sm_field_key e)
          (fi_fields form_data) summary /\
  length (filter sm_has_conditional_logic summary)
  <= length (conditional_logic a).
Proof.
  intros Ha Hs.
  unfold analyze_questionnaire in Ha. apply for_each_lists in Ha.
  destruct Ha as [_ [_ [_ [Hc _]]]].
  cbn [initial_analysis conditional_logic app] in Hc.
  apply map_m_Forall2 in Hs.
  split; [exact Hc|]. rewrite Hc. clear Hc.
  induction Hs as [|f e fields summary Hfe _ [IH1 IH2]];
    [split; [constructor | cbn; lia]|].
  pose proof (summarize_flag dict_slice_error f e Hfe) as Hflag.
  split; [constructor; assumption|].
  cbn [filter flat_map]. rewrite length_app.
  destruct (sm_has_conditional_logic e); [|lia].
  destruct (Hflag eq_refl) as [c [-> _]]. cbn [length]. lia.
Qed.

(** X6: on typed fields [analyze_questionnaire] and
    [generate_field_summary] both return: when every field has a dictionary
    as its configuration and options that are falsy, a string, a list whose
    dictionaries have string labels, or a dictionary of at most 20 entries,
    the two calls return, and the summary has [total_fields] entries.  What
    [main] prints from the two results is not part of the statement. *)
Theorem both_return_on_typed_fields (form_data : form_info) :
  forallb well_typed (fi_fields form_data) = true ->
  forallb summarizable (fi_fields form_data) = true ->
  exists a summary,
    analyze_questionnaire py_str form_data = Return a /\
    generate_field_summary form_data = Return summary /\
    length summary = total_fields (metadata a).
Proof.
  intros Hw Hs.
  destruct (analyze_returns py_str form_data Hw) as [a Ha].
  destruct (proj2 (generate_returns_iff dict_slice_error form_data) Hs)
    as [summary Hsum].
  exists a, summary. split; [exact Ha|]. split; [exact Hsum|].
  pose proof (map_m_Forall2 _ _ _ _ _ Hsum) as Hlen.
  apply Forall2_length in Hlen. rewrite <- Hlen.
  unfold analyze_questionnaire in Ha.
  apply for_each_categorize in Ha. destruct Ha as [-> _]. reflexivity.
Qed.

(** X15: the breakdown that [main] of [extract_form_fields.py] prints and
    the analysis agree on a form: the same type counts, in the same order
    of first appearance, the same number of required fields and the same
    number of optional ones. *)
Theorem breakdown_agrees_with_analysis (form_data : form_info)
        (a : analysis) :
  analyze_questionnaire py_str form_data = Return a ->
  fst (field_breakdown form_data) = field_types a /\
  snd (field_breakdown form_data) = fm_required_fields (metadata a) /\
  optional_count form_data = Z.of_nat (fm_optional_fields (metadata a)).
Proof.
  intros Ha. unfold analyze_questionnaire in Ha.
  apply for_each_categorize in Ha. destruct Ha as [Hm [Ht _]].
  rewrite Hm, Ht.
  cbn [initial_analysis metadata field_types fm_required_fields
       fm_optional_fields].
  assert (forall fields st,
            fold_left breakdown_step fields st
            = (fold_left (fun c k => counter_add opt_str_eqb c k 1)
                         (map fd_type fields) (fst st),
               snd st + length (filter fd_required fields))) as Hfold.
  { induction fields as [|f fields IH]; intros [c n]; cbn [fold_left map filter].
    - cbn. f_equal. lia.
    - rewrite IH. unfold breakdown_step. cbn [fst snd].
      f_equal. destruct (fd_required f); cbn [length]; lia. }
  unfold optional_count, field_breakdown. rewrite Hfold. cbn [fst snd].
  split; [reflexivity|]. split; [reflexivity|].
  pose proof (filter_split_length _ fd_required (fi_fields form_data)). lia.
Qed.

End Main.


Lemma flagged_fields_are_listed_witness :
  length (filter sm_has_conditional_logic MoreSamples.summary_many)
  <= length (conditional_logic MoreSamples.analysis_many).
Proof.
  assert (analyze_questionnaire Samples.sample_py_str MoreSamples.info_many
          = Return MoreSamples.analysis_many) as Ha
    by (vm_compute; reflexivity).
  assert (generate_field_summary TypeError MoreSamples.info_many
          = Return MoreSamples.summary_many) as Hs
    by (vm_compute; reflexivity).
  exact (proj2 (proj2 (flagged_fields_are_listed Samples.sample_py_str
                         TypeError _ _ _ Ha Hs))).
Defined.

Lemma both_return_on_typed_fields_witness :
  exists a summary,
    analyze_questionnaire Samples.sample_py_str Samples.sample_info
    = Return a /\
    generate_field_summary TypeError Samples.sample_info = Return summary /\
    length summary = total_fields (metadata a).
Proof.
  apply (both_return_on_typed_fields Samples.sample_py_str TypeError
           Samples.sample_info); vm_compute; reflexivity.
Defined.

Lemma breakdown_agrees_with_analysis_witness :
  fst (field_breakdown Samples.sample_info)
  = field_types Samples.sample_analysis.
Proof.
  assert (analyze_questionnaire Samples.sample_py_str Samples.sample_info
          = Return Samples.sample_analysis) as H by (vm_compute; reflexivity).
  exact (proj1 (breakdown_agrees_with_analysis Samples.sample_py_str _ _ H)).
Defined.

End SummaryFacts.
(** ** The line counters: which files are reached *)

Module PlacesFacts.
Import PyStrFacts Counters Places PathFacts CounterFacts.

Lemma files_of_In (es : list node) (f : pystr) (c : fcontent) :
  In (f, c) (files_of es) <-> In (File f c) es.
Proof.
  unfold files_of. rewrite in_flat_map. split.
  - intros [n [Hn Hin]].
    destruct n as [f' c'|d sub|d sub]; [|contradiction..].
    destruct Hin as [E|[]]. injection E as -> ->. exact Hn.
  - intros H. exists (File f c). split; [exact H | left; reflexivity].
Qed.

Lemma dir_under_nonempty (n : node) (ds : list pystr) (es : list node) :
  dir_under n ds es -> ds <> [].
Proof. intros H. destruct H; discriminate. Qed.

(** The items [os.walk] yields below a directory entry: one for each
    directory reached through kept names. *)
Lemma walk_node_In (n : node) :
  forall (parent : pystr) (item : walk_item),
  In item (walk_node parent n) <->
  exists ds es, dir_under n ds es /\ forallb kept ds = true /\
                item = (walk_root parent ds, dirs_of es, files_of es).
Proof.
  induction n as [f c|d entries IH|d entries _] using node_ind2;
    intros parent item.
  1, 3: cbn [walk_node]; (split; [contradiction|]);
    intros [ds [es [H _]]]; inversion H.
  - cbn [walk_node]. rewrite Forall_forall in IH. split.
    + destruct (kept d) eqn:Ek; [|contradiction].
      intros [E|Hin].
      * exists [d], entries. split; [constructor|].
        split; [cbn [forallb]; rewrite Ek; reflexivity|].
        symmetry. exact E.
      * apply in_flat_map in Hin. destruct Hin as [n [Hn Hin]].
        apply (IH n Hn) in Hin.
        destruct Hin as [ds [es [Hu [Hk E]]]].
        exists (d :: ds), es. split; [econstructor; eassumption|].
        split; [cbn [forallb]; rewrite Ek; exact Hk|]. exact E.
    + intros [ds [es [Hu [Hk E]]]].
      inversion Hu as [d' es'|d' sub n' ds' es' Hn' Hu']; subst.
      * cbn [forallb] in Hk. apply andb_true_iff in Hk.
        destruct Hk as [-> _]. left. reflexivity.
      * cbn [forallb] in Hk. apply andb_true_iff in Hk.
        destruct Hk as [-> Hk]. right. apply in_flat_map.
        exists n'. split; [assumption|]. apply (IH n'); [assumption|].
        exists ds', es. split; [assumption|]. split; [exact Hk|].
        reflexivity.
Qed.

(** The items of [os.walk(top)] with the pruning of the loop body. *)
Lemma walk_In (top : pystr) (tree : list node) (item : walk_item) :
  In item (walk top tree) <->
  exists ds es, listing_at tree ds es /\ forallb kept ds = true /\
                item = (walk_root top ds, dirs_of es, files_of es).
Proof.
  unfold walk. split.
  - intros [E|Hin].
    + exists [], tree. split; [left; split; reflexivity|].
      split; [reflexivity | symmetry; exact E].
    + apply in_flat_map in Hin. destruct Hin as [n [Hn Hin]].
      apply walk_node_In in Hin. destruct Hin as [ds [es [Hu [Hk E]]]].
      exists ds, es. split; [right; exists n; split; assumption|].
      split; assumption.
  - intros [ds [es [[[-> ->]|[n [Hn Hu]]] [Hk E]]]].
    + left. symmetry. exact E.
    + right. apply in_flat_map. exists n. split; [exact Hn|].
      apply walk_node_In. exists ds, es. repeat split; assumption.
Qed.

(** X17: the four walking scripts total over the same files, and a file is
    among them exactly when every directory name on the way to it is
    outside the exclusion list and the path of its directory, as [os.walk]
    reports it, holds none of the exclusion names as a substring. *)
Theorem walked_files_criterion (tree : list node) :
  cl_totals (count_lines_main tree)
  = tally (map cl_contribution (walk_files tree)) /\
  ac_totals (accurate_count tree)
  = tally (map ac_contribution (walk_files tree)) /\
  fc_totals (final_count tree)
  = tally (map fc_contribution (walk_files tree)) /\
  sc_totals (simple_count tree)
  = tally (map fc_contribution (walk_files tree)) /\
  forall f c,
    In (f, c) (walk_files tree) <->
    exists ds es,
      listing_at tree ds es /\ In (File f c) es /\
      forallb kept ds = true /\
      root_excluded (walk_root (str ".") ds) = false.
Proof.
  split; [apply count_lines_totals|].
  split; [apply accurate_count_totals|].
  split; [apply final_count_totals|].
  split; [apply simple_count_totals|].
  intros f c. unfold walk_files. rewrite in_flat_map. split.
  - intros [item [Hitem Hin]]. apply walk_In in Hitem.
    destruct Hitem as [ds [es [Hl [Hk ->]]]]. cbn [reached] in Hin.
    destruct (root_excluded (walk_root (str ".") ds)) eqn:Er;
      [contradiction|].
    exists ds, es. split; [exact Hl|].
    split; [apply files_of_In; exact Hin|]. split; [exact Hk | exact Er].
  - intros [ds [es [Hl [Hin [Hk Er]]]]].
    exists (walk_root (str ".") ds, dirs_of es, files_of es). split.
    + apply walk_In. exists ds, es. repeat split; assumption.
    + cbn [reached]. rewrite Er. apply files_of_In. exact Hin.
Qed.

Lemma dir_via_nonempty (n : node) (ds : list pystr) (es : list node) :
  dir_via n ds es -> ds <> [].
Proof. intros H. destruct H; discriminate. Qed.

(** The directories the glob lists in and below a directory or a symbolic
    link to one, given those below each of its entries. *)
Lemma rlistdir_listing_In (n : node) (entries : list node) :
  listing_of n = Some entries ->
  rlistdir_node n
  = (if ishidden (node_name n) then []
     else (node_name n, entries)
            :: map (fun ye => (path_join (node_name n) (fst ye), snd ye))
                   (flat_map rlistdir_node entries)) ->
  Forall (fun n' => forall p es,
            In (p, es) (rlistdir_node n') <->
            exists ds, dir_via n' ds es /\ forallb visible ds = true /\
                       p = glob_dir ds) entries ->
  forall (p : pystr) (es : list node),
  In (p, es) (rlistdir_node n) <->
  exists ds, dir_via n ds es /\ forallb visible ds = true /\
             p = glob_dir ds.
Proof.
  intros Hlist Hr IH p es. rewrite Hr. clear Hr.
  rewrite Forall_forall in IH. unfold visible. split.
  - destruct (ishidden (node_name n)) eqn:Eh; [contradiction|].
    intros [E|Hin].
    + injection E as <- <-. exists [node_name n].
      split; [apply via_self; exact Hlist|].
      split; [cbn [forallb]; rewrite Eh; reflexivity | reflexivity].
    + apply in_map_iff in Hin. destruct Hin as [[y es'] [E Hin]].
      cbn [fst snd] in E. injection E as <- <-.
      apply in_flat_map in Hin. destruct Hin as [n' [Hn Hin]].
      apply (IH n' Hn) in Hin. destruct Hin as [ds [Hu [Hv ->]]].
      exists (node_name n :: ds).
      split; [eapply via_sub; eassumption|].
      split; [cbn [forallb]; rewrite Eh; exact Hv|].
      pose proof (dir_via_nonempty _ _ _ Hu) as Hne.
      destruct ds; [contradiction | reflexivity].
  - intros [ds [Hu [Hv ->]]].
    inversion Hu as [n0 es0 Hl0|n0 sub n' ds' es0 Hl0 Hn' Hu']; subst.
    + rewrite Hlist in Hl0. injection Hl0 as <-.
      cbn [forallb] in Hv. apply andb_true_iff in Hv.
      destruct Hv as [Hv _]. apply negb_true_iff in Hv. rewrite Hv.
      left. reflexivity.
    + rewrite Hlist in Hl0. injection Hl0 as <-.
      cbn [forallb] in Hv. apply andb_true_iff in Hv.
      destruct Hv as [Hd Hv]. apply negb_true_iff in Hd. rewrite Hd.
      right. apply in_map_iff. exists (glob_dir ds', es).
      split.
      { cbn [fst snd]. pose proof (dir_via_nonempty _ _ _ Hu') as Hne.
        destruct ds'; [contradiction | reflexivity]. }
      apply in_flat_map. exists n'. split; [assumption|].
      apply (IH n'); [assumption|]. exists ds'. repeat split; assumption.
Qed.

(** The directories the glob lists below an entry: those reached, through
    directories and symbolic links to directories, by names that are not
    hidden. *)
Lemma rlistdir_In (n : node) :
  forall (p : pystr) (es : list node),
  In (p, es) (rlistdir_node n) <->
  exists ds, dir_via n ds es /\ forallb visible ds = true /\
             p = glob_dir ds.
Proof.
  induction n as [f c|d entries IH|d entries IH] using node_ind2.
  - intros p es. cbn [rlistdir_node]. split; [contradiction|].
    intros [ds [H _]].
    inversion H as [n0 es0 Hl|n0 sub n' ds' es0 Hl]; discriminate Hl.
  - exact (rlistdir_listing_In (Dir d entries) entries eq_refl eq_refl IH).
  - exact (rlistdir_listing_In (Link d entries) entries eq_refl eq_refl IH).
Qed.

Lemma glob2_In (tree : list node) (p : pystr) (es : list node) :
  In (p, es) (glob2 tree) <->
  exists ds, listing_via tree ds es /\ forallb visible ds = true /\
             p = glob_dir ds.
Proof.
  unfold glob2. split.
  - intros [E|Hin].
    + injection E as <- <-. exists []. split; [left; split; reflexivity|].
      split; reflexivity.
    + apply in_flat_map in Hin. destruct Hin as [n [Hn Hin]].
      apply rlistdir_In in Hin. destruct Hin as [ds [Hu [Hv E]]].
      exists ds. split; [right; exists n; split; assumption|].
      split; assumption.
  - intros [ds [[[-> ->]|[n [Hn Hu]]] [Hv ->]]].
    + left. reflexivity.
    + right. apply in_flat_map. exists n. split; [exact Hn|].
      apply rlistdir_In. exists ds. repeat split; assumption.
Qed.

(** X19: [count_code_lines.py] totals over the paths its four globs
    return, and a glob returns an entry exactly when its name ends with the
    suffix and neither it nor any directory on the way to it is hidden:
    nothing below a directory whose name starts with a dot is counted.  The
    way to an entry may go through symbolic links to directories, which the
    glob enters as it enters directories. *)
Theorem glob_hits_criterion (tree : list node) :
  ccl_totals (count_code_lines tree)
  = tally (map ccl_contribution
               (flat_map (fun suffix => glob suffix tree) dot_extensions)) /\
  forall suffix p n,
    In (p, n) (glob suffix tree) <->
    exists ds es,
      listing_via tree ds es /\ In n es /\
      forallb visible ds = true /\ visible (node_name n) = true /\
      endswith (node_name n) suffix = true /\
      p = path_join (glob_dir ds) (node_name n).
Proof.
  split; [apply count_code_lines_totals|].
  intros suffix p n. unfold glob. rewrite in_flat_map. split.
  - intros [[q es] [Hde Hin]]. cbn [fst snd] in Hin.
    apply in_map_iff in Hin. destruct Hin as [n' [E Hn']].
    injection E as <- <-. unfold glob1 in Hn'. apply filter_In in Hn'.
    destruct Hn' as [Hn' Hf]. apply andb_true_iff in Hf.
    destruct Hf as [Hv He].
    apply glob2_In in Hde. destruct Hde as [ds [Hl [Hvs ->]]].
    exists ds, es. repeat split; assumption.
  - intros [ds [es [Hl [Hn [Hvs [Hv [He ->]]]]]]].
    exists (glob_dir ds, es). split.
    + apply glob2_In. exists ds. repeat split; assumption.
    + cbn [fst snd]. apply in_map_iff. exists n. split; [reflexivity|].
      unfold glob1. apply filter_In. split; [exact Hn|].
      apply andb_true_iff. split; assumption.
Qed.

End PlacesFacts.
(** ** The line counters: the breakdowns and the reports *)

Module ReportFacts.
Import PyStrFacts PyDictFacts FormExtract ExtractFacts Counters Places.
Import PathFacts CounterFacts PlacesFacts Reports.

(** An invariant of the body of [for file in files] holds after the walk
    loop. *)
Lemma fold_walk_inv (S : Type) (Inv : S -> Prop)
      (step : S -> pystr * fcontent -> S) :
  (forall st f, Inv st -> Inv (step st f)) ->
  forall (items : list walk_item) st, Inv st ->
    Inv (fold_left
           (fun st (item : walk_item) =>
              let '(root, _, files) := item in
              if root_excluded root then st else fold_left step files st)
           items st).
Proof.
  intros Hstep.
  assert (forall files st, Inv st -> Inv (fold_left step files st)) as Hfiles.
  { induction files as [|f files IH]; intros st Hst; cbn [fold_left];
      [exact Hst | apply IH, Hstep, Hst]. }
  induction items as [|[[root dirs] files] items IH]; intros st Hst;
    cbn [fold_left]; [exact Hst|].
  apply IH. destruct (root_excluded root); [exact Hst | apply Hfiles, Hst].
Qed.

Lemma counter_add_known (c : list (pystr * nat)) (k : pystr) (n : nat) :
  in_list k (map fst c) = true ->
  map fst (counter_add PyStr.eqb c k n) = map fst c.
Proof.
  intros H. rewrite (counter_add_keys _ PyStr.eqb).
  replace (existsb (fun k' => PyStr.eqb k' k) (map fst c)) with true;
    [reflexivity|].
  symmetry. unfold in_list in H. apply existsb_exists in H.
  destruct H as [x [Hx E]]. apply existsb_exists. exists x.
  split; [exact Hx|]. apply eqb_eq in E. subst x. apply eqb_refl.
Qed.

Lemma by_total_add (d : list (pystr * (nat * nat))) (ext : pystr)
      (lines : nat) :
  by_total (by_extension_add d ext lines)
  = (fst (by_total d) + 1, snd (by_total d) + lines).
Proof.
  induction d as [|[k [f l]] d IH]; cbn [by_extension_add].
  - cbn. f_equal; lia.
  - destruct (PyStr.eqb k ext).
    + cbn [by_total fold_right fst snd]. fold (by_total d). f_equal; lia.
    + cbn [by_total fold_right fst snd]. fold (by_total (by_extension_add d ext lines)).
      fold (by_total d). rewrite IH. cbn [fst snd]. f_equal; lia.
Qed.

(** X16: in each walking script the per-extension breakdown adds up to the
    totals: the dictionaries of [count_lines.py] and [accurate_count.py]
    keep exactly their four initial keys, and in all four scripts the file
    counts and the line counts by extension sum to the total number of
    files and the total number of lines. *)
Theorem breakdowns_add_up (tree : list node) :
  (let st := count_lines_main tree in
   map fst (cl_file_counts st) = extensions /\
   map fst (cl_line_counts st) = extensions /\
   counter_total (cl_line_counts st) = cl_total_lines st) /\
  (let st := accurate_count tree in
   map fst (ac_file_counts st) = dot_extensions /\
   map fst (ac_line_counts st) = dot_extensions /\
   counter_total (ac_file_counts st) = ac_total_files st /\
   counter_total (ac_line_counts st) = ac_total_lines st) /\
  (let st := final_count tree in
   by_total (fc_by_extension st) = (fc_total_files st, fc_total_lines st)) /\
  (let st := simple_count tree in
   counter_total (sc_files_by_ext st) = sc_total_files st /\
   counter_total (sc_lines_by_ext st) = sc_total_lines st).
Proof.
  split; [|split; [|split]].
  - unfold count_lines_main.
    change cl_walk_step with
      (fun st (item : walk_item) =>
         let '(root, _, files) := item in
         if root_excluded root then st else fold_left cl_file_step files st).
    apply (fold_walk_inv cl_state
             (fun st => map fst (cl_file_counts st) = extensions /\
                        map fst (cl_line_counts st) = extensions /\
                        counter_total (cl_line_counts st) = cl_total_lines st)).
    + intros st f [H1 [H2 H3]]. unfold cl_file_step.
      destruct (in_list (last_segment (fst f)) extensions) eqn:E;
        [|repeat split; assumption].
      cbn [cl_file_counts cl_line_counts cl_total_lines].
      rewrite !counter_add_known by (rewrite ?H1, ?H2; exact E).
      rewrite (counter_total_add _ PyStr.eqb). repeat split; try assumption.
      lia.
    + repeat split.
  - unfold accurate_count.
    change ac_walk_step with
      (fun st (item : walk_item) =>
         let '(root, _, files) := item in
         if root_excluded root then st else fold_left ac_file_step files st).
    apply (fold_walk_inv ac_state
             (fun st => map fst (ac_file_counts st) = dot_extensions /\
                        map fst (ac_line_counts st) = dot_extensions /\
                        counter_total (ac_file_counts st) = ac_total_files st /\
                        counter_total (ac_line_counts st) = ac_total_lines st)).
    + intros st f [H1 [H2 [H3 H4]]]. unfold ac_file_step.
      destruct (in_list (splitext_ext (fst f)) (map fst (ac_file_counts st)))
        eqn:E; [|repeat split; assumption].
      destruct (read_ignore (snd f)) as [lines|]; [|repeat split; assumption].
      cbn [ac_file_counts ac_line_counts ac_total_files ac_total_lines].
      rewrite !counter_add_known by (rewrite ?H2, <- ?H1; exact E).
      rewrite !(counter_total_add _ PyStr.eqb).
      repeat split; try assumption; lia.
    + repeat split.
  - unfold final_count.
    change fc_walk_step with
      (fun st (item : walk_item) =>
         let '(root, _, files) := item in
         if root_excluded root then st else fold_left fc_file_step files st).
    apply (fold_walk_inv fc_state
             (fun st => by_total (fc_by_extension st)
                        = (fc_total_files st, fc_total_lines st))).
    + intros st f H. unfold fc_file_step.
      destruct (has_dot_extension (fst f)); [|exact H].
      destruct (read_ignore (snd f)) as [lines|]; [|exact H].
      cbn [fc_by_extension fc_total_files fc_total_lines].
      rewrite by_total_add, H. reflexivity.
    + reflexivity.
  - unfold simple_count.
    change sc_walk_step with
      (fun st (item : walk_item) =>
         let '(root, _, files) := item in
         if root_excluded root then st else fold_left sc_file_step files st).
    apply (fold_walk_inv sc_state
             (fun st => counter_total (sc_files_by_ext st) = sc_total_files st /\
                        counter_total (sc_lines_by_ext st) = sc_total_lines st)).
    + intros st f [H1 H2]. unfold sc_file_step.
      destruct (has_dot_extension (fst f)); [|split; assumption].
      destruct (read_ignore (snd f)) as [lines|]; [|split; assumption].
      cbn [sc_files_by_ext sc_lines_by_ext sc_total_files sc_total_lines].
      rewrite !(counter_total_add _ PyStr.eqb). split; lia.
    + split; reflexivity.
Qed.

(** *** count_lines.py: the directory breakdown *)

Lemma totals_le_refl (t : nat * nat) : totals_le t t.
Proof. split; lia. Qed.

Lemma totals_le_trans (a b c : nat * nat) :
  totals_le a b -> totals_le b c -> totals_le a c.
Proof. intros [H1 H2] [H3 H4]. split; lia. Qed.

Lemma dir_file_step_contribution (t : nat * nat) (file : pystr * fcontent) :
  dir_file_step t file = add_contribution t (cl_contribution file).
Proof.
  unfold dir_file_step, cl_contribution.
  destruct (in_list (last_segment (fst file)) extensions); reflexivity.
Qed.

Lemma fold_dir_file_step (files : list (pystr * fcontent)) (t : nat * nat) :
  fold_left dir_file_step files t
  = (fst t + fst (tally (map cl_contribution files)),
     snd t + snd (tally (map cl_contribution files))).
Proof.
  revert t. induction files as [|f files IH]; intros t; cbn [fold_left map].
  - destruct t; cbn. f_equal; lia.
  - rewrite IH, dir_file_step_contribution.
    destruct (cl_contribution f) as [n|]; cbn [add_contribution tally fst snd];
      [f_equal; lia | reflexivity].
Qed.

Lemma fold_dir_walk_step (items : list walk_item) (t : nat * nat) :
  fold_left dir_walk_step items t
  = (fst t + fst (tally (map cl_contribution (items_files items))),
     snd t + snd (tally (map cl_contribution (items_files items)))).
Proof.
  revert t. induction items as [|[[root dirs] files] items IH]; intros t;
    cbn [fold_left items_files flat_map snd].
  - destruct t; cbn. f_equal; lia.
  - rewrite IH. cbn [dir_walk_step]. rewrite fold_dir_file_step.
    fold (items_files items). rewrite map_app, tally_app.
    cbn [fst snd]. f_equal; lia.
Qed.

(** The files of a walk do not depend on the name of its top. *)
Lemma items_files_walk_node (n : node) :
  forall parent parent',
  items_files (walk_node parent n) = items_files (walk_node parent' n).
Proof.
  induction n as [f c|d entries IH|d entries _] using node_ind2;
    intros parent parent'; cbn [walk_node]; [reflexivity | | reflexivity].
  destruct (kept d); [|reflexivity].
  cbn [items_files flat_map snd]. f_equal.
  fold (items_files (flat_map (walk_node (path_join parent d)) entries)).
  fold (items_files (flat_map (walk_node (path_join parent' d)) entries)).
  induction IH as [|n entries Hn _ IHe]; [reflexivity|].
  cbn [flat_map]. unfold items_files in *. rewrite !flat_map_app.
  rewrite (Hn (path_join parent d) (path_join parent' d)), IHe.
  reflexivity.
Qed.

Lemma items_files_walk (top top' : pystr) (entries : list node) :
  items_files (walk top entries) = items_files (walk top' entries).
Proof.
  unfold walk. cbn [items_files flat_map snd]. f_equal.
  induction entries as [|n entries IH]; [reflexivity|].
  cbn [flat_map]. rewrite !flat_map_app.
  fold (items_files (walk_node top n)). fold (items_files (walk_node top' n)).
  rewrite (items_files_walk_node n top top'), IH. reflexivity.
Qed.

(** The substring test only takes files away. *)
Lemma reached_le (items : list walk_item) :
  totals_le (tally (map cl_contribution (flat_map reached items)))
            (tally (map cl_contribution (items_files items))).
Proof.
  induction items as [|[[root dirs] files] items [IH1 IH2]];
    [apply totals_le_refl|].
  cbn [flat_map items_files reached snd]. fold (items_files items).
  rewrite !map_app, !tally_app.
  destruct (root_excluded root); cbn [app map tally fst snd];
    split; cbn [fst snd]; lia.
Qed.

(** X18: what the directory breakdown of [count_lines.py] counts for a
    directory: the files with a counted extension (the lines of those it
    can read) among the files reached through directory names outside the
    exclusion list; no substring test is made, so the count is at least
    what the loop of the totals counts below the same directory.  A line is
    printed only for a path that names a directory, or a symbolic link to
    one, with a positive count. *)
Theorem directory_breakdown_counts (dir_path : pystr)
        (entries : list node) :
  dir_count dir_path entries
  = tally (map cl_contribution (items_files (walk dir_path entries))) /\
  (forall f c,
     In (f, c) (items_files (walk dir_path entries)) <->
     exists ds es, listing_at entries ds es /\ In (File f c) es /\
                   forallb kept ds = true) /\
  (forall top,
     totals_le (tally (map cl_contribution
                           (flat_map reached (walk top entries))))
               (dir_count dir_path entries)) /\
  (forall tree p t,
     In (p, t) (directory_breakdown tree) ->
     0 < fst t /\
     exists components d sub,
       In components main_dirs /\ p = Reports.dir_path components /\
       (resolve tree components = Some (Dir d sub) \/
        resolve tree components = Some (Link d sub)) /\
       t = dir_count p sub).
Proof.
  assert (dir_count dir_path entries
          = tally (map cl_contribution (items_files (walk dir_path entries))))
    as Hcount.
  { unfold dir_count. rewrite fold_dir_walk_step. cbn [fst snd].
    destruct (tally _); reflexivity. }
  split; [exact Hcount|]. split; [|split].
  - intros f c. unfold items_files. rewrite in_flat_map. split.
    + intros [item [Hitem Hin]]. apply walk_In in Hitem.
      destruct Hitem as [ds [es [Hl [Hk ->]]]]. cbn [snd] in Hin.
      exists ds, es. split; [exact Hl|].
      split; [apply files_of_In; exact Hin | exact Hk].
    + intros [ds [es [Hl [Hin Hk]]]].
      exists (walk_root dir_path ds, dirs_of es, files_of es). split.
      * apply walk_In. exists ds, es. repeat split; assumption.
      * cbn [snd]. apply files_of_In. exact Hin.
  - intros top. rewrite Hcount, (items_files_walk dir_path top).
    apply reached_le.
  - intros tree p t Hin. unfold directory_breakdown in Hin.
    apply in_flat_map in Hin. destruct Hin as [components [Hc Hin]].
    destruct (resolve tree components) as [[f c|d sub|d sub]|] eqn:Er;
      try contradiction;
      cbv zeta in Hin;
      (destruct (0 <? fst (dir_count (Reports.dir_path components) sub))
         eqn:Ep; [|contradiction]);
      destruct Hin as [E|[]]; injection E as <- <-;
      (split; [apply Nat.ltb_lt; exact Ep|]);
      exists components, d, sub;
      (split; [exact Hc|]); (split; [reflexivity|]);
      (split; [|reflexivity]); [left | right]; exact Er.
Qed.

(** On the sample tree the breakdown counts [builder/a.ts], which the
    totals skip. *)
Lemma directory_breakdown_sample :
  directory_breakdown MoreSamples.tree_app = [(str "src/app", (2, 13))] /\
  cl_totals (count_lines_main MoreSamples.tree_app) = (2, 12).
Proof. vm_compute. split; reflexivity. Qed.

(** *** The totals of the walking scripts, compared *)

Lemma tally_mono (A : Type) (c1 c2 : A -> contribution) (l : list A) :
  (forall x, c1 x = None \/ c1 x = c2 x) ->
  totals_le (tally (map c1 l)) (tally (map c2 l)).
Proof.
  intros H. induction l as [|x l [IH1 IH2]]; [apply totals_le_refl|].
  cbn [map]. destruct (H x) as [E|E]; rewrite E.
  - destruct (c2 x); cbn [tally fst snd]; split; cbn [fst snd]; lia.
  - destruct (c2 x); cbn [tally fst snd]; split; cbn [fst snd]; lia.
Qed.

(** X22: on every tree the totals of the walking scripts are ordered:
    [accurate_count.py] never reports more files or lines than
    [final_count.py] and [simple_count.py], and these never more than
    [count_lines.py]. *)
Theorem walking_totals_ordered (tree : list node) :
  totals_le (ac_totals (accurate_count tree)) (fc_totals (final_count tree))
  /\
  totals_le (ac_totals (accurate_count tree)) (sc_totals (simple_count tree))
  /\
  totals_le (fc_totals (final_count tree)) (cl_totals (count_lines_main tree))
  /\
  totals_le (sc_totals (simple_count tree)) (cl_totals (count_lines_main tree)).
Proof.
  rewrite accurate_count_totals, final_count_totals, simple_count_totals,
    count_lines_totals.
  assert (totals_le (tally (map ac_contribution (walk_files tree)))
                    (tally (map fc_contribution (walk_files tree)))) as H1.
  { apply tally_mono. intros f. unfold ac_contribution, fc_contribution.
    destruct (in_list (splitext_ext (fst f)) dot_extensions) eqn:E;
      [|left; reflexivity].
    rewrite (splitext_has_dot_extension _ E). right. reflexivity. }
  assert (totals_le (tally (map fc_contribution (walk_files tree)))
                    (tally (map cl_contribution (walk_files tree)))) as H2.
  { apply tally_mono. intros f. unfold fc_contribution, cl_contribution.
    destruct (has_dot_extension (fst f)) eqn:E; [|left; reflexivity].
    rewrite (has_dot_extension_last_segment _ E).
    unfold count_lines_in_file.
    destruct (read_ignore (snd f)); [right | left]; reflexivity. }
  repeat split; try apply H1; try apply H2.
Qed.

(** *** The reports: largest files and breakdowns *)

Lemma fold_left_inv (S X : Type) (Inv : S -> Prop) (step : S -> X -> S) :
  (forall st x, Inv st -> Inv (step st x)) ->
  forall l st, Inv st -> Inv (fold_left step l st).
Proof.
  intros Hstep. induction l as [|x l IH]; intros st Hst; cbn [fold_left];
    [exact Hst | apply IH, Hstep, Hst].
Qed.

Lemma list_sum_perm (l l' : list nat) :
  Permutation l l' -> list_sum l = list_sum l'.
Proof. intros H. induction H; simpl; lia. Qed.

Section SortDesc.
Variable A : Type.
Variable lines : A -> nat.

Lemma sort_desc_perm (l : list A) : Permutation l (sort_desc lines l).
Proof. apply sort_by_perm. Qed.

Lemma sort_desc_sorted (l : list A) :
  StronglySorted (fun x y => lines y <= lines x) (sort_desc lines l).
Proof.
  unfold sort_desc.
  pose proof (sort_by_sorted _ (fun x => (- Z.of_nat (lines x))%Z) l) as H.
  induction H as [|x l' _ IH Hx]; constructor; [exact IH|].
  eapply Forall_impl; [|exact Hx]. intros y Hy. unfold key_le in Hy. lia.
Qed.

Lemma sorted_firstn (R : A -> A -> Prop) (l : list A) (k : nat) :
  StronglySorted R l -> StronglySorted R (firstn k l).
Proof.
  intros H. revert k. induction H as [|x l _ IH Hx]; intros [|k];
    cbn [firstn]; constructor; [apply IH|].
  rewrite <- (firstn_skipn k l) in Hx. apply Forall_app in Hx. tauto.
Qed.

Lemma sorted_split (R : A -> A -> Prop) (l : list A) (k : nat) :
  StronglySorted R l ->
  forall x y, In x (firstn k l) -> In y (skipn k l) -> R x y.
Proof.
  intros H. revert k. induction H as [|a l _ IH Ha]; intros [|k] x y Hx Hy;
    cbn [firstn skipn] in *; try contradiction.
  destruct Hx as [<-|Hx]; [|exact (IH k x y Hx Hy)].
  rewrite Forall_forall in Ha. apply Ha. exact (In_skipn_in _ _ _ _ Hy).
Qed.

(** The first ten of a list sorted by descending line count: at most ten,
    in descending order, and none of the others has more lines than any of
    them. *)
Lemma top_ten (l : list A) :
  let top := firstn 10 (sort_desc lines l) in
  length top = Nat.min 10 (length l) /\
  StronglySorted (fun x y => lines y <= lines x) top /\
  exists rest,
    Permutation (top ++ rest) l /\
    forall x y, In x top -> In y rest -> lines y <= lines x.
Proof.
  cbv zeta. split; [|split].
  - rewrite length_firstn.
    rewrite <- (Permutation_length (sort_desc_perm l)). reflexivity.
  - apply sorted_firstn, sort_desc_sorted.
  - exists (skipn 10 (sort_desc lines l)). split.
    + rewrite firstn_skipn. apply Permutation_sym, sort_desc_perm.
    + apply (sorted_split (fun x y => lines y <= lines x)).
      apply sort_desc_sorted.
Qed.

End SortDesc.

Lemma fold_ext_step (l : list (pystr * nat))
      (st : list (pystr * nat) * list (pystr * nat)) :
  counter_total (fst (fold_left ext_step l st))
  = counter_total (fst st) + length l /\
  counter_total (snd (fold_left ext_step l st))
  = counter_total (snd st) + list_sum (map snd l).
Proof.
  revert st. induction l as [|x l IH]; intros st; cbn [fold_left].
  - cbn. split; lia.
  - destruct (IH (ext_step st x)) as [H1 H2]. rewrite H1, H2.
    unfold ext_step. cbn [fst snd].
    rewrite !(counter_total_add _ PyStr.eqb). cbn [length map].
    change (list_sum (snd x :: map snd l))
      with (snd x + list_sum (map snd l)).
    split; lia.
Qed.

Lemma count_code_lines_details (tree : list node) :
  let st := count_code_lines tree in
  ccl_total_files st = length (ccl_file_details st) /\
  ccl_total_lines st = list_sum (map snd (ccl_file_details st)).
Proof.
  cbv zeta. unfold count_code_lines.
  pose (Inv := fun st : ccl_state =>
                 ccl_total_files st = length (ccl_file_details st) /\
                 ccl_total_lines st
                 = list_sum (map snd (ccl_file_details st))).
  apply (fold_left_inv ccl_state pystr Inv); [|split; reflexivity].
  intros st0 suffix Hst.
  apply (fold_left_inv ccl_state (pystr * node) Inv); [|exact Hst].
  intros st hit [H1 H2]. unfold Inv, ccl_path_step.
  destruct (contains (str "node_modules") (fst hit)
            || contains (str ".next") (fst hit)); [split; assumption|].
  destruct (open_strict (snd hit)) as [lines|]; [|split; assumption].
  cbn [ccl_total_files ccl_total_lines ccl_file_details].
  rewrite length_app, map_app, list_sum_app. cbn [length map snd].
  change (list_sum [lines]) with (lines + 0).
  split; lia.
Qed.

(** X20: in the report of [count_code_lines.py] the totals are the number
    of the files read and the sum of their lines; the counts by extension
    add up to the totals; and the list of largest files has ten entries (or
    all, if fewer), in descending order of lines, none of the files left
    out having more lines than a file listed. *)
Theorem code_lines_report (tree : list node) :
  let st := count_code_lines tree in
  let r := count_lines_and_files tree in
  rp_total_files r = length (ccl_file_details st) /\
  rp_total_lines r = list_sum (map snd (ccl_file_details st)) /\
  counter_total (rp_ext_counts r) = rp_total_files r /\
  counter_total (rp_ext_lines r) = rp_total_lines r /\
  length (rp_top10 r) = Nat.min 10 (rp_total_files r) /\
  StronglySorted (fun x y => snd y <= snd x) (rp_top10 r) /\
  exists rest,
    Permutation (rp_top10 r ++ rest) (ccl_file_details st) /\
    forall x y, In x (rp_top10 r) -> In y rest -> snd y <= snd x.
Proof.
  cbv zeta. unfold count_lines_and_files, report_of.
  cbn [rp_total_files rp_total_lines rp_top10 rp_ext_counts rp_ext_lines].
  destruct (count_code_lines_details tree) as [Hf Hl].
  set (st := count_code_lines tree) in *.
  set (details := ccl_file_details st) in *.
  destruct (fold_ext_step (sort_desc (fun x : pystr * nat => snd x) details)
              ([], [])) as [E1 E2].
  pose proof (sort_desc_perm _ (fun x : pystr * nat => snd x) details) as Hp.
  destruct (top_ten _ (fun x : pystr * nat => snd x) details)
    as [T1 [T2 T3]].
  split; [exact Hf|]. split; [exact Hl|].
  split; [rewrite E1, Hf, <- (Permutation_length Hp); reflexivity|].
  split.
  { rewrite E2, Hl.
    rewrite <- (list_sum_perm _ _ (Permutation_map snd Hp)). reflexivity. }
  split; [rewrite Hf; exact T1|]. split; [exact T2 | exact T3].
Qed.

(** *** final_count.py: directories and largest files *)

(** Replacing a character by the empty string removes it everywhere. *)
Lemma replace_char (s : pystr) (c : ascii) :
  replace s [c] [] = filter (fun x => negb (Ascii.eqb c x)) s.
Proof.
  unfold replace. induction s as [|x s IH]; [reflexivity|].
  cbn [replace_from startswith filter length Nat.sub app].
  rewrite andb_true_r, IH. destruct (Ascii.eqb c x); reflexivity.
Qed.

Lemma replace_char_absent (s : pystr) (c : ascii) :
  ~ In c (replace s [c] []).
Proof.
  rewrite replace_char. intros H. apply filter_In in H.
  destruct H as [_ H]. rewrite Ascii.eqb_refl in H. discriminate.
Qed.

Lemma lstrip_slash_In (x : ascii) (s : pystr) :
  In x (lstrip_slash s) -> In x s.
Proof.
  induction s as [|c s IH]; cbn [lstrip_slash]; [tauto|].
  destruct (Ascii.eqb c "/"%char); [right; auto | tauto].
Qed.

Lemma lstrip_slash_head (s : pystr) :
  lstrip_slash s = [] \/
  exists c t, lstrip_slash s = c :: t /\ Ascii.eqb c "/"%char = false.
Proof.
  induction s as [|c s IH]; cbn [lstrip_slash]; [left; reflexivity|].
  destruct (Ascii.eqb c "/"%char) eqn:E; [exact IH|].
  right. exists c, s. split; [reflexivity | exact E].
Qed.

Lemma first_segment_In (x : ascii) (s : pystr) :
  In x (first_segment s) -> In x s /\ x <> "/"%char.
Proof.
  induction s as [|c s IH]; cbn [first_segment]; [tauto|].
  destruct (Ascii.eqb_spec c "/"%char) as [E|E]; [contradiction|].
  intros [<-|H]; [split; [left; reflexivity | exact E]|].
  destruct (IH H) as [H1 H2]. split; [right; exact H1 | exact H2].
Qed.

Lemma contains_char_In (c : ascii) (s : pystr) :
  In c s -> contains [c] s = true.
Proof.
  induction s as [|x s IH]; [contradiction|].
  intros [->|H]; cbn [contains startswith].
  - rewrite Ascii.eqb_refl. reflexivity.
  - rewrite (IH H). apply orb_true_r.
Qed.

(** The key of line 49: not empty, and without ['.'] and ['/']. *)
Lemma dir_key_clean (root : pystr) :
  let key := dir_key (relative_dir (str ".") root) in
  key <> [] /\ ~ In "."%char key /\ ~ In "/"%char key.
Proof.
  cbv zeta. unfold relative_dir.
  set (r0 := lstrip_slash (replace root (str ".") [])).
  assert (~ In "."%char r0) as Hdot0.
  { intros H. apply lstrip_slash_In in H.
    exact (replace_char_absent root "."%char H). }
  set (r := if PyStr.eqb r0 [] then str "root" else r0).
  assert (~ In "."%char r /\
          exists c t, r = c :: t /\ Ascii.eqb c "/"%char = false)
    as [Hdot [c [t [Er Ec]]]].
  { subst r. destruct (PyStr.eqb r0 []) eqn:E0.
    - split; [no_char|]. eexists; eexists. split; reflexivity.
    - split; [exact Hdot0|].
      destruct (lstrip_slash_head (replace root (str ".") []))
        as [E|[c [t [E Ec]]]]; fold r0 in E.
      + rewrite E in E0. discriminate.
      + exists c, t. split; assumption. }
  unfold dir_key. destruct (contains (str "/") r) eqn:Es.
  - split; [|split].
    + rewrite Er. cbn [first_segment]. rewrite Ec. discriminate.
    + intros H. apply first_segment_In in H. tauto.
    + intros H. apply first_segment_In in H. destruct H as [_ H].
      apply H. reflexivity.
  - split; [rewrite Er; discriminate|]. split; [exact Hdot|].
    intros H. apply contains_char_In in H.
    change (contains (str "/") r = true) in H. congruence.
Qed.

Lemma by_extension_add_keys (P : pystr -> Prop)
      (d : list (pystr * (nat * nat))) (k : pystr) (lines : nat) :
  Forall (fun kv => P (fst kv)) d -> P k ->
  Forall (fun kv => P (fst kv)) (by_extension_add d k lines).
Proof.
  intros Hd Hk. induction Hd as [|[k' [f l]] d Hx Hd' IH];
    cbn [by_extension_add]; [constructor; [exact Hk | constructor]|].
  destruct (PyStr.eqb k' k); constructor; try assumption; exact Hx.
Qed.

Lemma fr_file_step_counts (directory root : pystr) (st : fr_state)
      (file : pystr * fcontent) :
  fr_counts (fr_file_step directory root st file)
  = fc_file_step (fr_counts st) file.
Proof.
  unfold fr_file_step, fc_file_step.
  destruct (has_dot_extension (fst file)); [|reflexivity].
  destruct (read_ignore (snd file)); reflexivity.
Qed.

Lemma fr_loop_counts (directory : pystr) (items : list walk_item) :
  forall st,
  fr_counts (fold_left (fr_walk_step directory) items st)
  = fold_left fc_walk_step items (fr_counts st).
Proof.
  induction items as [|[[root dirs] files] items IH]; intros st;
    cbn [fold_left]; [reflexivity|].
  rewrite IH. f_equal. cbn [fr_walk_step fc_walk_step].
  destruct (root_excluded root); [reflexivity|].
  clear IH. revert st. induction files as [|f files IHf]; intros st;
    cbn [fold_left]; [reflexivity|].
  rewrite IHf, fr_file_step_counts. reflexivity.
Qed.

(** What the loop of [final_count.py] keeps true of its state. *)
Lemma fr_loop_inv (tree : list node) :
  let st := fr_loop (str ".") tree in
  by_total (fr_by_directory st) = (fr_total_files st, fr_total_lines st) /\
  Forall (fun kv => fst kv <> [] /\ ~ In "."%char (fst kv) /\
                    ~ In "/"%char (fst kv)) (fr_by_directory st) /\
  Forall (fun e => ~ In "."%char (lf_path e)) (fr_file_data st) /\
  length (fr_file_data st) = fr_total_files st.
Proof.
  cbv zeta. unfold fr_loop.
  pose (Inv := fun st : fr_state =>
    by_total (fr_by_directory st) = (fr_total_files st, fr_total_lines st) /\
    Forall (fun kv => fst kv <> [] /\ ~ In "."%char (fst kv) /\
                      ~ In "/"%char (fst kv)) (fr_by_directory st) /\
    Forall (fun e => ~ In "."%char (lf_path e)) (fr_file_data st) /\
    length (fr_file_data st) = fr_total_files st).
  apply (fold_left_inv fr_state walk_item Inv);
    [|repeat split; constructor].
  intros st [[root dirs] files] Hst. cbn [fr_walk_step].
  destruct (root_excluded root); [exact Hst|].
  apply (fold_left_inv fr_state (pystr * fcontent) Inv); [|exact Hst].
  clear st Hst. intros st f [H1 [H2 [H3 H4]]]. unfold Inv, fr_file_step.
  destruct (has_dot_extension (fst f)); [|repeat split; assumption].
  destruct (read_ignore (snd f)) as [lines|]; [|repeat split; assumption].
  cbn [fr_by_directory fr_total_files fr_total_lines fr_file_data].
  split; [rewrite by_total_add, H1; reflexivity|].
  split.
  { apply (by_extension_add_keys
             (fun k => k <> [] /\ ~ In "."%char k /\ ~ In "/"%char k));
      [exact H2 | apply dir_key_clean]. }
  split.
  { apply Forall_app. split; [exact H3|]. constructor; [|constructor].
    cbn [lf_path]. apply replace_char_absent. }
  rewrite length_app. cbn [length]. lia.
Qed.

(** X21: the results of [final_count.py] for the directory ['.']: the
    totals and the counts by extension are those of the loop; the counts by
    directory add up to the totals, and their keys are not empty and hold
    neither ['.'] nor ['/'] (every dot of a directory's path is removed
    with the leading one); the paths of the largest files hold no ['.']
    either; and the largest files are ten (or all, if fewer), in descending
    order of lines, none of the files left out having more lines. *)
Theorem final_results_report (tree : list node) :
  let r := final_results (str ".") tree in
  fc_totals (final_count tree) = (res_total_files r, res_total_lines r) /\
  res_by_extension r = fc_by_extension (final_count tree) /\
  by_total (res_by_directory r) = (res_total_files r, res_total_lines r) /\
  Forall (fun kv => fst kv <> [] /\ ~ In "."%char (fst kv) /\
                    ~ In "/"%char (fst kv)) (res_by_directory r) /\
  Forall (fun e => ~ In "."%char (lf_path e)) (res_largest_files r) /\
  length (res_largest_files r) = Nat.min 10 (res_total_files r) /\
  StronglySorted (fun x y => lf_lines y <= lf_lines x)
                 (res_largest_files r) /\
  exists rest,
    Permutation (res_largest_files r ++ rest)
                (fr_file_data (fr_loop (str ".") tree)) /\
    forall x y, In x (res_largest_files r) -> In y rest ->
                lf_lines y <= lf_lines x.
Proof.
  cbv zeta. unfold final_results.
  cbn [res_total_files res_total_lines res_by_extension res_by_directory
       res_largest_files].
  destruct (fr_loop_inv tree) as [H1 [H2 [H3 H4]]].
  assert (fr_counts (fr_loop (str ".") tree) = final_count tree) as Hc.
  { unfold fr_loop, final_count. rewrite fr_loop_counts. reflexivity. }
  set (st := fr_loop (str ".") tree) in *.
  destruct (top_ten _ lf_lines (fr_file_data st)) as [T1 [T2 [rest [T3 T4]]]].
  split; [rewrite <- Hc; reflexivity|].
  split; [rewrite <- Hc; reflexivity|].
  split; [exact H1|]. split; [exact H2|].
  split.
  { apply Forall_forall. intros e He. rewrite Forall_forall in H3.
    apply H3. apply (Permutation_in e T3). apply in_or_app. left. exact He. }
  split; [rewrite <- H4; exact T1|]. split; [exact T2|].
  exists rest. split; [exact T3 | exact T4].
Qed.

(** On the sample tree: the files of [src/app/builder] are skipped, and
    the file of [src/app] is reported under the key [src] with the path
    [/src/app/pagetsx]. *)
Lemma final_results_sample :
  res_by_directory (final_results (str ".") MoreSamples.tree_app)
  = [(str "root", (1, 2)); (str "src", (1, 10))] /\
  map lf_path (res_largest_files (final_results (str ".") MoreSamples.tree_app))
  = [str "/src/app/pagetsx"; str "/xjs"].
Proof. vm_compute. split; reflexivity. Qed.

End ReportFacts.
